(** * DOS keyboard layouts and code pages (src/dos/dos_keyboard_layout.cpp)

    A shallow embedding of the keyboard-layout engine: the KL/KCL parsers,
    the per-keystroke translation with its dead-key state machine, the
    CPI/CPX code-page loader and the layout session, followed by the
    properties of the specification that were checked against it.

    Conventions.  Machine integers are [Z] with the wrap-around of their
    C++ type written out ([u8], [u16], [u32]).  A C array is a list read
    with default [0] together with its declared size, which every access
    checks: an access outside the array is undefined behaviour in C++ and
    is the outcome [Fault] here.  C strings are lists of character codes
    without the terminating NUL. *)

From Stdlib Require Import ZArith List Bool Lia String Ascii.
Import ListNotations.
Open Scope Z_scope.

(** ** Outcomes of a computation *)

(** The arrays of the program. *)
Inductive array : Type :=
| read_buf_         (* static uint8_t read_buf[65535] *)
| kcl_data_         (* a built-in library, std::vector<uint8_t> *)
| lng_codes_        (* char lng_codes[258] *)
| nbuf_             (* char nbuf[512], char cp_filename[512] *)
| current_layout_   (* uint16_t current_layout[(MAX_SCAN_CODE+1)*layout_pages] *)
| planes_           (* current_layout_planes[layout_pages-4] *)
| diacritics_       (* uint8_t diacritics[2048] *)
| cpi_buf_.         (* std::array<uint8_t, 65536> cpi_buf *)

Inductive outcome (A : Type) : Type :=
| Ok (a : A)   (* normal completion *)
| Fault (a : array) (i : Z)   (* access outside array [a], at index [i] *)
| Throw        (* std::out_of_range raised by std::array::at *)
| Abort        (* a failed assert, or E_Exit *)
| Timeout.     (* the loop was still running when the fuel ran out *)

Arguments Ok {A} a.
Arguments Fault {A} a i.
Arguments Throw {A}.
Arguments Abort {A}.
Arguments Timeout {A}.

Definition bind {A B : Type} (m : outcome A) (k : A -> outcome B) : outcome B :=
  match m with
  | Ok a => k a
  | Fault a i => Fault a i
  | Throw => Throw
  | Abort => Abort
  | Timeout => Timeout
  end.

Notation "x <- m ;; k" := (bind m (fun x => k))
  (at level 61, m at next level, right associativity).
Notation "' p <- m ;; k" := (bind m (fun x => let 'p := x in k))
  (at level 61, p pattern, m at next level, right associativity).

(** [assert(c)] *)
Definition assert (c : bool) : outcome unit := if c then Ok tt else Abort.

(** ** Machine integers *)

Definition u8 (x : Z) : Z := x mod 256.
Definition u16 (x : Z) : Z := x mod 65536.
Definition u32 (x : Z) : Z := x mod 4294967296.

(** Bit [n] of [x] as a C truth value. *)
Definition nonzero (x : Z) : bool := negb (x =? 0).

(** ** Arrays *)

Section Arrays.
Context {A : Type} (name : array) (d : A).

(** [a[i]] for an array of [size] elements. *)
Definition rd (size : Z) (a : list A) (i : Z) : outcome A :=
  if (0 <=? i) && (i <? size) then Ok (nth (Z.to_nat i) a d) else Fault name i.

(** The list with element [n] replaced; a list shorter than [n] stands
    for an array whose remaining elements are [d]. *)
Fixpoint upd (a : list A) (n : nat) (v : A) : list A :=
  match n, a with
  | O, [] => [v]
  | O, _ :: t => v :: t
  | S n', [] => d :: upd [] n' v
  | S n', x :: t => x :: upd t n' v
  end.

(** [a[i] = v] for an array of [size] elements. *)
Definition wr (size : Z) (a : list A) (i : Z) (v : A) : outcome (list A) :=
  if (0 <=? i) && (i <? size) then Ok (upd a (Z.to_nat i) v) else Fault name i.
End Arrays.

Arguments upd {A} d a n v.

(** [host_readw(&a[i])] and [host_readd(&a[i])]: little-endian reads of
    two and four bytes. *)
Definition host_readw (name : array) (size : Z) (a : list Z) (i : Z) : outcome Z :=
  b0 <- rd name 0 size a i ;;
  b1 <- rd name 0 size a (i + 1) ;;
  Ok (Z.lor b0 (Z.shiftl b1 8)).

Definition host_readd (name : array) (size : Z) (a : list Z) (i : Z) : outcome Z :=
  b0 <- rd name 0 size a i ;;
  b1 <- rd name 0 size a (i + 1) ;;
  b2 <- rd name 0 size a (i + 2) ;;
  b3 <- rd name 0 size a (i + 3) ;;
  Ok (Z.lor (Z.lor b0 (Z.shiftl b1 8)) (Z.lor (Z.shiftl b2 16) (Z.shiftl b3 24))).

(** ** C strings *)

Definition str (s : string) : list Z :=
  map (fun c => Z.of_nat (nat_of_ascii c)) (list_ascii_of_string s).

Fixpoint cstr_eqb (a b : list Z) : bool :=
  match a, b with
  | [], [] => true
  | x :: a', y :: b' => (x =? y) && cstr_eqb a' b'
  | _, _ => false
  end.

(** The C string held by a character buffer: its content up to the first NUL. *)
Fixpoint cstr (l : list Z) : list Z :=
  match l with
  | [] => []
  | c :: t => if c =? 0 then [] else c :: cstr t
  end.

Definition tolower (c : Z) : Z :=
  if (65 <=? c) && (c <=? 90) then c + 32 else c.

(** [strcasecmp(a, b) == 0] *)
Definition strcasecmp_eq (a b : list Z) : bool :=
  cstr_eqb (map tolower (cstr a)) (map tolower (cstr b)).

(** [strncasecmp(a, b, n) == 0] *)
Definition strncasecmp_eq (a b : list Z) (n : nat) : bool :=
  cstr_eqb (map tolower (firstn n (cstr a))) (map tolower (firstn n (cstr b))).

(** [safe_strcpy(dst, src)] into [char dst[n]]: a copy cut to [n - 1]
    characters. *)
Definition safe_strcpy (n : nat) (src : list Z) : list Z := firstn (n - 1) src.

(** The digits printed by [sprintf("%d", n)] for [0 <= n < 100000]. *)
Fixpoint dec_digits (fuel : nat) (n : Z) (acc : list Z) : list Z :=
  match fuel with
  | O => acc
  | S f =>
      let acc' := (48 + n mod 10) :: acc in
      if n / 10 =? 0 then acc' else dec_digits f (n / 10) acc'
  end.

Definition decimal (n : Z) : list Z := dec_digits 5 n [].

(** ** Files *)

(** [fread(buf, 1, n, f)] at position [pos]: the bytes delivered. *)
Definition fread (file : list Z) (pos : Z) (n : nat) : list Z :=
  firstn n (skipn (Z.to_nat pos) file).

(** The buffer after [fread] has stored [data] at its start: bytes beyond
    the data keep what the buffer held before. *)
Definition store (data old : list Z) : list Z :=
  data ++ skipn (List.length data) old.

Definition len (l : list Z) : Z := Z.of_nat (List.length l).

(** ** Error codes

    The header that defines the [KEYB_] constants is not part of the
    sources read here; the code tests a returned code only for being
    [KEYB_NOERROR] (zero) or not, so the codes are kept as an enumeration.
    [NO_LAYOUT] is the [0xff] that [DOS_SwitchKeyboardLayout] returns when
    no layout object exists. *)

Inductive keyb_code : Type :=
| KEYB_NOERROR
| KEYB_FILENOTFOUND
| KEYB_INVALIDFILE
| KEYB_LAYOUTNOTFOUND
| KEYB_INVALIDCPFILE
| NO_LAYOUT.

(** [if (kerrcode)] *)
Definition is_error (c : keyb_code) : bool :=
  match c with KEYB_NOERROR => false | _ => true end.

(** ** The environment of the engine

    What the file uses but does not define: the scan-code bound of
    [bios.h], the virtual file system behind [OpenDosboxFile], the
    built-in resources of [dos_resources.h], the UPX unpacking that runs
    the packed file on the emulated CPU, and the video state. *)

Record env : Type := {
  MAX_SCAN_CODE : Z;
  (* OpenDosboxFile(name): the content of the file, if it can be opened *)
  open_file : list Z -> option (list Z);
  (* the four built-in keyboard libraries and the eighteen CPX files *)
  BLOB_KEYBOARD_SYS : Z -> list Z;
  BLOB_EGA_CPX : Z -> list Z;
  FILE_EGA_CPX : Z -> list Z;
  (* DOS_AllocateMemory, MEM_BlockWrite, CALLBACK_RunRealFar, MEM_BlockRead,
     DOS_FreeMemory: the 65536 bytes read back, or no memory *)
  upx_unpack : list Z -> option (list Z);
  (* CurMode->type == M_TEXT and IS_EGAVGA_ARCH *)
  text_mode : bool;
  egavga_arch : bool;
  (* Real2Phys of the int10.rom font pointers *)
  font_16 : Z;
  font_16_alternate : Z;
  font_14 : Z;
  font_14_alternate : Z;
  font_8_first : Z;
  font_8_second : Z
}.

(** Calls of the external primitives, in the order they are made. *)
Inductive event : Type :=
| BIOS_AddKeyToBuffer (code : Z)
| phys_writeb (addr value : Z)
| INT10_ReloadFont
| INT10_SetupRomMemoryChecksum.

(** ** The layout object *)

Definition layout_pages : Z := 12.

Record plane : Type := {
  required_flags : Z;
  forbidden_flags : Z;
  required_userflags : Z;
  forbidden_userflags : Z
}.

Definition plane0 : plane :=
  {| required_flags := 0; forbidden_flags := 0;
     required_userflags := 0; forbidden_userflags := 0 |}.

Record keyboard_layout : Type := {
  current_layout : list Z;              (* uint16_t[(MAX_SCAN_CODE+1)*layout_pages] *)
  current_layout_planes : list plane;   (* [layout_pages-4] *)
  additional_planes : Z;                (* uint8_t *)
  used_lock_modifiers : Z;              (* uint8_t *)
  diacritics : list Z;                  (* uint8_t[2048] *)
  diacritics_entries : Z;               (* uint16_t *)
  diacritics_character : Z;             (* uint16_t *)
  user_keys : Z;                        (* uint16_t *)
  current_keyboard_file_name : list Z;  (* char[256] *)
  use_foreign_layout : bool;
  language_codes : list (list Z)        (* the language_code_count codes *)
}.

Definition set_current_layout (t : list Z) (l : keyboard_layout) :=
  {| current_layout := t;
     current_layout_planes := current_layout_planes l;
     additional_planes := additional_planes l;
     used_lock_modifiers := used_lock_modifiers l;
     diacritics := diacritics l;
     diacritics_entries := diacritics_entries l;
     diacritics_character := diacritics_character l;
     user_keys := user_keys l;
     current_keyboard_file_name := current_keyboard_file_name l;
     use_foreign_layout := use_foreign_layout l;
     language_codes := language_codes l |}.

Definition set_current_layout_planes (p : list plane) (l : keyboard_layout) :=
  {| current_layout := current_layout l;
     current_layout_planes := p;
     additional_planes := additional_planes l;
     used_lock_modifiers := used_lock_modifiers l;
     diacritics := diacritics l;
     diacritics_entries := diacritics_entries l;
     diacritics_character := diacritics_character l;
     user_keys := user_keys l;
     current_keyboard_file_name := current_keyboard_file_name l;
     use_foreign_layout := use_foreign_layout l;
     language_codes := language_codes l |}.

Definition set_additional_planes (n : Z) (l : keyboard_layout) :=
  {| current_layout := current_layout l;
     current_layout_planes := current_layout_planes l;
     additional_planes := n;
     used_lock_modifiers := used_lock_modifiers l;
     diacritics := diacritics l;
     diacritics_entries := diacritics_entries l;
     diacritics_character := diacritics_character l;
     user_keys := user_keys l;
     current_keyboard_file_name := current_keyboard_file_name l;
     use_foreign_layout := use_foreign_layout l;
     language_codes := language_codes l |}.

Definition set_used_lock_modifiers (n : Z) (l : keyboard_layout) :=
  {| current_layout := current_layout l;
     current_layout_planes := current_layout_planes l;
     additional_planes := additional_planes l;
     used_lock_modifiers := n;
     diacritics := diacritics l;
     diacritics_entries := diacritics_entries l;
     diacritics_character := diacritics_character l;
     user_keys := user_keys l;
     current_keyboard_file_name := current_keyboard_file_name l;
     use_foreign_layout := use_foreign_layout l;
     language_codes := language_codes l |}.

Definition set_diacritics (d : list Z) (l : keyboard_layout) :=
  {| current_layout := current_layout l;
     current_layout_planes := current_layout_planes l;
     additional_planes := additional_planes l;
     used_lock_modifiers := used_lock_modifiers l;
     diacritics := d;
     diacritics_entries := diacritics_entries l;
     diacritics_character := diacritics_character l;
     user_keys := user_keys l;
     current_keyboard_file_name := current_keyboard_file_name l;
     use_foreign_layout := use_foreign_layout l;
     language_codes := language_codes l |}.

Definition set_diacritics_entries (n : Z) (l : keyboard_layout) :=
  {| current_layout := current_layout l;
     current_layout_planes := current_layout_planes l;
     additional_planes := additional_planes l;
     used_lock_modifiers := used_lock_modifiers l;
     diacritics := diacritics l;
     diacritics_entries := n;
     diacritics_character := diacritics_character l;
     user_keys := user_keys l;
     current_keyboard_file_name := current_keyboard_file_name l;
     use_foreign_layout := use_foreign_layout l;
     language_codes := language_codes l |}.

Definition set_diacritics_character (n : Z) (l : keyboard_layout) :=
  {| current_layout := current_layout l;
     current_layout_planes := current_layout_planes l;
     additional_planes := additional_planes l;
     used_lock_modifiers := used_lock_modifiers l;
     diacritics := diacritics l;
     diacritics_entries := diacritics_entries l;
     diacritics_character := n;
     user_keys := user_keys l;
     current_keyboard_file_name := current_keyboard_file_name l;
     use_foreign_layout := use_foreign_layout l;
     language_codes := language_codes l |}.

Definition set_user_keys (n : Z) (l : keyboard_layout) :=
  {| current_layout := current_layout l;
     current_layout_planes := current_layout_planes l;
     additional_planes := additional_planes l;
     used_lock_modifiers := used_lock_modifiers l;
     diacritics := diacritics l;
     diacritics_entries := diacritics_entries l;
     diacritics_character := diacritics_character l;
     user_keys := n;
     current_keyboard_file_name := current_keyboard_file_name l;
     use_foreign_layout := use_foreign_layout l;
     language_codes := language_codes l |}.

Definition set_current_keyboard_file_name (n : list Z) (l : keyboard_layout) :=
  {| current_layout := current_layout l;
     current_layout_planes := current_layout_planes l;
     additional_planes := additional_planes l;
     used_lock_modifiers := used_lock_modifiers l;
     diacritics := diacritics l;
     diacritics_entries := diacritics_entries l;
     diacritics_character := diacritics_character l;
     user_keys := user_keys l;
     current_keyboard_file_name := n;
     use_foreign_layout := use_foreign_layout l;
     language_codes := language_codes l |}.

Definition set_use_foreign_layout (b : bool) (l : keyboard_layout) :=
  {| current_layout := current_layout l;
     current_layout_planes := current_layout_planes l;
     additional_planes := additional_planes l;
     used_lock_modifiers := used_lock_modifiers l;
     diacritics := diacritics l;
     diacritics_entries := diacritics_entries l;
     diacritics_character := diacritics_character l;
     user_keys := user_keys l;
     current_keyboard_file_name := current_keyboard_file_name l;
     use_foreign_layout := b;
     language_codes := language_codes l |}.

Definition set_language_codes (c : list (list Z)) (l : keyboard_layout) :=
  {| current_layout := current_layout l;
     current_layout_planes := current_layout_planes l;
     additional_planes := additional_planes l;
     used_lock_modifiers := used_lock_modifiers l;
     diacritics := diacritics l;
     diacritics_entries := diacritics_entries l;
     diacritics_character := diacritics_character l;
     user_keys := user_keys l;
     current_keyboard_file_name := current_keyboard_file_name l;
     use_foreign_layout := use_foreign_layout l;
     language_codes := c |}.

(** ** The machine state shared by all layout objects *)

Record machine : Type := {
  loaded_codepage : Z;     (* dos.loaded_codepage *)
  kl_read_buf : list Z;    (* static read_buf[65535] of read_keyboard_file *)
  cp_read_buf : list Z;    (* static read_buf[65535] of extract_codepage *)
  trace : list event       (* the external calls made so far *)
}.

Definition set_loaded_codepage (c : Z) (m : machine) :=
  {| loaded_codepage := c; kl_read_buf := kl_read_buf m;
     cp_read_buf := cp_read_buf m; trace := trace m |}.

Definition set_kl_read_buf (b : list Z) (m : machine) :=
  {| loaded_codepage := loaded_codepage m; kl_read_buf := b;
     cp_read_buf := cp_read_buf m; trace := trace m |}.

Definition set_cp_read_buf (b : list Z) (m : machine) :=
  {| loaded_codepage := loaded_codepage m; kl_read_buf := kl_read_buf m;
     cp_read_buf := b; trace := trace m |}.

Definition emit (e : event) (m : machine) :=
  {| loaded_codepage := loaded_codepage m; kl_read_buf := kl_read_buf m;
     cp_read_buf := cp_read_buf m; trace := trace m ++ [e] |}.

(** [sizeof(read_buf)] *)
Definition READ_BUF : Z := 65535.

Section Engine.

Variable E : env.

(** [sizeof(current_layout) / sizeof(uint16_t)] *)
Definition TABLE : Z := (MAX_SCAN_CODE E + 1) * layout_pages.

(** ** [keyboard_layout::reset] and the constructor *)

Definition reset (l : keyboard_layout) : keyboard_layout :=
  {| current_layout := repeat 0 (Z.to_nat TABLE);
     current_layout_planes :=
       repeat {| required_flags := 0; forbidden_flags := 0xffff;
                 required_userflags := 0; forbidden_userflags := 0xffff |}
              (Z.to_nat (layout_pages - 4));
     additional_planes := additional_planes l;
     used_lock_modifiers := 0x0f;
     diacritics := diacritics l;
     diacritics_entries := 0;
     diacritics_character := 0;
     user_keys := 0;
     current_keyboard_file_name := current_keyboard_file_name l;
     use_foreign_layout := use_foreign_layout l;
     language_codes := [] |}.

(** [keyboard_layout::keyboard_layout()].  The constructor leaves the
    diacritics array uninitialised; its bytes are taken to be zero. *)
Definition new_keyboard_layout : keyboard_layout :=
  set_current_keyboard_file_name (str "none")
    (reset {| current_layout := [];
              current_layout_planes := [];
              additional_planes := 0;
              used_lock_modifiers := 0x0f;
              diacritics := [];
              diacritics_entries := 0;
              diacritics_character := 0;
              user_keys := 0;
              current_keyboard_file_name := [];
              use_foreign_layout := false;
              language_codes := [] |}).

(** ** [read_kcl_file]: the offset of a layout inside a library file

    [fseek] is taken to succeed (the offsets are non-negative); the static
    [rbuf] is only read where [fread] has just filled it. *)

(** The inner loop: the characters of one language code, up to a comma,
    the end of the code list or the end of the file. *)
Fixpoint kcl_file_code (fuel : nat) (file : list Z) (pos i data_len : Z)
    (lng_codes : list Z) : outcome (Z * Z * list Z) :=
  match fuel with
  | O => Timeout
  | S f =>
      if i <? data_len then
        match fread file pos 1 with
        | [c] =>
            if c =? 44 then Ok (pos + 1, i + 1, lng_codes)
            else kcl_file_code f file (pos + 1) (i + 1) data_len (lng_codes ++ [c])
        | _ => Ok (pos, i, lng_codes)
        end
      else Ok (pos, i, lng_codes)
  end.

(** The loop over the language codes of one record: is [layout_id] among them? *)
Fixpoint kcl_file_codes (fuel : nat) (file : list Z) (pos i data_len : Z)
    (layout_id : list Z) (first_id_only : bool) : outcome bool :=
  match fuel with
  | O => Timeout
  | S f =>
      if i <? data_len then
        match fread file pos 2 with
        | [b0; b1] =>
            let lcnum := Z.lor b0 (Z.shiftl b1 8) in
            '(pos', i', lng_codes) <- kcl_file_code 256 file (pos + 2) (i + 2) data_len [] ;;
            if strcasecmp_eq lng_codes layout_id then Ok true
            else if first_id_only then Ok false
            else if nonzero lcnum && strcasecmp_eq (lng_codes ++ decimal lcnum) layout_id
            then Ok true
            else kcl_file_codes f file pos' i' data_len layout_id first_id_only
        | _ => Ok false
        end
      else Ok false
  end.

(** The loop over the records of the library. *)
Fixpoint kcl_file_records (fuel : nat) (file : list Z) (pos : Z)
    (layout_id : list Z) (first_id_only : bool) : outcome Z :=
  match fuel with
  | O => Timeout
  | S f =>
      let cur_pos := u32 pos in
      match fread file pos 5 with
      | [b0; b1; data_len; _; _] =>
          let len := Z.lor b0 (Z.shiftl b1 8) in
          _ <- assert (data_len <? 255) ;;
          found <- kcl_file_codes 256 file (pos + 3) 0 data_len layout_id first_id_only ;;
          if found then Ok cur_pos
          else kcl_file_records f file (u32 (cur_pos + 3 + len)) layout_id first_id_only
      | _ => Ok 0
      end
  end.

Definition read_kcl_file (kcl_file_name layout_id : list Z) (first_id_only : bool)
    : outcome Z :=
  match open_file E kcl_file_name with
  | None => Ok 0
  | Some file =>
      match fread file 0 7 with
      | [b0; b1; b2; _; _; _; b6] =>
          if negb (b0 =? 0x4b) || negb (b1 =? 0x43) || negb (b2 =? 0x46) then Ok 0
          else kcl_file_records (S (List.length file)) file (7 + b6) layout_id first_id_only
      | _ => Ok 0
      end
  end.

(** ** [read_kcl_data]: the same search in a built-in library

    [kcl_data[i]] is the unchecked [operator[]] of a vector. *)

Fixpoint kcl_data_code (fuel : nat) (kcl_data : list Z) (dpos i data_len : Z)
    (lng_codes : list Z) : outcome (Z * Z * list Z) :=
  match fuel with
  | O => Timeout
  | S f =>
      if i <? data_len then
        if len kcl_data <? u32 (dpos + 1) then Ok (dpos, i, lng_codes)
        else
          lc <- rd kcl_data_ 0 (len kcl_data) kcl_data dpos ;;
          if lc =? 44 then Ok (u32 (dpos + 1), i + 1, lng_codes)
          else kcl_data_code f kcl_data (u32 (dpos + 1)) (i + 1) data_len (lng_codes ++ [lc])
      else Ok (dpos, i, lng_codes)
  end.

Fixpoint kcl_data_codes (fuel : nat) (kcl_data : list Z) (dpos i data_len : Z)
    (layout_id : list Z) (first_id_only : bool) : outcome bool :=
  match fuel with
  | O => Timeout
  | S f =>
      if i <? data_len then
        lcnum <- host_readw kcl_data_ (len kcl_data) kcl_data (u32 (dpos - 2)) ;;
        '(dpos', i', lng_codes) <- kcl_data_code 256 kcl_data dpos (i + 2) data_len [] ;;
        if strcasecmp_eq lng_codes layout_id then Ok true
        else if first_id_only then Ok false
        else if nonzero lcnum then
          (* sprintf(&lng_codes[lcpos], "%d", lcnum) into char lng_codes[258] *)
          if 258 <? len lng_codes + len (decimal lcnum) + 1
          then Fault lng_codes_ (len lng_codes + len (decimal lcnum))
          else if strcasecmp_eq (lng_codes ++ decimal lcnum) layout_id then Ok true
          else kcl_data_codes f kcl_data (u32 (dpos' + 2)) i' data_len layout_id first_id_only
        else kcl_data_codes f kcl_data (u32 (dpos' + 2)) i' data_len layout_id first_id_only
      else Ok false
  end.

Fixpoint kcl_data_records (fuel : nat) (kcl_data : list Z) (dpos : Z)
    (layout_id : list Z) (first_id_only : bool) : outcome Z :=
  match fuel with
  | O => Timeout
  | S f =>
      if len kcl_data <? u32 (dpos + 5) then Ok 0
      else
        let cur_pos := dpos in
        len_ <- host_readw kcl_data_ (len kcl_data) kcl_data dpos ;;
        data_len <- rd kcl_data_ 0 (len kcl_data) kcl_data (dpos + 2) ;;
        found <- kcl_data_codes 256 kcl_data (u32 (dpos + 5)) 0 data_len
                   layout_id first_id_only ;;
        if found then Ok cur_pos
        else kcl_data_records f kcl_data (u32 (cur_pos + 3 + len_)) layout_id first_id_only
  end.

Definition read_kcl_data (kcl_data layout_id : list Z) (first_id_only : bool)
    : outcome Z :=
  let at_ := rd kcl_data_ 0 (len kcl_data) kcl_data in
  b0 <- at_ 0 ;;
  if negb (b0 =? 0x4b) then Ok 0 else
  b1 <- at_ 1 ;;
  if negb (b1 =? 0x43) then Ok 0 else
  b2 <- at_ 2 ;;
  if negb (b2 =? 0x46) then Ok 0 else
  b6 <- at_ 6 ;;
  kcl_data_records (S (List.length kcl_data)) kcl_data (7 + b6) layout_id first_id_only.


(** ** [keyboard_layout::read_keyboard_file]: loading the scratch buffer

    The layout is looked for in [<name>.kl], then in the four library
    files and the four built-in libraries, first by primary id and then
    by any id.  The bytes found are placed in the static [read_buf]. *)

Inductive source : Type :=
| LibraryFile (name : list Z)
| Builtin (i : Z).

Definition attempts : list (source * bool) :=
  [ (LibraryFile (str "keyboard.sys"), true); (LibraryFile (str "keybrd2.sys"), true);
    (LibraryFile (str "keybrd3.sys"), true); (LibraryFile (str "keybrd4.sys"), true);
    (LibraryFile (str "keyboard.sys"), false); (LibraryFile (str "keybrd2.sys"), false);
    (LibraryFile (str "keybrd3.sys"), false); (LibraryFile (str "keybrd4.sys"), false);
    (Builtin 0, true); (Builtin 1, true); (Builtin 2, true); (Builtin 3, true);
    (Builtin 0, false); (Builtin 1, false); (Builtin 2, false); (Builtin 3, false) ].

(** The chain of [try_file] and [try_builtin] calls: the first source in
    which the search returns a non-zero offset. *)
Fixpoint try_all (l : list (source * bool)) (keyboard_file_name : list Z)
    : outcome (option (source * Z)) :=
  match l with
  | [] => Ok None
  | (s, first_id_only) :: rest =>
      start_pos <- match s with
                   | LibraryFile f => read_kcl_file f keyboard_file_name first_id_only
                   | Builtin i =>
                       read_kcl_data (BLOB_KEYBOARD_SYS E i) keyboard_file_name first_id_only
                   end ;;
      if start_pos =? 0 then try_all rest keyboard_file_name
      else Ok (Some (s, start_pos))
  end.

Inductive located : Type :=
| Located (start_pos read_buf_size : Z)
| Failed (code : keyb_code).

(** From the lookup of the file to the filled [read_buf]: the outcome and
    the new content of the buffer. *)
Definition load_read_buf (keyboard_file_name read_buf : list Z)
    : outcome (located * list Z) :=
  (* sprintf(nbuf, "%s.kl", keyboard_file_name) into char nbuf[512] *)
  if 512 <? len keyboard_file_name + 4
  then Fault nbuf_ (len keyboard_file_name + 3) else
  match open_file E (keyboard_file_name ++ str ".kl") with
  | None =>
      found <- try_all attempts keyboard_file_name ;;
      match found with
      | None => Ok (Failed KEYB_FILENOTFOUND, read_buf)
      | Some (LibraryFile f, start_pos) =>
          match open_file E f with
          | Some file =>
              let data := fread file (start_pos + 2) (Z.to_nat READ_BUF) in
              Ok (Located 0 (len data), store data read_buf)
          | None => Ok (Located 0 0, read_buf)
          end
      | Some (Builtin i, start_pos) =>
          (* read_buf[read_buf_size++] = BLOB_KEYBOARD_SYS[i][ct] *)
          let data := skipn (Z.to_nat (start_pos + 2)) (BLOB_KEYBOARD_SYS E i) in
          if READ_BUF <? len data then Fault read_buf_ READ_BUF
          else Ok (Located 0 (len data), store data read_buf)
      end
  | Some file =>
      let id := fread file 0 4 in
      let read_buf := store id read_buf in
      match id with
      | [b0; b1; b2; _] =>
          if negb (b0 =? 0x4b) || negb (b1 =? 0x4c) || negb (b2 =? 0x46)
          then Ok (Failed KEYB_INVALIDFILE, read_buf)
          else
            let data := fread file 0 (Z.to_nat READ_BUF) in
            Ok (Located 5 (len data), store data read_buf)
      | _ => Ok (Failed KEYB_INVALIDFILE, read_buf)
      end
  end.

(** ** [keyboard_layout::read_keyboard_file]: parsing the buffer *)

Section Parse.

Variable read_buf : list Z.

Definition buf (i : Z) : outcome Z := rd read_buf_ 0 READ_BUF read_buf i.
Definition bufw (i : Z) : outcome Z := host_readw read_buf_ READ_BUF read_buf i.

(** The characters of one language code. *)
Fixpoint language_code (fuel : nat) (start_pos i data_len : Z) (code : list Z)
    : outcome (Z * list Z) :=
  match fuel with
  | O => Timeout
  | S f =>
      if i <? data_len then
        _ <- assert (start_pos + i <? READ_BUF) ;;
        lcode <- buf (start_pos + i) ;;
        if lcode =? 44 then Ok (i + 1, code)
        else language_code f start_pos (i + 1) data_len (code ++ [lcode])
      else Ok (i, code)
  end.

(** All language codes of the layout. *)
Fixpoint read_language_codes (fuel : nat) (start_pos i data_len : Z)
    (codes : list (list Z)) : outcome (list (list Z)) :=
  match fuel with
  | O => Timeout
  | S f =>
      if i <? data_len then
        '(i', code) <- language_code 256 start_pos (i + 2) data_len [] ;;
        read_language_codes f start_pos i' data_len (codes ++ [code])
      else Ok codes
  end.

(** The four masks of each of the [n] additional planes from [i] on. *)
Fixpoint read_planes (n : nat) (i read_buf_pos : Z) (l : keyboard_layout)
    : outcome (Z * keyboard_layout) :=
  match n with
  | O => Ok (read_buf_pos, l)
  | S n' =>
      _ <- assert (read_buf_pos <? READ_BUF) ;;
      rf <- bufw read_buf_pos ;;
      let ulm := Z.lor (used_lock_modifiers l) (Z.land rf 0x70) in
      _ <- assert (read_buf_pos + 2 <? READ_BUF) ;;
      ff <- bufw (read_buf_pos + 2) ;;
      _ <- assert (read_buf_pos + 4 <? READ_BUF) ;;
      ru <- bufw (read_buf_pos + 4) ;;
      _ <- assert (read_buf_pos + 6 <? READ_BUF) ;;
      fu <- bufw (read_buf_pos + 6) ;;
      planes <- wr planes_ plane0 (layout_pages - 4) (current_layout_planes l) i
                  {| required_flags := rf; forbidden_flags := ff;
                     required_userflags := ru; forbidden_userflags := fu |} ;;
      read_planes n' (i + 1) (read_buf_pos + 8)
        (set_used_lock_modifiers ulm (set_current_layout_planes planes l))
  end.

(** The first loop over the diacritics table at [base]: its extent [i]
    and the number of sub-tables. *)
Fixpoint diacritics_scan (fuel : nat) (base i entries : Z) : outcome (Z * Z) :=
  match fuel with
  | O => Timeout
  | S f =>
      if i <? 2048 then
        lead <- buf (base + i) ;;
        if lead =? 0 then Ok (i, entries)
        else
          n <- buf (base + i + 1) ;;
          diacritics_scan f base (u16 (i + (n * 2 + 2))) (u16 (entries + 1))
      else Ok (i, entries)
  end.

(** The second loop: [for (j=0; j<=i; j++) diacritics[j]=read_buf[base+j]]. *)
Fixpoint diacritics_copy (fuel : nat) (base j i : Z) (d : list Z) : outcome (list Z) :=
  match fuel with
  | O => Timeout
  | S f =>
      if j <=? i then
        v <- buf (base + j) ;;
        d' <- wr diacritics_ 0 2048 d j v ;;
        diacritics_copy f base (u16 (j + 1)) i d'
      else Ok d
  end.

Definition read_diacritics (base : Z) (l : keyboard_layout) : outcome keyboard_layout :=
  '(i, entries) <- diacritics_scan 1025 base 0 0 ;;
  d <- diacritics_copy (S (S (Z.to_nat i))) base 0 i (diacritics l) ;;
  Ok (set_diacritics d (set_diacritics_entries entries l)).

(** The body of the loop over the entries of a key record: entry
    [addmap] is installed if its first byte is not zero. *)
Definition add_mapping (addmap read_buf_pos scan : Z) (l : keyboard_layout)
    : outcome keyboard_layout :=
  flags <- buf (read_buf_pos - 2) ;;
  let charptr := read_buf_pos + addmap * (if nonzero (Z.land flags 0x80) then 2 else 1) in
  kchar <- buf charptr ;;
  if nonzero kchar then
    kchar <- (if nonzero (Z.land flags 0x80)
              then hi <- buf (charptr + 1) ;;
                   Ok (u16 (Z.lor kchar (Z.shiftl hi 8)))
              else Ok kchar) ;;
    let row := scan * layout_pages in
    t <- wr current_layout_ 0 TABLE (current_layout l) (row + addmap) kchar ;;
    c <- rd current_layout_ 0 TABLE t (row + layout_pages - 2) ;;
    t <- wr current_layout_ 0 TABLE t (row + layout_pages - 2)
           (u16 (Z.land c (Z.lnot (Z.shiftl 1 addmap)))) ;;
    c <- rd current_layout_ 0 TABLE t (row + layout_pages - 2) ;;
    cmd <- buf (read_buf_pos - 1) ;;
    t <- wr current_layout_ 0 TABLE t (row + layout_pages - 2)
           (u16 (Z.lor c (Z.land cmd (Z.shiftl 1 addmap)))) ;;
    Ok (set_current_layout t l)
  else Ok l.

(** [for (addmap=0; addmap<scan_length; addmap++)], with [n] the number
    of rounds left. *)
Fixpoint add_mappings (n : nat) (addmap read_buf_pos scan : Z) (l : keyboard_layout)
    : outcome keyboard_layout :=
  match n with
  | O => Ok l
  | S n' =>
      if additional_planes l + 2 <? addmap then Ok l
      else
        l' <- add_mapping addmap read_buf_pos scan l ;;
        add_mappings n' (addmap + 1) read_buf_pos scan l'
  end.

(** The per-key flag row after a record, and the length by which the
    cursor advances. *)
Definition merge_flags (read_buf_pos scan scan_length : Z) (l : keyboard_layout)
    : outcome (Z * keyboard_layout) :=
  let row := scan * layout_pages in
  old <- rd current_layout_ 0 TABLE (current_layout l) (row + layout_pages - 1) ;;
  let new_flags := u8 (Z.land old 0x7) in
  flags <- buf (read_buf_pos - 2) ;;
  let new_flags := if new_flags <? Z.land flags 0x7 then u8 (Z.land flags 0x7)
                   else new_flags in
  old <- rd current_layout_ 0 TABLE (current_layout l) (row + layout_pages - 1) ;;
  let new_flags := u8 (Z.lor new_flags (Z.land (Z.lor flags old) 0xf0)) in
  t <- wr current_layout_ 0 TABLE (current_layout l) (row + layout_pages - 1) new_flags ;;
  Ok (if nonzero (Z.land flags 0x80) then u8 (scan_length * 2) else scan_length,
      set_current_layout t l).

(** What is done with a key record once its three header bytes are
    read: the new table, and the length by which the cursor advances. *)
Definition key_record (read_buf_pos scan scan_length : Z) (l : keyboard_layout)
    : outcome (Z * keyboard_layout) :=
  if Z.land scan 0x7f <=? MAX_SCAN_CODE E then
    l <- add_mappings (Z.to_nat scan_length) 0 read_buf_pos scan l ;;
    merge_flags read_buf_pos scan scan_length l
  else Ok (scan_length, l).

(** The loop over the key records of one submapping. *)
Fixpoint process_table (fuel : nat) (read_buf_pos i bytes_read : Z) (l : keyboard_layout)
    : outcome keyboard_layout :=
  match fuel with
  | O => Timeout
  | S f =>
      if i <? bytes_read then
        scan <- buf read_buf_pos ;;
        let read_buf_pos := u32 (read_buf_pos + 1) in
        if scan =? 0 then Ok l
        else
          b <- buf read_buf_pos ;;
          let scan_length := u8 (Z.land b 7 + 1) in
          let read_buf_pos := u32 (read_buf_pos + 2) in
          let i := u32 (i + 3) in
          _ <- assert (0 <? scan_length) ;;
          '(scan_length, l) <- key_record read_buf_pos scan scan_length l ;;
          process_table f (u32 (read_buf_pos + scan_length)) (u32 (i + scan_length))
            bytes_read l
      else Ok l
  end.

(** The loop over the submappings.  With a specific layout requested the
    loop variable is reset on every round, and the loop need not end. *)
Fixpoint submappings_loop (fuel : nat) (read_buf_size start_pos submappings : Z)
    (specific_layout requested_codepage : Z) (sub_map : Z) (found : bool)
    (l : keyboard_layout) : outcome (bool * keyboard_layout) :=
  match fuel with
  | O => Timeout
  | S f =>
      if (sub_map <? submappings) && negb found then
        let sub_map :=
          if negb (sub_map =? 0) && negb (specific_layout =? -1)
          then u16 (Z.land specific_layout 0xffff) else sub_map in
        submap_cp <- bufw (start_pos + 0x14 + sub_map * 8) ;;
        if nonzero submap_cp && negb (submap_cp =? requested_codepage)
           && (specific_layout =? -1)
        then submappings_loop f read_buf_size start_pos submappings specific_layout
               requested_codepage (u16 (sub_map + 1)) found l
        else
          let found := if submap_cp =? requested_codepage then true else found in
          table_offset <- bufw (start_pos + 0x18 + sub_map * 8) ;;
          let l := set_diacritics_entries 0 l in
          l <- (if nonzero table_offset then read_diacritics (start_pos + table_offset) l
                else Ok l) ;;
          table_offset <- bufw (start_pos + 0x16 + sub_map * 8) ;;
          if table_offset =? 0
          then submappings_loop f read_buf_size start_pos submappings specific_layout
                 requested_codepage (u16 (sub_map + 1)) found l
          else
            let read_buf_pos := start_pos + table_offset in
            let bytes_read := u32 (read_buf_size - read_buf_pos) in
            l <- process_table (Z.to_nat READ_BUF) read_buf_pos 0 bytes_read l ;;
            if specific_layout =? sub_map then Ok (found, l)
            else submappings_loop f read_buf_size start_pos submappings specific_layout
                   requested_codepage (u16 (sub_map + 1)) found l
      else Ok (found, l)
  end.

(** The function from [const auto data_len = read_buf[start_pos++]] on. *)
Definition parse_keyboard_file (fuel : nat) (read_buf_size start_pos : Z)
    (specific_layout requested_codepage : Z) (l : keyboard_layout)
    : outcome (keyb_code * keyboard_layout) :=
  data_len <- buf start_pos ;;
  let start_pos := start_pos + 1 in
  _ <- assert (data_len <? 255) ;;
  codes <- read_language_codes 256 start_pos 0 data_len [] ;;
  let l := set_language_codes codes l in
  let start_pos := start_pos + data_len in
  _ <- assert (start_pos <? READ_BUF) ;;
  submappings <- buf start_pos ;;
  _ <- assert (start_pos + 1 <? READ_BUF) ;;
  planes <- buf (start_pos + 1) ;;
  let planes := if layout_pages - 4 <? planes then layout_pages - 4 else planes in
  let l := set_additional_planes planes l in
  let read_buf_pos := start_pos + 0x14 + submappings * 8 in
  _ <- assert (read_buf_pos <? READ_BUF) ;;
  '(_, l) <- read_planes (Z.to_nat planes) 0 read_buf_pos l ;;
  '(found, l) <- submappings_loop fuel read_buf_size start_pos submappings
                   specific_layout requested_codepage 0 false l ;;
  if found then Ok (KEYB_NOERROR, set_use_foreign_layout true l)
  else Ok (KEYB_LAYOUTNOTFOUND, reset l).

End Parse.

(** [read_keyboard_file(keyboard_file_name, specific_layout, requested_codepage)] *)
Definition read_keyboard_file (fuel : nat) (this : keyboard_layout)
    (keyboard_file_name : list Z) (specific_layout requested_codepage : Z)
    (m : machine) : outcome (keyb_code * keyboard_layout * machine) :=
  let this := reset this in
  let this := if specific_layout =? -1
              then set_current_keyboard_file_name (safe_strcpy 256 keyboard_file_name) this
              else this in
  if cstr_eqb keyboard_file_name (str "none") then Ok (KEYB_NOERROR, this, m)
  else
    '(where_, read_buf) <- load_read_buf keyboard_file_name (kl_read_buf m) ;;
    let m := set_kl_read_buf read_buf m in
    match where_ with
    | Failed code => Ok (code, this, m)
    | Located start_pos read_buf_size =>
        '(code, this) <- parse_keyboard_file read_buf fuel read_buf_size start_pos
                           specific_layout requested_codepage this ;;
        Ok (code, this, m)
    end.

(** [read_keyboard_file(keyboard_file_name, req_cp)] *)
Definition read_keyboard_file_cp (fuel : nat) (this : keyboard_layout)
    (keyboard_file_name : list Z) (req_cp : Z) (m : machine) :=
  read_keyboard_file fuel this keyboard_file_name (-1) req_cp m.

(** [read_keyboard_file(specific_layout)]: the current file is parsed
    again; the returned code is dropped. *)
Definition read_keyboard_file_specific (fuel : nat) (this : keyboard_layout)
    (specific_layout : Z) (m : machine) : outcome (keyboard_layout * machine) :=
  if negb (cstr_eqb (current_keyboard_file_name this) (str "none")) then
    '(_, this, m) <- read_keyboard_file fuel this (current_keyboard_file_name this)
                       specific_layout (loaded_codepage m) m ;;
    Ok (this, m)
  else Ok (this, m).


(** ** [keyboard_layout::map_key] *)

(** [for (i=0; i<diacritics_character-200; i++)
       diacritics_start+=diacritics[diacritics_start+1]*2+2;]
    with [n] the number of rounds. *)
Fixpoint subtable_start (n : nat) (d : list Z) (diacritics_start : Z) : outcome Z :=
  match n with
  | O => Ok diacritics_start
  | S n' =>
      c <- rd diacritics_ 0 2048 d (diacritics_start + 1) ;;
      subtable_start n' d (u16 (diacritics_start + (c * 2 + 2)))
  end.

(** The search of the sub-table at [diacritics_start] for the character
    [c]: the combined character of the first pair that matches. *)
Fixpoint search_pair (n : nat) (i : Z) (d : list Z) (diacritics_start c : Z)
    : outcome (option Z) :=
  match n with
  | O => Ok None
  | S n' =>
      x <- rd diacritics_ 0 2048 d (diacritics_start + i * 2) ;;
      if x =? c then
        y <- rd diacritics_ 0 2048 d (diacritics_start + i * 2 + 1) ;;
        Ok (Some y)
      else search_pair n' (i + 1) d diacritics_start c
  end.

(** The 16-bit value [(uint16_t)(key<<8) | c] handed to the key buffer. *)
Definition keycode (key c : Z) : Z := Z.lor (u16 (Z.shiftl key 8)) c.

Definition map_key (fuel : nat) (this : keyboard_layout) (key layouted_key : Z)
    (is_command is_keypair : bool) (m : machine)
    : outcome (bool * keyboard_layout * machine) :=
  if is_command then
    let key_command := u8 (Z.land layouted_key 0xff) in
    if (200 <=? key_command) && (key_command <? 235) then
      let this := set_diacritics_character key_command this in
      let this := if diacritics_entries this + 200 <=? diacritics_character this
                  then set_diacritics_character 0 this else this in
      Ok (true, this, m)
    else if (120 <=? key_command) && (key_command <? 140) then
      '(this, m) <- read_keyboard_file_specific fuel this (key_command - 119) m ;;
      Ok (true, this, m)
    else if (180 <=? key_command) && (key_command <? 188) then
      Ok (true,
          set_user_keys
            (u16 (Z.land (user_keys this) (Z.lnot (Z.shiftl 1 (key_command - 180))))) this,
          m)
    else if (188 <=? key_command) && (key_command <? 196) then
      Ok (true,
          set_user_keys (u16 (Z.lor (user_keys this) (Z.shiftl 1 (key_command - 188)))) this,
          m)
    else if key_command =? 160 then Ok (true, this, m)
    else Ok (false, this, m)
  else
    (* the dead key, if one is pending; [true] when the function has returned *)
    '(returned, this, m) <-
       (if 0 <? diacritics_character this then
          if diacritics_entries this <=? diacritics_character this - 200
          then Ok (false, set_diacritics_character 0 this, m)
          else
            let d := diacritics this in
            diacritics_start <-
              subtable_start (Z.to_nat (diacritics_character this - 200)) d 0 ;;
            diacritics_length <- rd diacritics_ 0 2048 d (diacritics_start + 1) ;;
            let diacritics_start := u16 (diacritics_start + 2) in
            let this := set_diacritics_character 0 this in
            hit <- search_pair (Z.to_nat diacritics_length) 0 d diacritics_start
                     (Z.land layouted_key 0xff) ;;
            match hit with
            | Some c => Ok (true, this, emit (BIOS_AddKeyToBuffer (keycode key c)) m)
            | None =>
                lead <- rd diacritics_ 0 2048 d (diacritics_start - 2) ;;
                Ok (false, this, emit (BIOS_AddKeyToBuffer (keycode key lead)) m)
            end
        else Ok (false, this, m)) ;;
    if returned then Ok (true, this, m)
    else if is_keypair then Ok (true, this, emit (BIOS_AddKeyToBuffer layouted_key) m)
    else Ok (true, this,
             emit (BIOS_AddKeyToBuffer (keycode key (Z.land layouted_key 0xff))) m).

(** ** [keyboard_layout::layout_key] *)

Definition table (this : keyboard_layout) (i : Z) : outcome Z :=
  rd current_layout_ 0 TABLE (current_layout this) i.

(** The scan codes of the state-changing keys. *)
Definition state_key (key : Z) : bool :=
  (key =? 0x1d) || (key =? 0x2a) || (key =? 0x36) || (key =? 0x38)
  || (key =? 0x3a) || (key =? 0x45) || (key =? 0x46).

(** The block guarded by the lock modifiers: the shift or the normal
    plane.  [true] when [layout_key] has returned true. *)
Definition shift_normal (fuel : nat) (this : keyboard_layout) (key flags1 flags3 : Z)
    (is_special_pair : bool) (m : machine)
    : outcome (bool * keyboard_layout * machine) :=
  let row := key * layout_pages in
  if (Z.land (Z.land flags1 (used_lock_modifiers this)) 0x7c =? 0)
     && (Z.land flags3 2 =? 0) then
    key_flags <- table this (row + layout_pages - 1) ;;
    if nonzero (Z.lxor (Z.lor (Z.shiftr (Z.land flags1 2) 1) (Z.land flags1 1))
                       (Z.shiftr (Z.land (Z.land key_flags 0x40) (Z.land flags1 0x40)) 6))
    then
      e <- table this (row + 1) ;;
      if nonzero e then
        c <- table this (row + layout_pages - 2) ;;
        map_key fuel this key e (nonzero (Z.land c 2)) is_special_pair m
      else Ok (false, this, m)
    else
      e <- table this row ;;
      if nonzero e then
        c <- table this (row + layout_pages - 2) ;;
        map_key fuel this key e (nonzero (Z.land c 1)) is_special_pair m
      else Ok (false, this, m)
  else Ok (false, this, m).

Definition current_flags (flags1 flags2 flags3 : Z) : Z :=
  let f := u16 (Z.lor (Z.land flags1 0x7f)
                      (Z.shiftl (Z.lor (Z.land flags2 3) (Z.land flags3 0xc)) 8)) in
  let f := if nonzero (Z.land flags1 3) then Z.lor f 0x4000 else f in
  if nonzero (Z.land flags3 2) then Z.lor f 0x1000 else f.

Definition plane_fits (p : plane) (flags user : Z) : bool :=
  (Z.land flags (required_flags p) =? required_flags p)
  && (Z.land user (required_userflags p) =? required_userflags p)
  && (Z.land flags (forbidden_flags p) =? 0)
  && (Z.land user (forbidden_userflags p) =? 0).

(** The loop over the additional planes, [n] rounds from [cplane] on.  A
    call of [map_key] that returns false changes nothing, so the bound
    [additional_planes] is the same on every round. *)
Fixpoint check_planes (n : nat) (fuel : nat) (this : keyboard_layout)
    (key flags cplane : Z) (is_special_pair : bool) (m : machine)
    : outcome (bool * keyboard_layout * machine) :=
  match n with
  | O => Ok (false, this, m)
  | S n' =>
      let row := key * layout_pages in
      p <- rd planes_ plane0 (layout_pages - 4) (current_layout_planes this) cplane ;;
      if plane_fits p flags (user_keys this) then
        e <- table this (row + 2 + cplane) ;;
        if nonzero e then
          c <- table this (row + layout_pages - 2) ;;
          '(handled, this, m) <-
             map_key fuel this key e (nonzero (Z.land (Z.shiftr c (cplane + 2)) 1))
               is_special_pair m ;;
          if handled then Ok (true, this, m)
          else check_planes n' fuel this key flags (cplane + 1) is_special_pair m
        else Ok (false, this, m)
      else check_planes n' fuel this key flags (cplane + 1) is_special_pair m
  end.

(** The last block: a dead key is pending and no plane took the key. *)
Definition pending_diacritic (this : keyboard_layout) (key : Z) (m : machine)
    : outcome (bool * keyboard_layout * machine) :=
  if 0 <? diacritics_character this then
    if state_key key then Ok (false, this, m)
    else if diacritics_entries this + 200 <=? diacritics_character this
    then Ok (true, set_diacritics_character 0 this, m)
    else
      diacritics_start <-
        subtable_start (Z.to_nat (diacritics_character this - 200)) (diacritics this) 0 ;;
      lead <- rd diacritics_ 0 2048 (diacritics this) diacritics_start ;;
      Ok (false, set_diacritics_character 0 this,
          emit (BIOS_AddKeyToBuffer (keycode key lead)) m)
  else Ok (false, this, m).

Definition layout_key (fuel : nat) (this : keyboard_layout) (key flags1 flags2 flags3 : Z)
    (m : machine) : outcome (bool * keyboard_layout * machine) :=
  if MAX_SCAN_CODE E <? key then Ok (false, this, m)
  else if negb (use_foreign_layout this) then Ok (false, this, m)
  else
    key_flags <- table this (key * layout_pages + layout_pages - 1) ;;
    let is_special_pair := Z.land key_flags 0x80 =? 0x80 in
    '(handled, this, m) <- shift_normal fuel this key flags1 flags3 is_special_pair m ;;
    if handled then Ok (true, this, m)
    else
      '(handled, this, m) <-
         check_planes (Z.to_nat (additional_planes this)) fuel this key
           (current_flags flags1 flags2 flags3) 0 is_special_pair m ;;
      if handled then Ok (true, this, m)
      else pending_diacritic this key m.


(** ** [keyboard_layout::extract_codepage]

    The lookup of the file repeats that of [read_keyboard_file], on the
    function's own static buffer. *)

(** [ceil_udivide(x, y)] *)
Definition ceil_udivide (x y : Z) : Z := (x + y - 1) / y.

(** The loop over the submappings: the first code page that is not zero. *)
Fixpoint first_codepage (n : nat) (read_buf : list Z) (start_pos sub_map : Z) : outcome Z :=
  match n with
  | O => Ok 437
  | S n' =>
      submap_cp <- host_readw read_buf_ READ_BUF read_buf (start_pos + 0x14 + sub_map * 8) ;;
      if nonzero submap_cp then Ok submap_cp
      else first_codepage n' read_buf start_pos (sub_map + 1)
  end.

Definition extract_codepage (keyboard_file_name : list Z) (m : machine)
    : outcome (Z * machine) :=
  if cstr_eqb keyboard_file_name (str "none") then Ok (437, m)
  else
    '(where_, read_buf) <- load_read_buf keyboard_file_name (cp_read_buf m) ;;
    let m := set_cp_read_buf read_buf m in
    match where_ with
    | Failed _ => Ok (437, m)
    | Located start_pos _ =>
        data_len <- rd read_buf_ 0 READ_BUF read_buf start_pos ;;
        let start_pos := start_pos + 1 + data_len in
        _ <- assert (start_pos <? READ_BUF) ;;
        submappings <- rd read_buf_ 0 READ_BUF read_buf start_pos ;;
        if ceil_udivide (READ_BUF - start_pos - 0x14) 8 <=? submappings then Ok (437, m)
        else
          cp <- first_codepage (Z.to_nat submappings) read_buf start_pos 0 ;;
          Ok (cp, m)
    end.

(** ** [keyboard_layout::get_CPX_file_id] *)

Definition cpx_files : list (list Z) :=
  [ [437; 850; 852; 853; 857; 858];
    [775; 859; 1116; 1117; 1118; 1119];
    [771; 772; 808; 855; 866; 872];
    [848; 849; 1125; 1131; 3012; 30010];
    [113; 737; 851; 869];
    [899; 30008; 58210; 59829; 60258; 60853];
    [30011; 30013; 30014; 30017; 30018; 30019];
    [770; 773; 774; 777; 778];
    [860; 861; 863; 865; 867];
    [667; 668; 790; 991; 3845];
    [30000; 30001; 30004; 30007; 30009];
    [30003; 30029; 30030; 58335];
    [895; 30002; 58152; 59234; 62306];
    [30006; 30012; 30015; 30016; 30020; 30021];
    [30023; 30024; 30025; 30026; 30027; 30028];
    [3021; 30005; 30022; 30031; 30032];
    [862; 864; 30034; 30033; 30039; 30040];
    [856; 3846; 3848] ].

Fixpoint cpx_lookup (files : list (list Z)) (i codepage_id : Z) : Z :=
  match files with
  | [] => -1
  | ids :: rest =>
      if existsb (Z.eqb codepage_id) ids then i else cpx_lookup rest (i + 1) codepage_id
  end.

Definition get_CPX_file_id (codepage_id : Z) : Z := cpx_lookup cpx_files 0 (u32 codepage_id).

(** ** [keyboard_layout::read_codepage_file] *)

(** [sizeof(cpi_buf)]; the array is a local that is not initialised, and
    the bytes that no read has filled are taken to be zero. *)
Definition CPI_BUF : Z := 65536.

(** [cpi_buf.at(i)], and [host_readw] and [host_readd] at [&cpi_buf.at(i)]. *)
Definition at_ (cpi_buf : list Z) (i : Z) : outcome Z :=
  if i <? CPI_BUF then rd cpi_buf_ 0 CPI_BUF cpi_buf i else Throw.
Definition at_w (cpi_buf : list Z) (i : Z) : outcome Z :=
  if i <? CPI_BUF then host_readw cpi_buf_ CPI_BUF cpi_buf i else Throw.
Definition at_d (cpi_buf : list Z) (i : Z) : outcome Z :=
  if i <? CPI_BUF then host_readd cpi_buf_ CPI_BUF cpi_buf i else Throw.

(** [for (i = 0; i < n; ++i) phys_writeb(pt + i, cpi_buf.at(from + i))],
    the rounds from [i] on. *)
Fixpoint write_font (n : nat) (cpi_buf : list Z) (pt from i : Z) (m : machine)
    : outcome machine :=
  match n with
  | O => Ok m
  | S n' =>
      v <- at_ cpi_buf (u32 (from + i)) ;;
      write_font n' cpi_buf pt from (i + 1) (emit (phys_writeb (pt + i) v) m)
  end.

(** The loop over the fonts of the matching code page. *)
Fixpoint load_fonts (n : nat) (cpi_buf : list Z) (font_data_start : Z)
    (font_changed : bool) (m : machine) : outcome (bool * machine) :=
  match n with
  | O => Ok (font_changed, m)
  | S n' =>
      font_height <- at_ cpi_buf font_data_start ;;
      let font_data_start := u32 (font_data_start + 6) in
      '(font_changed, m) <-
         (if font_height =? 0x10 then
            m <- write_font (256 * 16) cpi_buf (font_16 E) font_data_start 0 m ;;
            Ok (true, emit (phys_writeb (font_16_alternate E) 0) m)
          else if font_height =? 0x0e then
            m <- write_font (256 * 14) cpi_buf (font_14 E) font_data_start 0 m ;;
            Ok (true, emit (phys_writeb (font_14_alternate E) 0) m)
          else if font_height =? 0x08 then
            m <- write_font (128 * 8) cpi_buf (font_8_first E) font_data_start 0 m ;;
            m <- write_font (128 * 8) cpi_buf (font_8_second E)
                   (u32 (font_data_start + 128 * 8)) 0 m ;;
            Ok (true, m)
          else Ok (font_changed, m)) ;;
      load_fonts n' cpi_buf (u32 (font_data_start + font_height * 256)) font_changed m
  end.

(** The matching code page is installed: its fonts are written, the
    loaded code page is recorded and the video side is notified. *)
Definition install_codepage (cpi_buf : list Z) (font_data_header_pt codepage_id : Z)
    (m : machine) : outcome (keyb_code * machine) :=
  number_of_fonts <- at_w cpi_buf (u32 (font_data_header_pt + 0x02)) ;;
  '(font_changed, m) <-
     load_fonts (Z.to_nat number_of_fonts) cpi_buf (u32 (font_data_header_pt + 0x06))
       false m ;;
  let m := set_loaded_codepage (u16 (Z.land codepage_id 0xffff)) m in
  let m := if font_changed && text_mode E && egavga_arch E
           then emit INT10_ReloadFont m else m in
  Ok (KEYB_NOERROR, emit INT10_SetupRomMemoryChecksum m).

(** The search of the code pages of the file, [n] entries from the one at
    [start_pos] on. *)
Fixpoint search_codepages (n : nat) (cpi_buf : list Z) (start_pos codepage_id : Z)
    (m : machine) : outcome (keyb_code * machine) :=
  match n with
  | O => Ok (KEYB_INVALIDCPFILE, m)
  | S n' =>
      device_type <- at_w cpi_buf (u32 (start_pos + 0x04)) ;;
      font_codepage <- at_w cpi_buf (u32 (start_pos + 0x0e)) ;;
      font_data_header_pt <- at_d cpi_buf (u32 (start_pos + 0x16)) ;;
      font_type <- at_w cpi_buf font_data_header_pt ;;
      if (device_type =? 1) && (font_type =? 1) && (font_codepage =? codepage_id)
      then install_codepage cpi_buf font_data_header_pt codepage_id m
      else
        next <- at_d cpi_buf start_pos ;;
        search_codepages n' cpi_buf (u32 (next + 2)) codepage_id m
  end.

(** The body of a CPI file, from [host_readd(&cpi_buf[data_start_index])] on. *)
Definition parse_cpi (cpi_buf : list Z) (cpi_buf_size codepage_id : Z) (m : machine)
    : outcome (keyb_code * machine) :=
  start_pos <- host_readd cpi_buf_ CPI_BUF cpi_buf 0x13 ;;
  if cpi_buf_size <=? start_pos then Ok (KEYB_INVALIDCPFILE, m)
  else
    number_of_codepages <- at_w cpi_buf start_pos ;;
    search_codepages (Z.to_nat number_of_codepages) cpi_buf (u32 (start_pos + 4))
      codepage_id m.

(** [scan_buf.find("UPX!")]: the first position at which the identifier
    starts. *)
Fixpoint find_upx (l : list Z) (pos : Z) : option Z :=
  match l with
  | [] => None
  | c :: t =>
      match l with
      | 0x55 :: 0x50 :: 0x58 :: 0x21 :: _ => Some pos
      | _ => find_upx t (pos + 1)
      end
  end.

(** The test for the custom format of DR-DOS, as the source has it. *)
Definition is_drdos_cpi (b0 b1 b2 b3 b4 : Z) : bool :=
  (b0 =? 0x7f) && negb (b1 =? 0x44) && negb (b2 =? 0x52)
  && negb (b3 =? 0x46) && negb (b4 =? 0x5f).

Inductive cpi_source : Type :=
| Plain (cpi_buf : list Z) (cpi_buf_size : Z)
| Packed (cpi_buf : list Z) (size_of_cpxdata found_at_pos : Z)
| Rejected.

(** The content of an opened code-page file. *)
Definition identify_cpi (file : list Z) : cpi_source :=
  match fread file 0 5 with
  | [b0; b1; b2; b3; b4] =>
      if negb (b0 =? 0xff) || negb (b1 =? 0x46) || negb (b2 =? 0x4f)
         || negb (b3 =? 0x4e) || negb (b4 =? 0x54) then
        if is_drdos_cpi b0 b1 b2 b3 b4 then Rejected
        else
          let scan_buf := fread file 5 100 in
          if negb (List.length scan_buf =? 100)%nat then Rejected
          else
            (* the five bytes read first are overwritten by the hundred *)
            let cpi_buf := store scan_buf [b0; b1; b2; b3; b4] in
            match find_upx scan_buf 0 with
            | None => Rejected
            | Some upx_id_pos =>
                let upx_ver_pos := upx_id_pos + 4 in
                let upx_ver := nth (Z.to_nat upx_ver_pos) cpi_buf 0 in
                if upx_ver <? 10 then Rejected
                else
                  let data := fread file 0 (Z.to_nat CPI_BUF) in
                  Packed (store data cpi_buf) (len data) (5 + (upx_ver_pos + 1))
            end
      else
        let data := fread file 0 (Z.to_nat CPI_BUF) in
        Plain (store data [b0; b1; b2; b3; b4]) (len data)
  | _ => Rejected
  end.

(** [toupper] of the last character of the name, and the retry with the
    other extension. *)
Definition toupper (c : Z) : Z := if (97 <=? c) && (c <=? 122) then c - 32 else c.

Definition other_extension (nbuf : list Z) : option (list Z) :=
  match rev nbuf with
  | [] => None
  | c :: t =>
      if toupper c =? 73 then Some (rev (88 :: t))
      else if toupper c =? 88 then Some (rev (73 :: t))
      else None
  end.

Definition open_codepage_file (nbuf : list Z) : option (list Z) :=
  match open_file E nbuf with
  | Some file => Some file
  | None =>
      match other_extension nbuf with
      | Some nbuf' => open_file E nbuf'
      | None => None
      end
  end.

Definition read_codepage_file (codepage_file_name : list Z) (codepage_id : Z)
    (m : machine) : outcome (keyb_code * machine) :=
  let cp_filename := safe_strcpy 512 codepage_file_name in
  if cstr_eqb cp_filename (str "none") then Ok (KEYB_NOERROR, m)
  else if codepage_id =? loaded_codepage m then Ok (KEYB_NOERROR, m)
  else
    let auto_id := get_CPX_file_id codepage_id in
    if cstr_eqb cp_filename (str "auto") && (auto_id <? 0) then Ok (KEYB_INVALIDCPFILE, m)
    else
      let cp_filename := if cstr_eqb cp_filename (str "auto")
                         then FILE_EGA_CPX E auto_id else cp_filename in
      (* sprintf(cp_filename, "%s", ...) into char[512], and
         sprintf(nbuf, "Z:\\CPI\\%s", cp_filename) into char[520] *)
      if 512 <? len cp_filename + 1 then Fault nbuf_ (len cp_filename) else
      let nbuf := str "Z:\CPI\" ++ cp_filename in
      let src :=
        match open_codepage_file nbuf with
        | None =>
            let i := get_CPX_file_id codepage_id in
            if i <? 0 then Ok Rejected
            else
              let blob := BLOB_EGA_CPX E i in
              (* cpi_buf[bct] = BLOB_EGA_CPX[i][bct] *)
              if CPI_BUF <? len blob then Fault cpi_buf_ CPI_BUF
              else Ok (Packed blob (len blob) 0x29)
        | Some file => Ok (identify_cpi file)
        end in
      src <- src ;;
      match src with
      | Rejected => Ok (KEYB_INVALIDCPFILE, m)
      | Plain cpi_buf cpi_buf_size => parse_cpi cpi_buf cpi_buf_size codepage_id m
      | Packed cpi_buf size_of_cpxdata found_at_pos =>
          if 0xfe00 <? size_of_cpxdata then Abort
          else
            let found_at_pos := found_at_pos + 19 in
            cpi_buf <- wr cpi_buf_ 0 CPI_BUF cpi_buf found_at_pos 0xcb ;;
            match upx_unpack E (firstn (Z.to_nat size_of_cpxdata) cpi_buf) with
            | None => Abort
            | Some cpi_buf => parse_cpi cpi_buf 65536 codepage_id m
            end
      end.


(** ** [keyboard_layout::switch_keyboard_layout] *)

(** What the call leaves behind: the returned code, the object itself,
    [created_layout] and [tried_cp] where they were assigned. *)
Record switched : Type := {
  ret_code : keyb_code;
  this_layout : keyboard_layout;
  created_layout : option keyboard_layout;
  tried_cp : option Z
}.

Definition switch_keyboard_layout (fuel : nat) (this : keyboard_layout)
    (new_layout : list Z) (m : machine) : outcome (switched * machine) :=
  if negb (strncasecmp_eq new_layout (str "US") 2) then
    let tbuf := safe_strcpy 256 new_layout in
    let newlen := List.length (cstr tbuf) in
    if existsb (fun code => strncasecmp_eq tbuf code newlen) (language_codes this) then
      let this := if negb (use_foreign_layout this)
                  then set_diacritics_character 0 (set_use_foreign_layout true this)
                  else this in
      Ok ({| ret_code := KEYB_NOERROR; this_layout := this;
             created_layout := None; tried_cp := None |}, m)
    else
      let temp_layout := new_keyboard_layout in
      '(req_codepage, m) <- extract_codepage new_layout m ;;
      '(kerrcode, temp_layout, m) <-
         read_keyboard_file_cp fuel temp_layout new_layout req_codepage m ;;
      if is_error kerrcode then
        Ok ({| ret_code := kerrcode; this_layout := this;
               created_layout := None; tried_cp := Some req_codepage |}, m)
      else
        '(kerrcode, m) <- read_codepage_file (str "auto") req_codepage m ;;
        if is_error kerrcode then
          Ok ({| ret_code := kerrcode; this_layout := this;
                 created_layout := None; tried_cp := Some req_codepage |}, m)
        else
          Ok ({| ret_code := KEYB_NOERROR; this_layout := this;
                 created_layout := Some temp_layout; tried_cp := Some req_codepage |}, m)
  else
    let this := if use_foreign_layout this
                then set_diacritics_character 0 (set_use_foreign_layout false this)
                else this in
    Ok ({| ret_code := KEYB_NOERROR; this_layout := this;
           created_layout := None; tried_cp := None |}, m).

(** ** [keyboard_layout::switch_foreign_layout] and [get_layout_name] *)

Definition switch_foreign_layout (this : keyboard_layout) : keyboard_layout :=
  set_diacritics_character 0
    (set_use_foreign_layout (negb (use_foreign_layout this)) this).

(** The name of the layout, or NULL when the translation is off or no
    file is loaded. *)
Definition get_layout_name (this : keyboard_layout) : option (list Z) :=
  if use_foreign_layout this then
    if negb (cstr_eqb (current_keyboard_file_name this) (str "none"))
    then Some (current_keyboard_file_name this)
    else None
  else None.

(** ** The session: the layout object in use and the machine state *)

Record session : Type := {
  loaded_layout : option keyboard_layout;   (* static keyboard_layout* *)
  mach : machine
}.

(** [DOS_LayoutKey] *)
Definition DOS_LayoutKey (fuel : nat) (s : session) (key flags1 flags2 flags3 : Z)
    : outcome (bool * session) :=
  match loaded_layout s with
  | Some l =>
      '(r, l, m) <- layout_key fuel l key flags1 flags2 flags3 (mach s) ;;
      Ok (r, {| loaded_layout := Some l; mach := m |})
  | None => Ok (false, s)
  end.

(** [DOS_LoadKeyboardLayout] *)
Definition DOS_LoadKeyboardLayout (fuel : nat) (s : session)
    (layoutname : list Z) (codepage : Z) (codepagefile : list Z)
    : outcome (keyb_code * session) :=
  let temp_layout := new_keyboard_layout in
  '(kerrcode, temp_layout, m) <-
     read_keyboard_file_cp fuel temp_layout layoutname codepage (mach s) ;;
  if is_error kerrcode then Ok (kerrcode, {| loaded_layout := loaded_layout s; mach := m |})
  else
    '(kerrcode, m) <- read_codepage_file codepagefile codepage m ;;
    if is_error kerrcode
    then Ok (kerrcode, {| loaded_layout := loaded_layout s; mach := m |})
    else Ok (KEYB_NOERROR, {| loaded_layout := Some temp_layout; mach := m |}).

(** [DOS_SwitchKeyboardLayout]: the code, [tried_cp] if assigned, and the
    session. *)
Definition DOS_SwitchKeyboardLayout (fuel : nat) (s : session) (new_layout : list Z)
    : outcome (keyb_code * option Z * session) :=
  match loaded_layout s with
  | Some l =>
      '(r, m) <- switch_keyboard_layout fuel l new_layout (mach s) ;;
      let l := match created_layout r with
               | Some changed_layout => changed_layout
               | None => this_layout r
               end in
      Ok (ret_code r, tried_cp r, {| loaded_layout := Some l; mach := m |})
  | None => Ok (NO_LAYOUT, None, s)
  end.

(** [DOS_GetLoadedLayout] *)
Definition DOS_GetLoadedLayout (s : session) : option (list Z) :=
  match loaded_layout s with
  | Some l => get_layout_name l
  | None => None
  end.

(** The session that the module constructor sets up before it reads the
    configured layout: code page 437 and a fresh layout object. *)
Definition initial_session : session :=
  {| loaded_layout := Some new_keyboard_layout;
     mach := {| loaded_codepage := 437; kl_read_buf := []; cp_read_buf := [];
                trace := [] |} |}.

End Engine.

(** * A machine with a few files

    The files and the environment on which the properties below are
    tried out.  [MAX_SCAN_CODE] is 0x58 here, as in the BIOS of the
    emulator. *)

(** A file of [size] zero bytes with the given bytes placed at the given
    offsets. *)
Fixpoint place (bytes : list Z) (i : nat) (file : list Z) : list Z :=
  match bytes with
  | [] => file
  | b :: rest => place rest (S i) (upd 0 file i b)
  end.

Definition file_of (size : nat) (parts : list (nat * list Z)) : list Z :=
  fold_left (fun file part => place (snd part) (fst part) file) parts (repeat 0 size).

(** The start of a layout file: the magic, no language codes, one
    submapping for code page 437 and no additional planes.  The KeybCB
    block is at offset 6 and its descriptor at offset 26. *)
Definition kl_header (table_offset diacritics_offset : Z) : list (nat * list Z) :=
  [ (0%nat, [0x4b; 0x4c; 0x46; 0; 0; 0]);
    (6%nat, [1; 0]);
    (26%nat, [0xb5; 0x01; table_offset; 0; diacritics_offset; 0]) ].

(** fr.kl: a dead key on scan code 0x1a (command 200), the letters e/E on
    0x12 and q on 0x10, and one diacritics sub-table: lead ^ (0x5e) with
    the pair e -> 0x88.  Its language code is "fr". *)
Definition fr_kl : list Z :=
  file_of 59
    [ (0%nat, [0x4b; 0x4c; 0x46; 0; 0; 4; 0; 0; 102; 114]);
      (10%nat, [1; 0]);
      (30%nat, [0xb5; 0x01; 30; 0; 44; 0]);
      (40%nat, [0x1a; 0x00; 0x01; 200;
                0x12; 0x01; 0x00; 0x65; 0x45;
                0x10; 0x00; 0x00; 0x71;
                0]);
      (54%nat, [0x5e; 1; 0x65; 0x88; 0]) ].

(** two.kl: two records for scan code 0x10, the second of three entries
    with a zero in the middle. *)
Definition two_kl : list Z :=
  file_of 46
    (kl_header 28 0 ++
     [ (34%nat, [0x10; 0x01; 0x00; 0x61; 0x41;
                 0x10; 0x02; 0x00; 0x62; 0x00; 0x63;
                 0]) ]).

(** high.kl: a record whose scan code has its high bit set. *)
Definition high_kl : list Z :=
  file_of 40 (kl_header 28 0 ++ [ (34%nat, [0x81; 0x00; 0x00; 0x61; 0]) ]).

(** long.kl: a diacritics table of four sub-tables of 255 pairs each, 2048
    bytes in all, and its terminator. *)
Definition long_kl : list Z :=
  file_of 2100
    (kl_header 0 34 ++
     [ (40%nat, 0x5e :: 255 :: repeat 0x41 510);
       (552%nat, 0x60 :: 255 :: repeat 0x41 510);
       (1064%nat, 0x7e :: 255 :: repeat 0x41 510);
       (1576%nat, 0x27 :: 255 :: repeat 0x41 510) ]).

(** far.kl: a diacritics table at the largest offset. *)
Definition far_kl : list Z := file_of 40 (kl_header 0 0xff ++ [ (31%nat, [0xff]) ]).

(** f.kl: three submappings.  The first is for any code page and maps
    scan code 0x10 to command 121, the switch to submapping 2; the second
    is for code page 437 and is empty; the key table of the third starts
    at the last byte of the file. *)
Definition f_kl : list Z :=
  file_of 67
    [ (0%nat, [0x4b; 0x4c; 0x46; 0; 0; 0]);
      (6%nat, [3; 0]);
      (26%nat, [0; 0; 50; 0; 0; 0; 0; 0;
                0xb5; 0x01; 0; 0; 0; 0; 0; 0;
                0xb5; 0x01; 60; 0; 0; 0; 0; 0]);
      (56%nat, [0x10; 0x00; 0x01; 121; 0]);
      (66%nat, [0x1e]) ].

(** x.kl: a layout file without submappings, three bytes longer than f.kl. *)
Definition x_kl : list Z :=
  file_of 70 [ (0%nat, [0x4b; 0x4c; 0x46; 0; 0; 0; 0; 0]); (67%nat, [0; 0; 0x5a]) ].

(** loop.kl: four submappings without tables; the third is for code
    page 850. *)
Definition loop_kl : list Z :=
  file_of 58
    [ (0%nat, [0x4b; 0x4c; 0x46; 0; 0; 0]);
      (6%nat, [4; 0]);
      (42%nat, [0x52; 0x03]) ].

(** back.cpi: two code-page entries.  The first, at 0x64, is for code
    page 437 and its next pointer leads back to the entry at 0x20, which
    is for code page 850.  Both name the font data header at 0x90, which
    holds no fonts. *)
Definition back_cpi : list Z :=
  file_of 0x94
    [ (0%nat, [0xff; 0x46; 0x4f; 0x4e; 0x54]);
      (0x13%nat, [0x60; 0; 0; 0]);
      (0x60%nat, [2; 0]);
      (0x64%nat, [0x1e; 0; 0; 0]); (0x68%nat, [1; 0]);
      (0x72%nat, [0xb5; 0x01]); (0x7a%nat, [0x90; 0; 0; 0]);
      (0x24%nat, [1; 0]); (0x2e%nat, [0x52; 0x03]); (0x36%nat, [0x90; 0; 0; 0]);
      (0x90%nat, [1; 0; 0; 0]) ].

(** drdos.cpi: the five bytes of the DR-DOS format, then the identifier
    of UPX and a version byte. *)
Definition drdos_cpi : list Z :=
  file_of 110 [ (0%nat, [0x7f; 0x44; 0x52; 0x46; 0x5f; 0x55; 0x50; 0x58; 0x21; 13]) ].

Definition disk : list (list Z * list Z) :=
  [ (str "fr.kl", fr_kl); (str "two.kl", two_kl); (str "high.kl", high_kl);
    (str "long.kl", long_kl); (str "far.kl", far_kl);
    (str "f.kl", f_kl); (str "x.kl", x_kl);
    (str "Z:\CPI\back.cpi", back_cpi); (str "Z:\CPI\drdos.cpi", drdos_cpi) ].

Fixpoint lookup (files : list (list Z * list Z)) (name : list Z) : option (list Z) :=
  match files with
  | [] => None
  | (n, content) :: rest => if cstr_eqb n name then Some content else lookup rest name
  end.

(** The machine: the disk above, no built-in resources, and an unpacker
    that hands back the bytes of back.cpi whatever it is given. *)
Definition E0 : env :=
  {| MAX_SCAN_CODE := 0x58;
     open_file := lookup disk;
     BLOB_KEYBOARD_SYS := fun _ => [];
     BLOB_EGA_CPX := fun _ => [];
     FILE_EGA_CPX := fun _ => [];
     upx_unpack := fun _ => Some back_cpi;
     text_mode := true;
     egavga_arch := true;
     font_16 := 0xc0000;
     font_16_alternate := 0xc1000;
     font_14 := 0xc2000;
     font_14_alternate := 0xc3000;
     font_8_first := 0xc4000;
     font_8_second := 0xc4400 |}.

Definition m0 : machine := mach (initial_session E0).

(** keyboard.sys: a library with one layout, "de", for code page 850.
    Its record starts at offset 7 and its KeybCB block at offset 14. *)
Definition keyboard_sys : list Z :=
  file_of 42
    [ (0%nat, [0x4b; 0x43; 0x46; 0; 0; 0; 0]);
      (7%nat, [32; 0; 4; 0; 0; 100; 101]);
      (14%nat, [1; 0]);
      (34%nat, [0x52; 0x03]) ].

(** A second machine: the first one with the library file added. *)
Definition E1 : env :=
  {| MAX_SCAN_CODE := MAX_SCAN_CODE E0;
     open_file := lookup ((str "keyboard.sys", keyboard_sys) :: disk);
     BLOB_KEYBOARD_SYS := BLOB_KEYBOARD_SYS E0;
     BLOB_EGA_CPX := BLOB_EGA_CPX E0;
     FILE_EGA_CPX := FILE_EGA_CPX E0;
     upx_unpack := upx_unpack E0;
     text_mode := text_mode E0;
     egavga_arch := egavga_arch E0;
     font_16 := font_16 E0;
     font_16_alternate := font_16_alternate E0;
     font_14 := font_14 E0;
     font_14_alternate := font_14_alternate E0;
     font_8_first := font_8_first E0;
     font_8_second := font_8_second E0 |}.

(** The second machine after [extract_codepage("de")]. *)
Definition de_extracted : machine :=
  match extract_codepage E1 (str "de") m0 with
  | Ok (_, m) => m
  | _ => m0
  end.

(** The session after [DOS_LoadKeyboardLayout(name, 437, "none")]. *)
Definition loaded (name : list Z) : session :=
  match DOS_LoadKeyboardLayout E0 10 (initial_session E0) name 437 (str "none") with
  | Ok (_, s) => s
  | _ => initial_session E0
  end.

Definition layout_of (s : session) : keyboard_layout :=
  match loaded_layout s with
  | Some l => l
  | None => new_keyboard_layout E0
  end.

(** A key pressed with no modifier, and a sequence of such keys: the
    values returned and the session reached. *)
Definition press (s : session) (key : Z) : outcome (bool * session) :=
  DOS_LayoutKey E0 10 s key 0 0 0.

Fixpoint type_keys (s : session) (keys : list Z) : outcome (list bool * session) :=
  match keys with
  | [] => Ok ([], s)
  | key :: rest =>
      '(r, s) <- press s key ;;
      '(rs, s) <- type_keys s rest ;;
      Ok (r :: rs, s)
  end.

(** What an observer of the key buffer sees of a run. *)
Definition keys_seen (o : outcome (list bool * session)) : outcome (list bool * list event) :=
  '(rs, s) <- o ;; Ok (rs, trace (mach s)).

(** The sessions of the runs below: fr.kl loaded, then its dead key
    pressed; f.kl loaded, then a switch to the layout x attempted. *)
Definition fr_session : session := loaded (str "fr").

Definition fr_dead_session : session :=
  match press fr_session 0x1a with
  | Ok (_, s) => s
  | _ => fr_session
  end.

Definition fr_dead : keyboard_layout := layout_of fr_dead_session.

Definition f_session : session := loaded (str "f").

Definition f_after_switch : session :=
  match DOS_SwitchKeyboardLayout E0 10 f_session (str "x") with
  | Ok (_, _, s) => s
  | _ => f_session
  end.

(** Row [scan] of the table of a layout, planes 0 to [n - 1]. *)
Definition row (l : keyboard_layout) (scan : Z) (n : nat) : list Z :=
  firstn n (skipn (Z.to_nat (scan * layout_pages)) (current_layout l)).

(** * Notions used in the statements *)

(** The range of the dead-key state: no dead key pending, or the biased
    index of a sub-table that exists. *)
Definition dc_inv (l : keyboard_layout) : Prop :=
  diacritics_character l = 0
  \/ 200 <= diacritics_character l < diacritics_entries l + 200.

(** One operation on a layout object, as far as the object is concerned. *)
Inductive step (E : env) : keyboard_layout -> keyboard_layout -> Prop :=
| step_read_keyboard_file fuel this name specific cp m code this' m' :
    read_keyboard_file E fuel this name specific cp m = Ok (code, this', m') ->
    step E this this'
| step_map_key fuel this key e is_command is_keypair m r this' m' :
    map_key E fuel this key e is_command is_keypair m = Ok (r, this', m') ->
    step E this this'
| step_layout_key fuel this key flags1 flags2 flags3 m r this' m' :
    layout_key E fuel this key flags1 flags2 flags3 m = Ok (r, this', m') ->
    step E this this'
| step_switch fuel this new_layout m r m' :
    switch_keyboard_layout E fuel this new_layout m = Ok (r, m') ->
    step E this (this_layout r)
| step_switch_created fuel this new_layout m r m' created :
    switch_keyboard_layout E fuel this new_layout m = Ok (r, m') ->
    created_layout r = Some created ->
    step E this created.

(** The layout objects that the operations can produce from a new one. *)
Inductive reachable (E : env) : keyboard_layout -> Prop :=
| reach_new : reachable E (new_keyboard_layout E)
| reach_step l l' : reachable E l -> step E l l' -> reachable E l'.

(** The code-page entry that starts at [start_pos]: does it match the
    code page looked for, and where does its font data header lie. *)
Definition entry_matches (cpi_buf : list Z) (start_pos codepage_id : Z) : outcome bool :=
  device_type <- at_w cpi_buf (u32 (start_pos + 0x04)) ;;
  font_codepage <- at_w cpi_buf (u32 (start_pos + 0x0e)) ;;
  font_data_header_pt <- at_d cpi_buf (u32 (start_pos + 0x16)) ;;
  font_type <- at_w cpi_buf font_data_header_pt ;;
  Ok ((device_type =? 1) && (font_type =? 1) && (font_codepage =? codepage_id)).

Definition entry_fonts (cpi_buf : list Z) (start_pos : Z) : outcome Z :=
  at_d cpi_buf (u32 (start_pos + 0x16)).

(** The entry that the next pointer of the entry at [start_pos] leads to,
    and the entry reached after [k] such hops. *)
Definition next_entry (cpi_buf : list Z) (start_pos : Z) : outcome Z :=
  next <- at_d cpi_buf start_pos ;; Ok (u32 (next + 2)).

Fixpoint chain (cpi_buf : list Z) (k : nat) (start_pos : Z) : outcome Z :=
  match k with
  | O => Ok start_pos
  | S k' => next <- next_entry cpi_buf start_pos ;; chain cpi_buf k' next
  end.

(** A buffer of bytes. *)
Definition bytes (a : list Z) : Prop := Forall (fun b => 0 <= b < 256) a.

(** An environment whose files and built-in libraries are byte strings
    of less than 2 GiB. *)
Definition small_bytes (file : list Z) : Prop := bytes file /\ len file < 2 ^ 31.

Definition sound_env (E : env) : Prop :=
  (forall name file, open_file E name = Some file -> small_bytes file)
  /\ (forall i, small_bytes (BLOB_KEYBOARD_SYS E i)).

(** Element [i] of an array, for an index known to be in range. *)
Definition byte_at (a : list Z) (i : Z) : Z := nth (Z.to_nat i) a 0.

(** Entry [p] of the key record whose entries start at [pos] in the
    buffer [rb]: its first byte, which decides whether the entry counts as
    a mapping, and the value the table receives (two bytes when the
    record has the S flag). *)
Definition record_byte (rb : list Z) (pos p : Z) : Z :=
  byte_at rb (pos + p * (if nonzero (Z.land (byte_at rb (pos - 2)) 0x80) then 2 else 1)).

Definition record_entry (rb : list Z) (pos p : Z) : Z :=
  let charptr := pos + p * (if nonzero (Z.land (byte_at rb (pos - 2)) 0x80) then 2 else 1) in
  if nonzero (Z.land (byte_at rb (pos - 2)) 0x80)
  then u16 (Z.lor (byte_at rb charptr) (Z.shiftl (byte_at rb (charptr + 1)) 8))
  else byte_at rb charptr.

Definition same_settings (l l' : keyboard_layout) : Prop :=
  additional_planes l' = additional_planes l
  /\ current_layout_planes l' = current_layout_planes l
  /\ used_lock_modifiers l' = used_lock_modifiers l
  /\ diacritics_character l' = diacritics_character l
  /\ user_keys l' = user_keys l
  /\ current_keyboard_file_name l' = current_keyboard_file_name l
  /\ use_foreign_layout l' = use_foreign_layout l
  /\ language_codes l' = language_codes l.

(** The machine [m'] is [m] after the key codes [ks] have been handed to
    the key buffer: no other external call was made, and the loaded code
    page is the same. *)
Definition enqueued (m : machine) (ks : list Z) (m' : machine) : Prop :=
  trace m' = trace m ++ map BIOS_AddKeyToBuffer ks
  /\ loaded_codepage m' = loaded_codepage m.

(** The machine [m'] is [m] after some external calls: the scratch
    buffers of the layout reader are the same. *)
Definition calls_only (m m' : machine) : Prop :=
  kl_read_buf m' = kl_read_buf m /\ cp_read_buf m' = cp_read_buf m
  /\ exists evs, trace m' = trace m ++ evs.

(** What a code page that is installed leaves behind. *)
Definition installed (codepage_id : Z) (m m' : machine) : Prop :=
  loaded_codepage m' = u16 (Z.land codepage_id 0xffff)
  /\ kl_read_buf m' = kl_read_buf m /\ cp_read_buf m' = cp_read_buf m
  /\ exists evs, trace m' = trace m ++ evs ++ [INT10_SetupRomMemoryChecksum].

(** The lock modifiers that decide whether the normal and the shift
    plane apply always include both shift keys, Ctrl and Alt. *)
Definition lock_inv (l : keyboard_layout) : Prop :=
  Z.land (used_lock_modifiers l) 0x0f = 0x0f.

(** A chain of [n] diacritics sub-tables that starts at offset [s]: each
    sub-table is a lead byte, a count [c] and [c] pairs, and ends at or
    before [bound].  [f] gives the byte at an offset. *)
Fixpoint table_ok (f : Z -> Z) (n : nat) (s bound : Z) : Prop :=
  match n with
  | O => True
  | S n' =>
      0 <= f (s + 1) /\ s + 2 + 2 * f (s + 1) <= bound
      /\ table_ok f n' (s + 2 + 2 * f (s + 1)) bound
  end.

(** The diacritics table of a layout object is well formed: each of its
    [diacritics_entries] sub-tables is found by the walk that [map_key]
    makes, and lies inside [diacritics[0..2048)] with all its pairs. *)
Definition diacritics_ok (l : keyboard_layout) : Prop :=
  forall k, 0 <= k < diacritics_entries l ->
  exists s n,
    subtable_start (Z.to_nat k) (diacritics l) 0 = Ok s
    /\ rd diacritics_ 0 2048 (diacritics l) (s + 1) = Ok n
    /\ 0 <= s /\ 0 <= n /\ s + 2 + 2 * n <= 2048.

(** The computation does not end in an access outside the array [a]. *)
Definition stays_inside {A : Type} (a : array) (o : outcome A) : Prop :=
  forall i, o <> Fault a i.

(** * Properties *)

(** ** The outcome monad *)

Lemma bind_Ok {A B : Type} (m : outcome A) (k : A -> outcome B) (b : B) :
  bind m k = Ok b -> exists a, m = Ok a /\ k a = Ok b.
Proof. destruct m; simpl; intros H; try discriminate. eauto. Qed.

Lemma Ok_inj {A : Type} (a b : A) : Ok a = Ok b -> a = b.
Proof. intros H. injection H as H. exact H. Qed.

Lemma assert_Ok (c : bool) (u : unit) : assert c = Ok u -> c = true.
Proof. destruct c; simpl; [reflexivity | discriminate]. Qed.

(** Splits a hypothesis [bind m k = Ok b] into its two halves. *)
Ltac unbind H :=
  let a := fresh "a" in
  let Ha := fresh "Ha" in
  apply bind_Ok in H; destruct H as [a [Ha H]].

(** Takes apart every hypothesis that says that a computation ended
    normally: binds, tests and case distinctions. *)
Ltac run :=
  repeat match goal with
  | H : bind _ _ = Ok _ |- _ => unbind H
  | H : assert _ = Ok _ |- _ => apply assert_Ok in H
  | H : (let '(_, _) := ?p in _) = Ok _ |- _ => destruct p
  | H : (if ?c then _ else _) = Ok _ |- _ => destruct c eqn:?
  | H : match ?x with _ => _ end = Ok _ |- _ => destruct x eqn:?
  | H : true = false |- _ => discriminate H
  | H : false = true |- _ => discriminate H
  | H : Ok _ = Ok _ |- _ => apply Ok_inj in H
  | H : (_, _) = (_, _) |- _ => apply pair_equal_spec in H; destruct H
  | H : ?x = ?x |- _ => clear H
  | H : _ = ?x |- _ => is_var x; subst x
  | H : ?x = _ |- _ => is_var x; subst x
  | H : @Fault _ _ _ = Ok _ |- _ => discriminate H
  | H : @Throw _ = Ok _ |- _ => discriminate H
  | H : @Abort _ = Ok _ |- _ => discriminate H
  | H : @Timeout _ = Ok _ |- _ => discriminate H
  | H : _ = Ok _ |- _ => progress (cbv beta iota zeta in H)
  end.

(** ** Arrays *)

Lemma nth_upd_eq {A : Type} (d : A) (a : list A) (n : nat) (v : A) :
  nth n (upd d a n v) d = v.
Proof.
  revert a; induction n as [|n IH]; intros [|x a]; simpl; auto.
Qed.

Lemma nth_upd_ne {A : Type} (d : A) (a : list A) (n k : nat) (v : A) :
  n <> k -> nth k (upd d a n v) d = nth k a d.
Proof.
  revert a k; induction n as [|n IH]; intros [|x a] [|k] H; simpl; auto;
    try congruence.
  - destruct k; reflexivity.
  - rewrite IH by congruence. destruct k; reflexivity.
Qed.

Lemma rd_Ok (name : array) (size : Z) (a : list Z) (i v : Z) :
  rd name 0 size a i = Ok v -> 0 <= i < size /\ v = nth (Z.to_nat i) a 0.
Proof.
  unfold rd. destruct (0 <=? i) eqn:H0; destruct (i <? size) eqn:H1; simpl;
    intros H; inversion H; split; auto; lia.
Qed.

Lemma rd_in (name : array) (size : Z) (a : list Z) (i : Z) :
  0 <= i < size -> rd name 0 size a i = Ok (nth (Z.to_nat i) a 0).
Proof.
  intros H. unfold rd.
  replace (0 <=? i) with true by (symmetry; apply Z.leb_le; lia).
  replace (i <? size) with true by (symmetry; apply Z.ltb_lt; lia).
  reflexivity.
Qed.

Lemma wr_Ok (name : array) (size : Z) (a a' : list Z) (i v : Z) :
  wr name 0 size a i v = Ok a' -> 0 <= i < size /\ a' = upd 0 a (Z.to_nat i) v.
Proof.
  unfold wr. destruct (0 <=? i) eqn:H0; destruct (i <? size) eqn:H1; simpl;
    intros H; inversion H; split; auto; lia.
Qed.

Section Properties.

Variable E : env.

(** ** Pass-through *)

(** C5.  When [use_foreign_layout] is false, [layout_key] returns false
    whatever the scan code and the flags are, and neither the layout
    object nor the machine state (and with it the key buffer) changes. *)
Theorem layout_key_pass_through (fuel : nat) (this : keyboard_layout)
    (key flags1 flags2 flags3 : Z) (m : machine) :
  use_foreign_layout this = false ->
  layout_key E fuel this key flags1 flags2 flags3 m = Ok (false, this, m).
Proof.
  intros H. unfold layout_key. rewrite H. simpl.
  destruct (MAX_SCAN_CODE E <? key); reflexivity.
Qed.

(** ** The early exits of the code-page loader *)

(** C10.  [read_codepage_file] called with the file name "none", or with
    the id of the code page that is loaded, returns [KEYB_NOERROR] and
    leaves the machine state as it is: the loaded code page and the trace
    of external calls (font writes included) are unchanged. *)
Theorem read_codepage_file_skip (name : list Z) (id : Z) (m : machine) :
  name = str "none" \/ id = loaded_codepage m ->
  read_codepage_file E name id m = Ok (KEYB_NOERROR, m).
Proof.
  intros [H | H]; unfold read_codepage_file.
  - subst name. reflexivity.
  - subst id. rewrite Z.eqb_refl.
    destruct (cstr_eqb _ _); reflexivity.
Qed.

(** ** The dead-key state stays in its range *)

(** The parser never assigns [diacritics_character]. *)

Lemma read_planes_dc rb n : forall i pos l pos' l',
  read_planes rb n i pos l = Ok (pos', l') ->
  diacritics_character l' = diacritics_character l.
Proof.
  induction n as [|n IH]; intros i pos l pos' l' H; cbn [read_planes] in H; run.
  - reflexivity.
  - apply IH in H. rewrite H. reflexivity.
Qed.

Lemma read_diacritics_dc rb base l l' :
  read_diacritics rb base l = Ok l' ->
  diacritics_character l' = diacritics_character l.
Proof.
  unfold read_diacritics. intros H. run. reflexivity.
Qed.

Lemma add_mapping_dc rb addmap pos scan l l' :
  add_mapping E rb addmap pos scan l = Ok l' ->
  diacritics_character l' = diacritics_character l.
Proof.
  unfold add_mapping. intros H. run; reflexivity.
Qed.

Lemma add_mappings_dc rb n : forall addmap pos scan l l',
  add_mappings E rb n addmap pos scan l = Ok l' ->
  diacritics_character l' = diacritics_character l.
Proof.
  induction n as [|n IH]; intros addmap pos scan l l' H; cbn [add_mappings] in H; run;
    try reflexivity.
  apply IH in H. rewrite H. eapply add_mapping_dc; eassumption.
Qed.

Lemma merge_flags_dc rb pos scan n l n' l' :
  merge_flags E rb pos scan n l = Ok (n', l') ->
  diacritics_character l' = diacritics_character l.
Proof.
  unfold merge_flags. intros H. run; reflexivity.
Qed.

Lemma key_record_dc rb pos scan n l n' l' :
  key_record E rb pos scan n l = Ok (n', l') ->
  diacritics_character l' = diacritics_character l.
Proof.
  unfold key_record. intros H. run; try reflexivity.
  match goal with
  | Hm : merge_flags _ _ _ _ _ _ = Ok _ |- _ => apply merge_flags_dc in Hm; rewrite Hm
  end.
  eapply add_mappings_dc; eassumption.
Qed.

Lemma process_table_dc rb fuel : forall pos i bytes l l',
  process_table E rb fuel pos i bytes l = Ok l' ->
  diacritics_character l' = diacritics_character l.
Proof.
  induction fuel as [|fuel IH]; intros pos i bytes l l' H; cbn [process_table] in H; run;
    try reflexivity.
  apply IH in H. rewrite H. eapply key_record_dc; eassumption.
Qed.

Lemma submappings_loop_dc rb fuel : forall size start subs spec cp sub found l found' l',
  submappings_loop E rb fuel size start subs spec cp sub found l = Ok (found', l') ->
  diacritics_character l' = diacritics_character l.
Proof.
  induction fuel as [|fuel IH]; intros size start subs spec cp sub found l found' l' H;
    cbn [submappings_loop] in H; run; try reflexivity;
    repeat match goal with
    | Hx : submappings_loop _ _ _ _ _ _ _ _ _ _ _ = Ok _ |- _ => apply IH in Hx; rewrite Hx
    | Hx : process_table _ _ _ _ _ _ _ = Ok _ |- _ => apply process_table_dc in Hx; rewrite Hx
    | Hx : read_diacritics _ _ _ = Ok _ |- _ => apply read_diacritics_dc in Hx; rewrite Hx
    end; reflexivity.
Qed.

Lemma parse_keyboard_file_dc rb fuel size start spec cp l code l' :
  parse_keyboard_file E rb fuel size start spec cp l = Ok (code, l') ->
  diacritics_character l = 0 ->
  diacritics_character l' = 0.
Proof.
  unfold parse_keyboard_file. intros H H0. run; try reflexivity.
  cbn [diacritics_character set_use_foreign_layout].
  match goal with
  | Hx : submappings_loop _ _ _ _ _ _ _ _ _ _ _ = Ok _ |- _ =>
      apply submappings_loop_dc in Hx; rewrite Hx
  end.
  match goal with
  | Hx : read_planes _ _ _ _ _ = Ok _ |- _ => apply read_planes_dc in Hx; rewrite Hx
  end.
  exact H0.
Qed.

(** After [read_keyboard_file] no dead key is pending. *)
Lemma read_keyboard_file_dc fuel this name spec cp m code this' m' :
  read_keyboard_file E fuel this name spec cp m = Ok (code, this', m') ->
  diacritics_character this' = 0.
Proof.
  unfold read_keyboard_file. intros H.
  destruct (spec =? -1); run; try reflexivity.
  all: match goal with
       | Hx : parse_keyboard_file _ _ _ _ _ _ _ _ = Ok _ |- _ =>
           apply parse_keyboard_file_dc in Hx; [exact Hx | reflexivity]
       end.
Qed.

Lemma dc_inv_zero l : diacritics_character l = 0 -> dc_inv l.
Proof. intros H. left. exact H. Qed.

Lemma read_keyboard_file_specific_inv fuel this spec m this' m' :
  read_keyboard_file_specific E fuel this spec m = Ok (this', m') ->
  dc_inv this -> dc_inv this'.
Proof.
  unfold read_keyboard_file_specific. intros H Hinv. run; try exact Hinv.
  apply dc_inv_zero.
  match goal with
  | Hx : read_keyboard_file _ _ _ _ _ _ _ = Ok _ |- _ =>
      apply read_keyboard_file_dc in Hx; exact Hx
  end.
Qed.

Lemma map_key_inv fuel this key e is_command is_keypair m r this' m' :
  map_key E fuel this key e is_command is_keypair m = Ok (r, this', m') ->
  dc_inv this -> dc_inv this'.
Proof.
  unfold map_key. intros H Hinv. run;
    try exact Hinv; try (apply dc_inv_zero; reflexivity).
  - (* a dead-key command *)
    cbn [diacritics_character diacritics_entries set_diacritics_character].
    destruct (diacritics_entries this + 200 <=? u8 (Z.land e 255)) eqn:Hentries;
      [apply dc_inv_zero; reflexivity |].
    right. cbn [diacritics_character diacritics_entries set_diacritics_character].
    apply andb_prop in Heqb0. destruct Heqb0 as [Hlo Hhi]. lia.
  - eapply read_keyboard_file_specific_inv; eassumption.
Qed.

Lemma check_planes_inv n : forall fuel this key flags cplane pair m r this' m',
  check_planes E n fuel this key flags cplane pair m = Ok (r, this', m') ->
  dc_inv this -> dc_inv this'.
Proof.
  induction n as [|n IH]; intros fuel this key flags cplane pair m r this' m' H Hinv;
    cbn [check_planes] in H; run; try exact Hinv.
  - eapply map_key_inv; eassumption.
  - eapply IH; [eassumption |]. eapply map_key_inv; eassumption.
  - eapply IH; eassumption.
Qed.

Lemma layout_key_inv fuel this key flags1 flags2 flags3 m r this' m' :
  layout_key E fuel this key flags1 flags2 flags3 m = Ok (r, this', m') ->
  dc_inv this -> dc_inv this'.
Proof.
  unfold layout_key. intros H Hinv. run; try exact Hinv.
  all: match goal with
       | Hx : shift_normal _ _ _ _ _ _ _ _ = Ok (_, ?l, _) |- _ =>
           assert (dc_inv l)
             by (unfold shift_normal in Hx; run; try exact Hinv;
                 eapply map_key_inv; eassumption)
       end.
  all: try assumption.
  all: match goal with
       | Hx : check_planes _ _ _ _ _ _ _ _ _ = Ok (_, ?l, _) |- _ =>
           assert (dc_inv l) by (eapply check_planes_inv; eassumption)
       end.
  all: try assumption.
  unfold pending_diacritic in H. run; try assumption; apply dc_inv_zero; reflexivity.
Qed.

Lemma switch_keyboard_layout_inv fuel this new_layout m r m' :
  switch_keyboard_layout E fuel this new_layout m = Ok (r, m') ->
  dc_inv this ->
  dc_inv (this_layout r)
  /\ forall created, created_layout r = Some created -> dc_inv created.
Proof.
  unfold switch_keyboard_layout, read_keyboard_file_cp. intros H Hinv.
  run; cbn [this_layout created_layout]; split;
    try exact Hinv; try (apply dc_inv_zero; reflexivity);
    try (intros created Hc; discriminate Hc).
  - destruct (use_foreign_layout this); [exact Hinv | apply dc_inv_zero; reflexivity].
  - intros created Hc. inversion Hc; subst. apply dc_inv_zero.
    match goal with
    | Hx : read_keyboard_file _ _ _ _ _ _ _ = Ok _ |- _ =>
        apply read_keyboard_file_dc in Hx; exact Hx
    end.
  - destruct (use_foreign_layout this); [apply dc_inv_zero; reflexivity | exact Hinv].
Qed.

(** C9.  Every layout object that the operations produce from a newly
    constructed one (by [read_keyboard_file], [map_key], [layout_key] or
    [switch_keyboard_layout], the object a switch creates included) has its
    [diacritics_character] equal to 0 or inside
    [200, diacritics_entries + 200). *)
Theorem diacritics_character_in_range (l : keyboard_layout) :
  reachable E l -> dc_inv l.
Proof.
  induction 1 as [|l l' Hl IH Hstep].
  - apply dc_inv_zero. reflexivity.
  - destruct Hstep.
    + apply dc_inv_zero. eapply read_keyboard_file_dc; eassumption.
    + eapply map_key_inv; eassumption.
    + eapply layout_key_inv; eassumption.
    + match goal with
      | Hs : switch_keyboard_layout _ _ _ _ _ = Ok _ |- _ =>
          exact (proj1 (switch_keyboard_layout_inv _ _ _ _ _ _ Hs IH))
      end.
    + match goal with
      | Hs : switch_keyboard_layout _ _ _ _ _ = Ok _, Hc : created_layout _ = Some _ |- _ =>
          exact (proj2 (switch_keyboard_layout_inv _ _ _ _ _ _ Hs IH) _ Hc)
      end.
Qed.

(** ** Dead keys *)

Lemma subtable_start_nonneg n : forall d s0 s,
  0 <= s0 -> subtable_start n d s0 = Ok s -> 0 <= s.
Proof.
  induction n as [|n IH]; intros d s0 s H0 H; cbn [subtable_start] in H; run.
  - exact H0.
  - eapply IH; [| eassumption]. unfold u16. apply Z.mod_pos_bound. lia.
Qed.

(** A call of [map_key] that returns false has changed nothing. *)
Lemma map_key_false fuel this key e is_command is_keypair m this' m' :
  map_key E fuel this key e is_command is_keypair m = Ok (false, this', m') ->
  this' = this /\ m' = m.
Proof.
  unfold map_key. intros H. run; split; reflexivity.
Qed.

Lemma shift_normal_false fuel this key flags1 flags3 pair m this' m' :
  shift_normal E fuel this key flags1 flags3 pair m = Ok (false, this', m') ->
  this' = this /\ m' = m.
Proof.
  unfold shift_normal. intros H. run; try (split; reflexivity);
    eapply map_key_false; eassumption.
Qed.

Lemma check_planes_false n : forall fuel this key flags cplane pair m this' m',
  check_planes E n fuel this key flags cplane pair m = Ok (false, this', m') ->
  this' = this /\ m' = m.
Proof.
  induction n as [|n IH]; intros fuel this key flags cplane pair m this' m' H;
    cbn [check_planes] in H; run; try (split; reflexivity).
  - match goal with
    | Hm : map_key _ _ _ _ _ _ _ _ = Ok _ |- _ =>
        apply map_key_false in Hm; destruct Hm; subst
    end.
    eapply IH; eassumption.
  - eapply IH; eassumption.
Qed.

(** C3, as the code has it.  When [layout_key] reaches its last block (the
    key is in range, the layout is active, neither the shift/normal block
    nor the additional planes took the key, a dead key is pending and the
    key is not a state-changing one) it clears [diacritics_character].
    If the pending value is not the index of a sub-table it returns true
    and hands nothing to the key buffer; otherwise it hands over one
    value, the scan code with the lead byte of the pending sub-table, and
    returns false. *)
Theorem pending_diacritic_step (fuel : nat) (this : keyboard_layout)
    (key flags1 flags2 flags3 : Z) (m : machine) (key_flags : Z)
    (this1 this2 : keyboard_layout) (m1 m2 : machine) :
  key <= MAX_SCAN_CODE E ->
  use_foreign_layout this = true ->
  table E this (key * layout_pages + layout_pages - 1) = Ok key_flags ->
  shift_normal E fuel this key flags1 flags3 (Z.land key_flags 0x80 =? 0x80) m
    = Ok (false, this1, m1) ->
  check_planes E (Z.to_nat (additional_planes this1)) fuel this1 key
    (current_flags flags1 flags2 flags3) 0 (Z.land key_flags 0x80 =? 0x80) m1
    = Ok (false, this2, m2) ->
  0 < diacritics_character this ->
  state_key key = false ->
  (diacritics_entries this + 200 <= diacritics_character this ->
   layout_key E fuel this key flags1 flags2 flags3 m
   = Ok (true, set_diacritics_character 0 this, m))
  /\ (diacritics_character this < diacritics_entries this + 200 ->
      forall start lead,
        subtable_start (Z.to_nat (diacritics_character this - 200)) (diacritics this) 0
          = Ok start ->
        rd diacritics_ 0 2048 (diacritics this) start = Ok lead ->
        layout_key E fuel this key flags1 flags2 flags3 m
        = Ok (false, set_diacritics_character 0 this,
              emit (BIOS_AddKeyToBuffer (keycode key lead)) m)).
Proof.
  intros Hkey Hforeign Hflags Hshift Hplanes Hpending Hstate.
  pose proof (shift_normal_false _ _ _ _ _ _ _ _ _ Hshift) as [-> ->].
  pose proof (check_planes_false _ _ _ _ _ _ _ _ _ _ Hplanes) as [-> ->].
  assert (Hhead : layout_key E fuel this key flags1 flags2 flags3 m
                  = pending_diacritic this key m).
  { unfold layout_key.
    replace (MAX_SCAN_CODE E <? key) with false by (symmetry; apply Z.ltb_ge; lia).
    rewrite Hforeign. cbn [negb]. rewrite Hflags. cbn [bind].
    rewrite Hshift. cbn [bind]. rewrite Hplanes. reflexivity. }
  rewrite Hhead. unfold pending_diacritic.
  replace (0 <? diacritics_character this) with true by (symmetry; apply Z.ltb_lt; lia).
  rewrite Hstate. split.
  - intros Hout.
    replace (diacritics_entries this + 200 <=? diacritics_character this) with true
      by (symmetry; apply Z.leb_le; lia).
    reflexivity.
  - intros Hin start lead Hstart Hlead.
    replace (diacritics_entries this + 200 <=? diacritics_character this) with false
      by (symmetry; apply Z.leb_gt; lia).
    rewrite Hstart. cbn [bind]. rewrite Hlead. reflexivity.
Qed.

(** The search of a sub-table, against the pairs it holds. *)

Lemma search_pair_none d s c n : forall i,
  0 <= s -> 0 <= i -> s + 2 * (i + Z.of_nat n) <= 2048 ->
  (forall j, i <= j < i + Z.of_nat n -> byte_at d (s + j * 2) <> c) ->
  search_pair n i d s c = Ok None.
Proof.
  induction n as [|n IH]; intros i Hs Hi Hrange Hno; cbn [search_pair].
  - reflexivity.
  - rewrite rd_in by lia. cbn [bind].
    destruct (Z.eqb_spec (nth (Z.to_nat (s + i * 2)) d 0) c) as [Heq | Hne].
    + exfalso. apply (Hno i); [lia | exact Heq].
    + apply IH; try lia. intros j Hj. apply Hno. lia.
Qed.

Lemma search_pair_some d s c n : forall i k,
  0 <= s -> 0 <= i -> s + 2 * (i + Z.of_nat n) <= 2048 ->
  i <= k < i + Z.of_nat n ->
  byte_at d (s + k * 2) = c ->
  (forall j, i <= j < k -> byte_at d (s + j * 2) <> c) ->
  search_pair n i d s c = Ok (Some (byte_at d (s + k * 2 + 1))).
Proof.
  induction n as [|n IH]; intros i k Hs Hi Hrange Hk Hhit Hno; cbn [search_pair].
  - lia.
  - rewrite rd_in by lia. cbn [bind].
    destruct (Z.eqb_spec (nth (Z.to_nat (s + i * 2)) d 0) c) as [Heq | Hne].
    + assert (k = i).
      { destruct (Z.eq_dec k i) as [|Hki]; [assumption |].
        exfalso. apply (Hno i); [lia | exact Heq]. }
      subst k. rewrite rd_in by lia. reflexivity.
    + assert (k <> i) by (intros ->; apply Hne; exact Hhit).
      apply IH; try lia. intros j Hj. apply Hno. lia.
Qed.

(** C2, as the code has it.  A command code [c] in [200,234] that names a
    sub-table leaves the dead key pending; the literal key that follows
    clears it.  If the literal is the first byte of a pair of the
    sub-table, exactly one value is handed to the key buffer: the scan
    code with the second byte of the first such pair.  If no pair
    matches, two values are handed over: the scan code with the lead byte
    of the sub-table, and then the literal itself. *)
Theorem dead_key_then_literal (fuel : nat) (this : keyboard_layout)
    (key0 e0 : Z) (pair0 : bool) (m : machine) (key L : Z) (is_keypair : bool)
    (s n : Z) :
  let c := u8 (Z.land e0 0xff) in
  let d := diacritics this in
  let this1 := set_diacritics_character c this in
  let done := set_diacritics_character 0 this1 in
  200 <= c < 235 ->
  c < diacritics_entries this + 200 ->
  subtable_start (Z.to_nat (c - 200)) d 0 = Ok s ->
  rd diacritics_ 0 2048 d (s + 1) = Ok n ->
  s + 2 + 2 * n <= 2048 ->
  map_key E fuel this key0 e0 true pair0 m = Ok (true, this1, m)
  /\ (forall i,
        0 <= i < n ->
        byte_at d (s + 2 + i * 2) = Z.land L 0xff ->
        (forall j, 0 <= j < i -> byte_at d (s + 2 + j * 2) <> Z.land L 0xff) ->
        map_key E fuel this1 key L false is_keypair m
        = Ok (true, done,
              emit (BIOS_AddKeyToBuffer (keycode key (byte_at d (s + 2 + i * 2 + 1)))) m))
  /\ ((forall j, 0 <= j < n -> byte_at d (s + 2 + j * 2) <> Z.land L 0xff) ->
      map_key E fuel this1 key L false is_keypair m
      = Ok (true, done,
            emit (BIOS_AddKeyToBuffer
                    (if is_keypair then L else keycode key (Z.land L 0xff)))
              (emit (BIOS_AddKeyToBuffer (keycode key (byte_at d s))) m))).
Proof.
  intros c d this1 done Hc Hentries Hstart Hlen Hrange.
  assert (Hs : 0 <= s) by (eapply subtable_start_nonneg; [| exact Hstart]; lia).
  apply rd_Ok in Hlen as Hn. destruct Hn as [Hs1 Hn].
  assert (Hfirst : map_key E fuel this key0 e0 true pair0 m = Ok (true, this1, m)).
  { unfold map_key. fold c.
    replace ((200 <=? c) && (c <? 235)) with true
      by (symmetry; apply andb_true_intro; split; [apply Z.leb_le | apply Z.ltb_lt]; lia).
    cbn [diacritics_entries diacritics_character set_diacritics_character].
    replace (diacritics_entries this + 200 <=? c) with false
      by (symmetry; apply Z.leb_gt; lia).
    reflexivity. }
  assert (Hhead : forall hit,
    search_pair (Z.to_nat n) 0 d (s + 2) (Z.land L 0xff) = Ok hit ->
    map_key E fuel this1 key L false is_keypair m
    = match hit with
      | Some y => Ok (true, done, emit (BIOS_AddKeyToBuffer (keycode key y)) m)
      | None =>
          Ok (true, done,
              emit (BIOS_AddKeyToBuffer
                      (if is_keypair then L else keycode key (Z.land L 0xff)))
                (emit (BIOS_AddKeyToBuffer (keycode key (byte_at d s))) m))
      end).
  { intros hit Hhit. unfold map_key.
    cbn [diacritics_entries diacritics_character diacritics this1
         set_diacritics_character].
    replace (0 <? c) with true by (symmetry; apply Z.ltb_lt; lia).
    replace (diacritics_entries this <=? c - 200) with false
      by (symmetry; apply Z.leb_gt; lia).
    fold d. rewrite Hstart. cbn [bind]. rewrite Hlen. cbn [bind].
    replace (u16 (s + 2)) with (s + 2) by (unfold u16; rewrite Z.mod_small; lia).
    rewrite Hhit. cbn [bind]. destruct hit as [y |].
    - reflexivity.
    - rewrite rd_in by lia. cbn [bind].
      replace (s + 2 - 2) with s by lia. unfold byte_at.
      destruct is_keypair; reflexivity. }
  split; [exact Hfirst | split].
  - intros i Hi Hhit Hno.
    rewrite (Hhead (Some (byte_at d (s + 2 + i * 2 + 1)))); [reflexivity |].
    apply search_pair_some; try lia; assumption.
  - intros Hno.
    rewrite (Hhead None); [reflexivity |].
    apply search_pair_none; try lia. intros j Hj. apply Hno. lia.
Qed.

(** ** The entries of a key record *)

Lemma byte_at_upd_eq a i v : 0 <= i -> byte_at (upd 0 a (Z.to_nat i) v) i = v.
Proof. intros _. unfold byte_at. apply nth_upd_eq. Qed.

Lemma byte_at_upd_ne a i j v :
  0 <= i -> 0 <= j -> i <> j -> byte_at (upd 0 a (Z.to_nat i) v) j = byte_at a j.
Proof. intros Hi Hj Hne. unfold byte_at. apply nth_upd_ne. lia. Qed.

(** One round of the loop: the planes count is kept, the round writes
    only to its own plane and to the command row, and its own plane
    receives the entry unless the first byte of the entry is zero. *)
Lemma add_mapping_spec rb addmap pos scan l l' :
  add_mapping E rb addmap pos scan l = Ok l' ->
  additional_planes l' = additional_planes l
  /\ (forall idx, 0 <= idx -> idx <> scan * layout_pages + addmap ->
        idx <> scan * layout_pages + layout_pages - 2 ->
        byte_at (current_layout l') idx = byte_at (current_layout l) idx)
  /\ (addmap <> layout_pages - 2 ->
      byte_at (current_layout l') (scan * layout_pages + addmap)
      = if record_byte rb pos addmap =? 0
        then byte_at (current_layout l) (scan * layout_pages + addmap)
        else record_entry rb pos addmap).
Proof.
  unfold add_mapping, buf. intros H. run;
    repeat match goal with
    | Hr : rd _ 0 _ _ _ = Ok _ |- _ => apply rd_Ok in Hr; destruct Hr as [? ?]
    | Hw : wr _ 0 _ _ _ _ = Ok _ |- _ => apply wr_Ok in Hw; destruct Hw as [? ?]
    end; subst; cbn [additional_planes current_layout set_current_layout];
    unfold layout_pages in *;
    (split; [reflexivity | split]).
  all: try (intros idx Hidx Hown Hcmd; rewrite ?byte_at_upd_ne by lia; reflexivity).
  all: intros Hrow; rewrite ?byte_at_upd_ne by lia; rewrite ?byte_at_upd_eq by lia;
    unfold record_byte, record_entry, nonzero, byte_at in *.
  - match goal with
    | Hz : negb (Z.land ?f 128 =? 0) = true |- _ => rewrite Hz
    end.
    match goal with
    | Hz : negb (?k =? 0) = true |- _ =>
        destruct (k =? 0); [discriminate Hz | reflexivity]
    end.
  - match goal with
    | Hz : negb (Z.land ?f 128 =? 0) = false |- _ => rewrite Hz in *
    end.
    match goal with
    | Hz : negb (?k =? 0) = true |- _ =>
        destruct (k =? 0); [discriminate Hz | reflexivity]
    end.
  - match goal with
    | Hz : negb (?k =? 0) = false |- _ =>
        destruct (k =? 0) eqn:Hk; [| discriminate Hz]
    end.
    reflexivity.
Qed.

Lemma add_mappings_planes rb n : forall addmap pos scan l l',
  add_mappings E rb n addmap pos scan l = Ok l' ->
  additional_planes l' = additional_planes l.
Proof.
  induction n as [|n IH]; intros addmap pos scan l l' H; cbn [add_mappings] in H; run;
    try reflexivity.
  apply IH in H. rewrite H. eapply add_mapping_spec; eassumption.
Qed.

(** The loop writes only to the planes it visits and to the command row. *)
Lemma add_mappings_frame rb n : forall addmap pos scan l l',
  add_mappings E rb n addmap pos scan l = Ok l' ->
  forall idx, 0 <= idx ->
    idx <> scan * layout_pages + layout_pages - 2 ->
    (forall p, addmap <= p < addmap + Z.of_nat n -> p <= additional_planes l + 2 ->
       idx <> scan * layout_pages + p) ->
    byte_at (current_layout l') idx = byte_at (current_layout l) idx.
Proof.
  induction n as [|n IH]; intros addmap pos scan l l' H idx Hidx Hcmd Hfree;
    cbn [add_mappings] in H; run; try reflexivity.
  match goal with
  | Hs : add_mapping _ _ _ _ _ _ = Ok _ |- _ =>
      apply add_mapping_spec in Hs; destruct Hs as [Hplanes [Hframe _]]
  end.
  rewrite (IH _ _ _ _ _ H idx Hidx Hcmd).
  - apply Hframe; [exact Hidx | | exact Hcmd]. apply Hfree; lia.
  - intros p Hp Hp'. apply Hfree; [lia |]. rewrite <- Hplanes. exact Hp'.
Qed.

(** Every plane that the loop visits receives its entry, unless the
    first byte of the entry is zero. *)
Lemma add_mappings_install rb n : forall addmap pos scan l l',
  add_mappings E rb n addmap pos scan l = Ok l' ->
  0 <= scan -> 0 <= addmap -> addmap + Z.of_nat n <= layout_pages - 2 ->
  forall p, addmap <= p < addmap + Z.of_nat n -> p <= additional_planes l + 2 ->
    byte_at (current_layout l') (scan * layout_pages + p)
    = if record_byte rb pos p =? 0
      then byte_at (current_layout l) (scan * layout_pages + p)
      else record_entry rb pos p.
Proof.
  induction n as [|n IH]; intros addmap pos scan l l' H Hscan Haddmap Hlen p Hp Hplane;
    cbn [add_mappings] in H; [lia |].
  destruct (additional_planes l + 2 <? addmap) eqn:Hstop.
  { apply Z.ltb_lt in Hstop. lia. }
  run.
  match goal with
  | Hs : add_mapping _ _ _ _ _ _ = Ok _ |- _ =>
      apply add_mapping_spec in Hs; destruct Hs as [Hplanes [Hframe Hown]]
  end.
  unfold layout_pages in *.
  destruct (Z.eq_dec p addmap) as [-> | Hne].
  - assert (Hrest : byte_at (current_layout l') (scan * 12 + addmap)
                    = byte_at (current_layout a) (scan * 12 + addmap)).
    { apply (add_mappings_frame _ _ _ _ _ _ _ H); unfold layout_pages;
        try lia; intros q Hq _; lia. }
    rewrite Hrest. apply Hown. lia.
  - assert (Hrest : byte_at (current_layout l') (scan * 12 + p)
                    = if record_byte rb pos p =? 0
                      then byte_at (current_layout a) (scan * 12 + p)
                      else record_entry rb pos p).
    { apply (IH _ _ _ _ _ H); unfold layout_pages; lia. }
    rewrite Hrest. rewrite Hframe by lia. reflexivity.
Qed.

Lemma merge_flags_frame rb pos scan n l n' l' :
  merge_flags E rb pos scan n l = Ok (n', l') ->
  forall idx, 0 <= idx -> idx <> scan * layout_pages + layout_pages - 1 ->
    byte_at (current_layout l') idx = byte_at (current_layout l) idx.
Proof.
  unfold merge_flags. intros H idx Hidx Hrow. run.
  all: match goal with
       | Hw : wr _ 0 _ _ _ _ = Ok _ |- _ => apply wr_Ok in Hw; destruct Hw as [? ?]
       end; subst; cbn [current_layout set_current_layout];
       apply byte_at_upd_ne; lia.
Qed.

(** C7, as the code has it.  For a key record whose scan code passes the
    test [(scan & 0x7f) <= MAX_SCAN_CODE], every entry [p] below
    [min(scan_length, additional_planes + 2)] is installed at
    [table[scan, p]] when its first byte is not zero, and leaves
    [table[scan, p]] as it was when that byte is zero; the rows of other
    scan codes and the planes of the row above [additional_planes + 2],
    up to plane 9, are not written. *)
Theorem key_record_installs (rb : list Z) (pos scan scan_length : Z)
    (l l' : keyboard_layout) (n' : Z) :
  0 <= scan ->
  Z.land scan 0x7f <= MAX_SCAN_CODE E ->
  1 <= scan_length <= 8 ->
  key_record E rb pos scan scan_length l = Ok (n', l') ->
  (forall p, 0 <= p < Z.min scan_length (additional_planes l + 2) ->
     byte_at (current_layout l') (scan * layout_pages + p)
     = if record_byte rb pos p =? 0
       then byte_at (current_layout l) (scan * layout_pages + p)
       else record_entry rb pos p)
  /\ (forall idx, 0 <= idx ->
        idx < scan * layout_pages
        \/ scan * layout_pages + additional_planes l + 2 < idx
           < scan * layout_pages + layout_pages - 2
        \/ scan * layout_pages + layout_pages <= idx ->
        byte_at (current_layout l') idx = byte_at (current_layout l) idx).
Proof.
  intros Hscan Hguard Hlen H. unfold key_record in H.
  replace (Z.land scan 127 <=? MAX_SCAN_CODE E) with true in H
    by (symmetry; apply Z.leb_le; exact Hguard).
  run.
  match goal with
  | Hm : merge_flags _ _ _ _ _ _ = Ok _ |- _ => pose proof (merge_flags_frame _ _ _ _ _ _ _ Hm) as Hflags
  end.
  match goal with
  | Ha : add_mappings _ _ _ _ _ _ _ = Ok _ |- _ =>
      pose proof (add_mappings_install _ _ _ _ _ _ _ Ha) as Hinstall;
      pose proof (add_mappings_frame _ _ _ _ _ _ _ Ha) as Hframe
  end.
  unfold layout_pages in *. split.
  - intros p Hp. rewrite Hflags by lia. apply Hinstall; lia.
  - intros idx Hidx Hout. rewrite Hflags by lia.
    apply Hframe; try lia; intros p Hp Hp'; lia.
Qed.

(** ** The chain of code-page entries *)

(** One round of the search at an entry that does not match: the next
    pointer is followed, whatever it is. *)
Lemma search_codepages_next cpi_buf n start_pos codepage_id m next :
  entry_matches cpi_buf start_pos codepage_id = Ok false ->
  next_entry cpi_buf start_pos = Ok next ->
  search_codepages E (S n) cpi_buf start_pos codepage_id m
  = search_codepages E n cpi_buf next codepage_id m.
Proof.
  unfold entry_matches, next_entry. intros Hm Hn. cbn [search_codepages]. run.
  repeat match goal with
  | Hx : _ = Ok _ |- _ => rewrite Hx; cbn [bind]
  | Hx : _ = false |- _ => rewrite Hx
  end.
  reflexivity.
Qed.

(** One round of the search at an entry that matches. *)
Lemma search_codepages_hit cpi_buf n start_pos codepage_id m hdr :
  entry_matches cpi_buf start_pos codepage_id = Ok true ->
  entry_fonts cpi_buf start_pos = Ok hdr ->
  search_codepages E (S n) cpi_buf start_pos codepage_id m
  = install_codepage E cpi_buf hdr codepage_id m.
Proof.
  unfold entry_matches, entry_fonts. intros Hm Hh. cbn [search_codepages]. run.
  match goal with
  | H1 : ?t = Ok _, H2 : ?t = Ok hdr |- _ => rewrite H1 in H2; apply Ok_inj in H2; subst hdr
  end.
  repeat match goal with
  | Hx : _ = Ok _ |- _ => rewrite Hx; cbn [bind]
  | Hx : _ = true |- _ => rewrite Hx
  end.
  reflexivity.
Qed.

Lemma install_codepage_code cpi_buf hdr codepage_id m code m' :
  install_codepage E cpi_buf hdr codepage_id m = Ok (code, m') -> code = KEYB_NOERROR.
Proof.
  unfold install_codepage. intros H. run; reflexivity.
Qed.

(** C8, as the code has it.  The next pointer of an entry that does not
    match is followed as it is, with no test that it points forward.  If
    the first [n] entries along the chain do not match, the search
    through [n] entries returns [KEYB_INVALIDCPFILE] and changes nothing.
    If entry [k] of the chain, with [k < n], is the first that matches,
    the search installs the fonts of that entry, and the code it then
    returns is [KEYB_NOERROR]; this holds wherever the chain has led,
    backwards included. *)
Theorem search_codepages_follows_chain (cpi_buf : list Z) (codepage_id : Z)
    (m : machine) (n : nat) (start_pos : Z) :
  ((forall k, (k < n)%nat ->
      exists s next, chain cpi_buf k start_pos = Ok s
                     /\ entry_matches cpi_buf s codepage_id = Ok false
                     /\ next_entry cpi_buf s = Ok next) ->
   search_codepages E n cpi_buf start_pos codepage_id m = Ok (KEYB_INVALIDCPFILE, m))
  /\ (forall k s hdr,
        (k < n)%nat ->
        chain cpi_buf k start_pos = Ok s ->
        entry_matches cpi_buf s codepage_id = Ok true ->
        entry_fonts cpi_buf s = Ok hdr ->
        (forall j, (j < k)%nat ->
           exists sj, chain cpi_buf j start_pos = Ok sj
                      /\ entry_matches cpi_buf sj codepage_id = Ok false) ->
        search_codepages E n cpi_buf start_pos codepage_id m
        = install_codepage E cpi_buf hdr codepage_id m
        /\ forall code m',
             install_codepage E cpi_buf hdr codepage_id m = Ok (code, m') ->
             code = KEYB_NOERROR).
Proof.
  split.
  - revert start_pos. induction n as [|n IH]; intros start_pos Hall.
    + reflexivity.
    + destruct (Hall 0%nat) as [s [next [Hs [Hm Hn]]]]; [lia |].
      cbn [chain] in Hs. apply Ok_inj in Hs. subst s.
      rewrite (search_codepages_next _ _ _ _ _ _ Hm Hn).
      apply IH. intros k Hk.
      destruct (Hall (S k)) as [s [next' [Hs [Hm' Hn']]]]; [lia |].
      cbn [chain] in Hs. rewrite Hn in Hs. cbn [bind] in Hs.
      exists s, next'. auto.
  - intros k. revert n start_pos.
    induction k as [|k IH]; intros n start_pos s hdr Hk Hs Hm Hh Hbefore.
    + cbn [chain] in Hs. apply Ok_inj in Hs. subst s.
      destruct n as [|n]; [lia |]. split.
      * apply search_codepages_hit; assumption.
      * intros code m'. apply install_codepage_code.
    + destruct n as [|n]; [lia |].
      destruct (Hbefore 0%nat) as [s0 [Hs0 Hm0]]; [lia |].
      cbn [chain] in Hs0. apply Ok_inj in Hs0. subst s0.
      cbn [chain] in Hs. apply bind_Ok in Hs. destruct Hs as [next [Hn Hs]].
      rewrite (search_codepages_next _ _ _ _ _ _ Hm0 Hn).
      apply (IH n next s hdr); try assumption; [lia |].
      intros j Hj. destruct (Hbefore (S j)) as [sj [Hsj Hmj]]; [lia |].
      cbn [chain] in Hsj. rewrite Hn in Hsj. cbn [bind] in Hsj.
      exists sj. auto.
Qed.

(** An entry whose fields lie beyond the array makes [at] throw: the
    function ends with an exception, not with a code. *)
Remark search_codepages_out_of_range cpi_buf n start_pos codepage_id m :
  CPI_BUF <= u32 (start_pos + 0x04) ->
  search_codepages E (S n) cpi_buf start_pos codepage_id m = Throw.
Proof.
  intros H. cbn [search_codepages]. unfold at_w at 1.
  replace (u32 (start_pos + 4) <? CPI_BUF) with false
    by (symmetry; apply Z.ltb_ge; exact H).
  reflexivity.
Qed.

(** ** A switch that fails *)

(** A code-page load that returns an error code has changed nothing. *)
Lemma search_codepages_error cpi_buf n : forall start_pos codepage_id m code m',
  search_codepages E n cpi_buf start_pos codepage_id m = Ok (code, m') ->
  is_error code = true -> m' = m.
Proof.
  induction n as [|n IH]; intros start_pos codepage_id m code m' H Herr;
    cbn [search_codepages] in H; run.
  - reflexivity.
  - apply install_codepage_code in H. subst code. discriminate Herr.
  - eapply IH; eassumption.
Qed.

Lemma parse_cpi_error cpi_buf size codepage_id m code m' :
  parse_cpi E cpi_buf size codepage_id m = Ok (code, m') ->
  is_error code = true -> m' = m.
Proof.
  unfold parse_cpi. intros H Herr. run; [reflexivity |].
  eapply search_codepages_error; eassumption.
Qed.

Lemma read_codepage_file_error name codepage_id m code m' :
  read_codepage_file E name codepage_id m = Ok (code, m') ->
  is_error code = true -> m' = m.
Proof.
  unfold read_codepage_file. intros H Herr. run; try reflexivity;
    try discriminate Herr; eapply parse_cpi_error; eassumption.
Qed.

(** The two functions that read layout files change only their own
    scratch buffer. *)
Lemma extract_codepage_machine name m cp m' :
  extract_codepage E name m = Ok (cp, m') ->
  loaded_codepage m' = loaded_codepage m /\ trace m' = trace m
  /\ kl_read_buf m' = kl_read_buf m.
Proof.
  unfold extract_codepage. intros H. run; repeat split; reflexivity.
Qed.

Lemma read_keyboard_file_machine fuel this name spec cp m code this' m' :
  read_keyboard_file E fuel this name spec cp m = Ok (code, this', m') ->
  loaded_codepage m' = loaded_codepage m /\ trace m' = trace m
  /\ cp_read_buf m' = cp_read_buf m.
Proof.
  unfold read_keyboard_file. intros H. run; repeat split; reflexivity.
Qed.

(** When [DOS_SwitchKeyboardLayout] returns an error code, the layout
    object in use (its table, planes, dead-key state and the rest), the
    loaded code page and the trace of external calls are what they were.
    Only the two static scratch buffers may differ. *)
Lemma failed_switch_keeps_session fuel s new_layout code tried s' :
  DOS_SwitchKeyboardLayout E fuel s new_layout = Ok (code, tried, s') ->
  is_error code = true ->
  loaded_layout s' = loaded_layout s
  /\ loaded_codepage (mach s') = loaded_codepage (mach s)
  /\ trace (mach s') = trace (mach s).
Proof.
  unfold DOS_SwitchKeyboardLayout, switch_keyboard_layout, read_keyboard_file_cp.
  intros H Herr. destruct s as [[l |] m0]; cbn [loaded_layout mach] in *; run;
    cbn [ret_code this_layout created_layout tried_cp loaded_layout mach] in *;
    try discriminate Herr; try (repeat split; reflexivity).
  - match goal with
    | He : extract_codepage _ _ _ = Ok _, Hr : read_keyboard_file _ _ _ _ _ _ _ = Ok _ |- _ =>
        apply extract_codepage_machine in He; apply read_keyboard_file_machine in Hr;
        destruct He as [He1 [He2 _]]; destruct Hr as [Hr1 [Hr2 _]]
    end.
    repeat split; congruence.
  - match goal with
    | He : extract_codepage _ _ _ = Ok _, Hr : read_keyboard_file _ _ _ _ _ _ _ = Ok _,
      Hc : read_codepage_file _ _ _ _ = Ok _ |- _ =>
        apply extract_codepage_machine in He; apply read_keyboard_file_machine in Hr;
        apply read_codepage_file_error in Hc; [| assumption];
        destruct He as [He1 [He2 _]]; destruct Hr as [Hr1 [Hr2 _]]
    end.
    subst. repeat split; congruence.
Qed.

(** ** The fuel of the parser is enough

    The loops of the parser other than the loop over the submappings are
    bounded, and the fuel the embedding gives them is never used up: they
    end normally, with a fault or with a failed assert.  The loop over the
    submappings ends within 256 rounds when no specific layout is asked
    for. *)

Lemma bind_ends {A B : Type} (m : outcome A) (k : A -> outcome B) :
  m <> Timeout -> (forall a, m = Ok a -> k a <> Timeout) -> bind m k <> Timeout.
Proof.
  intros Hm Hk. destruct m; cbn [bind]; try discriminate; auto.
Qed.

Lemma rd_ends {A : Type} name (d : A) size a i : rd name d size a i <> Timeout.
Proof. unfold rd. destruct (_ && _); discriminate. Qed.

Lemma wr_ends {A : Type} name (d : A) size a i v : wr name d size a i v <> Timeout.
Proof. unfold wr. destruct (_ && _); discriminate. Qed.

Lemma assert_ends c : assert c <> Timeout.
Proof. destruct c; discriminate. Qed.

Lemma host_readw_ends name size a i : host_readw name size a i <> Timeout.
Proof.
  unfold host_readw. repeat (apply bind_ends; [apply rd_ends | intros ? _]).
  discriminate.
Qed.

(** Goals of the form [_ <> Timeout], as far as the shape of the term
    decides them. *)
Ltac ends :=
  repeat first
    [ apply rd_ends | apply wr_ends | apply assert_ends | apply host_readw_ends
    | discriminate
    | match goal with
      | |- bind _ _ <> Timeout => apply bind_ends; [| intros ? ?]
      | |- (let '(_, _) := ?p in _) <> Timeout => destruct p
      | |- (if ?c then _ else _) <> Timeout => destruct c eqn:?
      end ].

Lemma nth_byte (a : list Z) (n : nat) : bytes a -> 0 <= nth n a 0 < 256.
Proof.
  intros Ha. destruct (Nat.lt_ge_cases n (List.length a)) as [Hlt | Hge].
  - exact (proj1 (Forall_nth _ a) Ha n 0 Hlt).
  - rewrite nth_overflow by exact Hge. lia.
Qed.

Lemma buf_byte rb i v : bytes rb -> buf rb i = Ok v -> 0 <= v < 256.
Proof.
  intros Hb H. unfold buf in H. apply rd_Ok in H. destruct H as [_ ->].
  apply nth_byte. exact Hb.
Qed.

Lemma language_code_ends rb fuel : forall start_pos i data_len code,
  Z.max 0 (data_len - i) < Z.of_nat fuel ->
  language_code rb fuel start_pos i data_len code <> Timeout.
Proof.
  induction fuel as [|fuel IH]; intros start_pos i data_len code Hfuel; [lia |].
  cbn [language_code]. destruct (Z.ltb_spec i data_len); [| discriminate].
  unfold buf. ends. apply IH. lia.
Qed.

Lemma language_code_advances rb fuel : forall start_pos i data_len code i' code',
  language_code rb fuel start_pos i data_len code = Ok (i', code') -> i <= i'.
Proof.
  induction fuel as [|fuel IH]; intros start_pos i data_len code i' code' H;
    cbn [language_code] in H; run; try lia.
  apply IH in H. lia.
Qed.

Lemma read_language_codes_ends rb fuel : forall start_pos i data_len codes,
  data_len < 255 -> 0 <= i -> Z.max 0 (data_len - i) < Z.of_nat fuel ->
  read_language_codes rb fuel start_pos i data_len codes <> Timeout.
Proof.
  induction fuel as [|fuel IH]; intros start_pos i data_len codes Hlen Hi Hfuel; [lia |].
  cbn [read_language_codes]. destruct (Z.ltb_spec i data_len); [| discriminate].
  apply bind_ends.
  - apply language_code_ends. change (Z.of_nat 256) with 256. lia.
  - intros [i' code] Hc. apply language_code_advances in Hc.
    apply IH; [exact Hlen | lia | lia].
Qed.

Lemma read_planes_ends rb n : forall i pos l, read_planes rb n i pos l <> Timeout.
Proof.
  induction n as [|n IH]; intros i pos l; cbn [read_planes]; unfold bufw; ends.
  apply IH.
Qed.

Lemma diacritics_scan_ends rb fuel : forall base i entries,
  bytes rb -> 0 <= i -> Z.max 0 (2048 - i) < 2 * Z.of_nat fuel - 1 ->
  diacritics_scan rb fuel base i entries <> Timeout.
Proof.
  induction fuel as [|fuel IH]; intros base i entries Hb Hi Hfuel; [lia |].
  cbn [diacritics_scan]. destruct (Z.ltb_spec i 2048); [| discriminate].
  apply bind_ends; [apply rd_ends |]. intros lead Hlead.
  destruct (lead =? 0); [discriminate |].
  apply bind_ends; [apply rd_ends |]. intros n Hn.
  apply (buf_byte _ _ _ Hb) in Hn.
  assert (Hnext : u16 (i + (n * 2 + 2)) = i + (n * 2 + 2))
    by (unfold u16; apply Z.mod_small; lia).
  rewrite Hnext. apply IH; [exact Hb | lia | lia].
Qed.

Lemma diacritics_copy_ends rb fuel : forall base j i d,
  0 <= j -> Z.max 0 (i - j + 1) < Z.of_nat fuel ->
  diacritics_copy rb fuel base j i d <> Timeout.
Proof.
  induction fuel as [|fuel IH]; intros base j i d Hj Hfuel; [lia |].
  cbn [diacritics_copy]. destruct (Z.leb_spec j i); [| discriminate].
  apply bind_ends; [apply rd_ends |]. intros v _.
  apply bind_ends; [apply wr_ends |]. intros d' Hd.
  apply wr_Ok in Hd. destruct Hd as [Hrange _].
  assert (Hnext : u16 (j + 1) = j + 1) by (unfold u16; apply Z.mod_small; lia).
  rewrite Hnext. apply IH; lia.
Qed.

Lemma diacritics_scan_nonneg rb fuel : forall base i entries i' entries',
  0 <= i -> diacritics_scan rb fuel base i entries = Ok (i', entries') -> 0 <= i'.
Proof.
  induction fuel as [|fuel IH]; intros base i entries i' entries' Hi H;
    cbn [diacritics_scan] in H; run; try lia.
  eapply IH; [| exact H]. unfold u16. apply Z.mod_pos_bound. lia.
Qed.

Lemma read_diacritics_ends rb base l : bytes rb -> read_diacritics rb base l <> Timeout.
Proof.
  intros Hb. unfold read_diacritics. apply bind_ends.
  - apply diacritics_scan_ends; [exact Hb | lia |].
    change (Z.of_nat 1025) with 1025. lia.
  - intros [i entries] Hscan. apply diacritics_scan_nonneg in Hscan; [| lia].
    apply bind_ends; [| intros; discriminate].
    apply diacritics_copy_ends; lia.
Qed.

Lemma add_mappings_ends rb n : forall addmap pos scan l,
  add_mappings E rb n addmap pos scan l <> Timeout.
Proof.
  induction n as [|n IH]; intros addmap pos scan l; cbn [add_mappings];
    [discriminate |].
  destruct (_ <? _); [discriminate |].
  apply bind_ends; [| intros; apply IH].
  unfold add_mapping, buf. ends.
Qed.

Lemma key_record_ends rb pos scan n l : key_record E rb pos scan n l <> Timeout.
Proof.
  unfold key_record. destruct (_ <=? _); [| discriminate].
  apply bind_ends; [apply add_mappings_ends |]. intros l' _.
  unfold merge_flags, buf. ends.
Qed.

Lemma key_record_length rb pos scan n l n' l' :
  1 <= n <= 8 -> key_record E rb pos scan n l = Ok (n', l') -> 1 <= n' <= 16.
Proof.
  unfold key_record, merge_flags. intros Hn H. run; unfold u8; try lia.
  destruct (nonzero _); [rewrite Z.mod_small; lia | lia].
Qed.

Lemma process_table_ends rb fuel : forall pos i bytes_read l,
  bytes rb -> 0 <= pos -> Z.max 0 (READ_BUF - pos) + 4 <= 4 * Z.of_nat fuel ->
  process_table E rb fuel pos i bytes_read l <> Timeout.
Proof.
  unfold READ_BUF.
  induction fuel as [|fuel IH]; intros pos i bytes_read l Hb Hpos Hfuel; [lia |].
  cbn [process_table]. destruct (i <? bytes_read); [| discriminate].
  apply bind_ends; [apply rd_ends |]. intros scan Hscan.
  destruct (scan =? 0); [discriminate |].
  unfold buf in Hscan. apply rd_Ok in Hscan. destruct Hscan as [Hrange _].
  unfold READ_BUF in Hrange.
  apply bind_ends; [apply rd_ends |]. intros b Hbyte.
  pose proof (buf_byte _ _ _ Hb Hbyte) as Hbrange.
  apply bind_ends; [apply assert_ends |]. intros _ _.
  apply bind_ends; [apply key_record_ends |]. intros [n' l'] Hrec.
  assert (Hland : 0 <= Z.land b 7 <= 7).
  { assert (Hmod : Z.land b 7 = b mod 8)
      by (change 7 with (Z.ones 3); rewrite Z.land_ones by lia; reflexivity).
    rewrite Hmod. pose proof (Z.mod_pos_bound b 8 ltac:(lia)). lia. }
  apply key_record_length in Hrec;
    [| unfold u8; rewrite Z.mod_small; lia].
  assert (H1 : u32 (pos + 1) = pos + 1) by (unfold u32; apply Z.mod_small; lia).
  rewrite H1.
  assert (H2 : u32 (pos + 1 + 2) = pos + 3) by (unfold u32; rewrite Z.mod_small; lia).
  rewrite H2.
  assert (H3 : u32 (pos + 3 + n') = pos + 3 + n')
    by (unfold u32; apply Z.mod_small; lia).
  rewrite H3.
  apply IH; [exact Hb | lia | lia].
Qed.

Lemma submappings_loop_ends rb fuel : forall size start subs cp sub found l,
  bytes rb -> 0 <= sub -> subs <= 256 -> Z.max 0 (subs - sub) < Z.of_nat fuel ->
  submappings_loop E rb fuel size start subs (-1) cp sub found l <> Timeout.
Proof.
  induction fuel as [|fuel IH]; intros size start subs cp sub found l Hb Hsub Hsubs Hfuel;
    [lia |].
  cbn [submappings_loop].
  destruct (Z.ltb_spec sub subs); [| cbn [andb]; discriminate].
  destruct (negb found); [cbn [andb] | cbn [andb]; discriminate].
  change (-1 =? -1) with true. rewrite andb_false_r.
  assert (Hnext : u16 (sub + 1) = sub + 1) by (unfold u16; apply Z.mod_small; lia).
  rewrite Hnext.
  assert (Hrec : forall found' l',
            submappings_loop E rb fuel size start subs (-1) cp (sub + 1) found' l'
            <> Timeout) by (intros; apply IH; try assumption; lia).
  apply bind_ends; [apply host_readw_ends |]. intros submap_cp _.
  destruct (_ && _); [apply Hrec |].
  apply bind_ends; [apply host_readw_ends |]. intros diacritics_offset _.
  apply bind_ends.
  { destruct (nonzero _); [apply read_diacritics_ends; exact Hb | discriminate]. }
  intros l1 _.
  apply bind_ends; [apply host_readw_ends |]. intros table_offset Htable.
  destruct (table_offset =? 0); [apply Hrec |].
  apply bind_ends.
  { destruct (Z.le_gt_cases 0 (start + table_offset)) as [Hpos | Hneg].
    - apply process_table_ends; [exact Hb | exact Hpos |].
      unfold READ_BUF. rewrite Z2Nat.id by lia. lia.
    - (* a negative cursor: the first read is a fault *)
      destruct (Z.to_nat READ_BUF) as [|fuel'] eqn:Hfuel';
        [unfold READ_BUF in Hfuel'; lia |].
      cbn [process_table]. destruct (_ <? _); [| discriminate].
      unfold buf, rd.
      replace (0 <=? start + table_offset) with false
        by (symmetry; apply Z.leb_gt; lia).
      cbn [andb bind]. discriminate. }
  intros l2 _. destruct (_ =? _); [discriminate | apply Hrec].
Qed.

(** With no specific layout asked for, the parse of a buffer of bytes
    ends for any fuel of 257 rounds or more. *)
Lemma parse_keyboard_file_ends rb fuel size start cp l :
  bytes rb -> (256 < fuel)%nat ->
  parse_keyboard_file E rb fuel size start (-1) cp l <> Timeout.
Proof.
  intros Hb Hfuel. unfold parse_keyboard_file.
  apply bind_ends; [apply rd_ends |]. intros data_len Hlen.
  apply bind_ends; [apply assert_ends |]. intros u Hassert.
  apply assert_Ok in Hassert. apply Z.ltb_lt in Hassert.
  pose proof (buf_byte _ _ _ Hb Hlen) as Hlen'.
  apply bind_ends.
  { apply read_language_codes_ends; [exact Hassert | lia |].
    change (Z.of_nat 256) with 256. lia. }
  intros codes _.
  apply bind_ends; [apply assert_ends |]. intros _ _.
  apply bind_ends; [apply rd_ends |]. intros submappings Hsubs.
  apply (buf_byte _ _ _ Hb) in Hsubs.
  apply bind_ends; [apply assert_ends |]. intros _ _.
  apply bind_ends; [apply rd_ends |]. intros planes _.
  apply bind_ends; [apply assert_ends |]. intros _ _.
  apply bind_ends; [apply read_planes_ends |]. intros [pos l1] _.
  apply bind_ends.
  - apply submappings_loop_ends; [exact Hb | lia | lia | lia].
  - intros [found l2] _. destruct found; discriminate.
Qed.

(** The same for the lookup of the layout in the files and libraries. *)

Lemma bytes_firstn n a : bytes a -> bytes (firstn n a).
Proof.
  unfold bytes. intros H. rewrite <- (firstn_skipn n a) in H.
  apply Forall_app in H. tauto.
Qed.

Lemma bytes_skipn n a : bytes a -> bytes (skipn n a).
Proof.
  unfold bytes. intros H. rewrite <- (firstn_skipn n a) in H.
  apply Forall_app in H. tauto.
Qed.

Lemma bytes_fread file pos n : bytes file -> bytes (fread file pos n).
Proof. intros H. unfold fread. apply bytes_firstn, bytes_skipn, H. Qed.

Lemma bytes_store data old : bytes data -> bytes old -> bytes (store data old).
Proof.
  intros Hd Ho. unfold store. apply Forall_app. split; [exact Hd |].
  apply bytes_skipn, Ho.
Qed.

Lemma fread_full file pos n :
  0 <= pos -> (0 < n)%nat -> List.length (fread file pos n) = n ->
  pos + Z.of_nat n <= len file.
Proof.
  unfold fread, len. intros Hpos Hn H. rewrite length_firstn, length_skipn in H. lia.
Qed.

Lemma word_range b0 b1 :
  0 <= b0 < 256 -> 0 <= b1 < 256 -> 0 <= Z.lor b0 (Z.shiftl b1 8) < 65536.
Proof.
  intros H0 H1.
  assert (Hs : 0 <= Z.shiftl b1 8 < 65536)
    by (rewrite Z.shiftl_mul_pow2 by lia; change (2 ^ 8) with 256; lia).
  split; [apply Z.lor_nonneg; lia |].
  destruct (Z.eq_dec (Z.lor b0 (Z.shiftl b1 8)) 0) as [-> | Hne]; [lia |].
  assert (Hpos : 0 < Z.lor b0 (Z.shiftl b1 8)).
  { assert (0 <= Z.lor b0 (Z.shiftl b1 8)) by (apply Z.lor_nonneg; lia). lia. }
  change 65536 with (2 ^ 16). apply Z.log2_lt_pow2; [exact Hpos |].
  rewrite Z.log2_lor by lia. apply Z.max_lub_lt.
  - destruct (Z.eq_dec b0 0) as [-> | Hb0]; [reflexivity |].
    apply Z.log2_lt_pow2; [lia |]. change (2 ^ 16) with 65536. lia.
  - destruct (Z.eq_dec (Z.shiftl b1 8) 0) as [-> | Hb1]; [reflexivity |].
    apply Z.log2_lt_pow2; [lia |]. change (2 ^ 16) with 65536. lia.
Qed.

Lemma kcl_file_code_ends file fuel : forall pos i data_len code,
  Z.max 0 (data_len - i) < Z.of_nat fuel ->
  kcl_file_code fuel file pos i data_len code <> Timeout.
Proof.
  induction fuel as [|fuel IH]; intros pos i data_len code Hfuel; [lia |].
  cbn [kcl_file_code]. destruct (Z.ltb_spec i data_len); [| discriminate].
  destruct (fread file pos 1) as [|c [|c' rest]]; try discriminate.
  destruct (c =? 44); [discriminate |]. apply IH. lia.
Qed.

Lemma kcl_file_code_advances file fuel : forall pos i data_len code pos' i' code',
  kcl_file_code fuel file pos i data_len code = Ok (pos', i', code') -> i <= i'.
Proof.
  induction fuel as [|fuel IH]; intros pos i data_len code pos' i' code' H;
    cbn [kcl_file_code] in H; run; try lia.
  apply IH in H. lia.
Qed.

Lemma kcl_file_codes_ends file fuel : forall pos i data_len layout_id first,
  data_len < 255 -> 0 <= i -> Z.max 0 (data_len - i) < Z.of_nat fuel ->
  kcl_file_codes fuel file pos i data_len layout_id first <> Timeout.
Proof.
  induction fuel as [|fuel IH]; intros pos i data_len layout_id first Hlen Hi Hfuel;
    [lia |].
  cbn [kcl_file_codes]. destruct (Z.ltb_spec i data_len); [| discriminate].
  destruct (fread file pos 2) as [|b0 [|b1 [|b2 rest]]]; try discriminate.
  apply bind_ends.
  - apply kcl_file_code_ends. change (Z.of_nat 256) with 256. lia.
  - intros [[pos' i'] code] Hc. apply kcl_file_code_advances in Hc.
    destruct (strcasecmp_eq _ _); [discriminate |].
    destruct first; [discriminate |].
    destruct (_ && _); [discriminate |].
    apply IH; lia.
Qed.

Lemma kcl_file_records_ends file fuel : forall pos layout_id first,
  small_bytes file -> 0 <= pos < 2 ^ 32 -> Z.max 0 (len file - pos) < Z.of_nat fuel ->
  kcl_file_records fuel file pos layout_id first <> Timeout.
Proof.
  induction fuel as [|fuel IH]; intros pos layout_id first [Hb Hsize] Hpos Hfuel; [lia |].
  cbn [kcl_file_records].
  destruct (fread file pos 5) as [|b0 [|b1 [|data_len [|x [|y [|z rest]]]]]] eqn:Hread;
    try discriminate.
  assert (Hfull : pos + 5 <= len file).
  { apply (fread_full file pos 5); [lia | lia |]. rewrite Hread. reflexivity. }
  pose proof (bytes_fread file pos 5 Hb) as Hbytes. rewrite Hread in Hbytes.
  unfold bytes in Hbytes.
  apply Forall_cons_iff in Hbytes. destruct Hbytes as [Hb0 Hbytes].
  apply Forall_cons_iff in Hbytes. destruct Hbytes as [Hb1 _].
  pose proof (word_range _ _ Hb0 Hb1) as Hword.
  apply bind_ends; [apply assert_ends |]. intros u Hassert.
  apply assert_Ok in Hassert. apply Z.ltb_lt in Hassert.
  apply bind_ends.
  - apply kcl_file_codes_ends; [exact Hassert | lia |].
    change (Z.of_nat 256) with 256. lia.
  - intros found _. destruct found; [discriminate |].
    assert (Hcur : u32 pos = pos) by (unfold u32; apply Z.mod_small; lia).
    rewrite Hcur.
    assert (Hnext : u32 (pos + 3 + Z.lor b0 (Z.shiftl b1 8))
                    = pos + 3 + Z.lor b0 (Z.shiftl b1 8))
      by (unfold u32; apply Z.mod_small; lia).
    rewrite Hnext. apply IH; [split; assumption | lia | lia].
Qed.

Lemma read_kcl_file_ends name layout_id first :
  sound_env E -> read_kcl_file E name layout_id first <> Timeout.
Proof.
  intros [Hfiles _]. unfold read_kcl_file.
  destruct (open_file E name) as [file |] eqn:Hopen; [| discriminate].
  pose proof (Hfiles _ _ Hopen) as Hfile.
  destruct (fread file 0 7) as [|b0 [|b1 [|b2 [|b3 [|b4 [|b5 [|b6 [|b7 rest]]]]]]]]
    eqn:Hread; try discriminate.
  destruct (_ || _); [discriminate |].
  pose proof (bytes_fread file 0 7 (proj1 Hfile)) as Hbytes. rewrite Hread in Hbytes.
  assert (Hb6 : 0 <= b6 < 256).
  { unfold bytes in Hbytes. repeat (apply Forall_cons_iff in Hbytes;
      destruct Hbytes as [? Hbytes]). assumption. }
  apply kcl_file_records_ends; [exact Hfile | lia |].
  unfold len. lia.
Qed.

Lemma kcl_data_code_ends data fuel : forall dpos i data_len code,
  Z.max 0 (data_len - i) < Z.of_nat fuel ->
  kcl_data_code fuel data dpos i data_len code <> Timeout.
Proof.
  induction fuel as [|fuel IH]; intros dpos i data_len code Hfuel; [lia |].
  cbn [kcl_data_code]. destruct (Z.ltb_spec i data_len); [| discriminate].
  destruct (_ <? _); [discriminate |].
  apply bind_ends; [apply rd_ends |]. intros lc _.
  destruct (lc =? 44); [discriminate |]. apply IH. lia.
Qed.

Lemma kcl_data_code_advances data fuel : forall dpos i data_len code dpos' i' code',
  kcl_data_code fuel data dpos i data_len code = Ok (dpos', i', code') -> i <= i'.
Proof.
  induction fuel as [|fuel IH]; intros dpos i data_len code dpos' i' code' H;
    cbn [kcl_data_code] in H; run; try lia.
  apply IH in H. lia.
Qed.

Lemma kcl_data_codes_ends data fuel : forall dpos i data_len layout_id first,
  data_len < 256 -> 0 <= i -> Z.max 0 (data_len - i) < 2 * Z.of_nat fuel - 1 ->
  kcl_data_codes fuel data dpos i data_len layout_id first <> Timeout.
Proof.
  induction fuel as [|fuel IH]; intros dpos i data_len layout_id first Hlen Hi Hfuel;
    [lia |].
  cbn [kcl_data_codes]. destruct (Z.ltb_spec i data_len); [| discriminate].
  apply bind_ends; [apply host_readw_ends |]. intros lcnum _.
  apply bind_ends.
  - apply kcl_data_code_ends. change (Z.of_nat 256) with 256. lia.
  - intros [[dpos' i'] code] Hc. apply kcl_data_code_advances in Hc.
    destruct (strcasecmp_eq _ _); [discriminate |].
    destruct first; [discriminate |].
    destruct (nonzero lcnum).
    + destruct (_ <? _); [discriminate |].
      destruct (strcasecmp_eq _ _); [discriminate |]. apply IH; lia.
    + apply IH; lia.
Qed.

Lemma host_readw_range name size a i v :
  bytes a -> host_readw name size a i = Ok v -> 0 <= v < 65536.
Proof.
  intros Hb H. unfold host_readw in H. run.
  repeat match goal with
  | Hx : rd _ 0 _ _ _ = Ok _ |- _ => apply rd_Ok in Hx; destruct Hx as [_ ->]
  end.
  apply word_range; apply nth_byte; exact Hb.
Qed.

Lemma kcl_data_records_ends data fuel : forall dpos layout_id first,
  small_bytes data -> 0 <= dpos < 2 ^ 32 -> Z.max 0 (len data - dpos) < Z.of_nat fuel ->
  kcl_data_records fuel data dpos layout_id first <> Timeout.
Proof.
  induction fuel as [|fuel IH]; intros dpos layout_id first [Hb Hsize] Hpos Hfuel; [lia |].
  cbn [kcl_data_records].
  destruct (Z.ltb_spec (len data) (u32 (dpos + 5))) as [| Hroom]; [discriminate |].
  apply bind_ends; [apply host_readw_ends |]. intros len_ Hlen.
  pose proof (host_readw_range _ _ _ _ _ Hb Hlen) as Hword.
  unfold host_readw in Hlen. apply bind_Ok in Hlen. destruct Hlen as [b0 [Hb0 _]].
  apply rd_Ok in Hb0. destruct Hb0 as [Hin _].
  apply bind_ends; [apply rd_ends |]. intros data_len Hdl.
  apply rd_Ok in Hdl. destruct Hdl as [_ ->].
  pose proof (nth_byte data (Z.to_nat (dpos + 2)) Hb) as Hdl.
  apply bind_ends.
  - apply kcl_data_codes_ends; [lia | lia |]. change (Z.of_nat 256) with 256. lia.
  - intros found _. destruct found; [discriminate |].
    assert (Hnext : u32 (dpos + 3 + len_) = dpos + 3 + len_)
      by (unfold u32; apply Z.mod_small; lia).
    rewrite Hnext. apply IH; [split; assumption | lia | lia].
Qed.

Lemma read_kcl_data_ends data layout_id first :
  small_bytes data -> read_kcl_data data layout_id first <> Timeout.
Proof.
  intros Hdata. unfold read_kcl_data.
  apply bind_ends; [apply rd_ends |]. intros b0 _.
  destruct (negb _); [discriminate |].
  apply bind_ends; [apply rd_ends |]. intros b1 _.
  destruct (negb _); [discriminate |].
  apply bind_ends; [apply rd_ends |]. intros b2 _.
  destruct (negb _); [discriminate |].
  apply bind_ends; [apply rd_ends |]. intros b6 Hb6.
  apply rd_Ok in Hb6. destruct Hb6 as [_ ->].
  pose proof (nth_byte data 6 (proj1 Hdata)) as Hb6.
  change (Z.to_nat 6) with 6%nat.
  apply kcl_data_records_ends; [exact Hdata | lia |]. unfold len. lia.
Qed.

Lemma try_all_ends l name : sound_env E -> try_all E l name <> Timeout.
Proof.
  intros Hsound. induction l as [|[src first] rest IH]; cbn [try_all];
    [discriminate |].
  apply bind_ends.
  - destruct src; [apply read_kcl_file_ends; exact Hsound |].
    apply read_kcl_data_ends. apply Hsound.
  - intros start_pos _. destruct (start_pos =? 0); [exact IH | discriminate].
Qed.

Lemma load_read_buf_ends name read_buf :
  sound_env E -> load_read_buf E name read_buf <> Timeout.
Proof.
  intros Hsound. unfold load_read_buf.
  destruct (_ <? _); [discriminate |].
  destruct (open_file E (name ++ str ".kl")) as [file |].
  - destruct (fread file 0 4) as [|b0 [|b1 [|b2 [|b3 [|b4 rest]]]]]; try discriminate.
    destruct (_ || _); discriminate.
  - apply bind_ends; [apply try_all_ends; exact Hsound |].
    intros [[[f | i] start_pos] |] _; try discriminate.
    + destruct (open_file E f); discriminate.
    + destruct (_ <? _); discriminate.
Qed.

Lemma load_read_buf_bytes name read_buf where_ read_buf' :
  sound_env E -> bytes read_buf ->
  load_read_buf E name read_buf = Ok (where_, read_buf') -> bytes read_buf'.
Proof.
  intros [Hfiles Hblobs] Hb H. unfold load_read_buf in H. run;
    repeat match goal with
    | Ho : open_file E _ = Some _ |- _ => apply Hfiles in Ho; destruct Ho as [? _]
    end;
    repeat first
      [ assumption
      | apply bytes_store
      | apply bytes_fread
      | apply bytes_skipn
      | apply (proj1 (Hblobs _))
      | match goal with
        | Hf : fread ?file ?pos ?n = ?l |- bytes ?l => rewrite <- Hf
        end ].
Qed.

(** [read_keyboard_file(name, req_cp)] ends: with sound files, a scratch
    buffer of bytes and fuel for 257 rounds or more, the embedding never
    runs out of fuel. *)
Lemma read_keyboard_file_ends fuel this name cp m :
  sound_env E -> bytes (kl_read_buf m) -> (256 < fuel)%nat ->
  read_keyboard_file_cp E fuel this name cp m <> Timeout.
Proof.
  intros Hsound Hb Hfuel. unfold read_keyboard_file_cp, read_keyboard_file.
  change (-1 =? -1) with true. cbv beta iota.
  destruct (cstr_eqb name (str "none")); [discriminate |].
  apply bind_ends; [apply load_read_buf_ends; exact Hsound |].
  intros [where_ read_buf] Hload.
  apply (load_read_buf_bytes _ _ _ _ Hsound Hb) in Hload.
  destruct where_ as [start_pos size | code]; [| discriminate].
  apply bind_ends; [| intros [code this'] _; discriminate].
  apply parse_keyboard_file_ends; assumption.
Qed.

(** ** What else the code shows *)

Lemma same_settings_refl l : same_settings l l.
Proof. repeat split. Qed.

Lemma same_settings_trans l1 l2 l3 :
  same_settings l1 l2 -> same_settings l2 l3 -> same_settings l1 l3.
Proof.
  unfold same_settings. intros H1 H2.
  repeat match goal with H : _ /\ _ |- _ => destruct H end.
  repeat split; congruence.
Qed.

Lemma read_diacritics_settings rb base l l' :
  read_diacritics rb base l = Ok l' -> same_settings l l'.
Proof. unfold read_diacritics. intros H. run. repeat split. Qed.

Lemma add_mapping_settings rb addmap pos scan l l' :
  add_mapping E rb addmap pos scan l = Ok l' -> same_settings l l'.
Proof. unfold add_mapping. intros H. run; repeat split. Qed.

Lemma add_mappings_settings rb n : forall addmap pos scan l l',
  add_mappings E rb n addmap pos scan l = Ok l' -> same_settings l l'.
Proof.
  induction n as [|n IH]; intros addmap pos scan l l' H; cbn [add_mappings] in H; run;
    try apply same_settings_refl.
  eapply same_settings_trans; [eapply add_mapping_settings | eapply IH]; eassumption.
Qed.

Lemma merge_flags_settings rb pos scan n l n' l' :
  merge_flags E rb pos scan n l = Ok (n', l') -> same_settings l l'.
Proof. unfold merge_flags. intros H. run; repeat split. Qed.

Lemma key_record_settings rb pos scan n l n' l' :
  key_record E rb pos scan n l = Ok (n', l') -> same_settings l l'.
Proof.
  unfold key_record. intros H. run; try apply same_settings_refl.
  eapply same_settings_trans; [eapply add_mappings_settings | eapply merge_flags_settings];
    eassumption.
Qed.

Lemma process_table_settings rb fuel : forall pos i bytes l l',
  process_table E rb fuel pos i bytes l = Ok l' -> same_settings l l'.
Proof.
  induction fuel as [|fuel IH]; intros pos i bytes l l' H; cbn [process_table] in H; run;
    try apply same_settings_refl.
  eapply same_settings_trans; [eapply key_record_settings | eapply IH]; eassumption.
Qed.

Lemma set_diacritics_entries_settings n l : same_settings l (set_diacritics_entries n l).
Proof. repeat split. Qed.

Lemma submappings_loop_settings rb fuel :
  forall size start subs spec cp sub found l found' l',
  submappings_loop E rb fuel size start subs spec cp sub found l = Ok (found', l') ->
  same_settings l l'.
Proof.
  induction fuel as [|fuel IH]; intros size start subs spec cp sub found l found' l' H;
    cbn [submappings_loop] in H; run; try apply same_settings_refl;
    repeat match goal with
    | Hx : submappings_loop _ _ _ _ _ _ _ _ _ _ _ = Ok _ |- _ => apply IH in Hx
    | Hx : process_table _ _ _ _ _ _ _ = Ok _ |- _ => apply process_table_settings in Hx
    | Hx : read_diacritics _ _ _ = Ok _ |- _ => apply read_diacritics_settings in Hx
    end;
    repeat match goal with
    | Hx : same_settings (set_diacritics_entries ?n ?l) _ |- _ =>
        apply (same_settings_trans _ _ _ (set_diacritics_entries_settings n l)) in Hx
    end;
    eauto using same_settings_trans, set_diacritics_entries_settings.
Qed.

(** [read_planes] assigns the plane descriptors and the lock modifiers. *)
Lemma read_planes_settings rb n : forall i pos l pos' l',
  read_planes rb n i pos l = Ok (pos', l') ->
  additional_planes l' = additional_planes l
  /\ current_layout l' = current_layout l
  /\ current_keyboard_file_name l' = current_keyboard_file_name l
  /\ use_foreign_layout l' = use_foreign_layout l
  /\ language_codes l' = language_codes l.
Proof.
  induction n as [|n IH]; intros i pos l pos' l' H; cbn [read_planes] in H; run.
  - repeat split.
  - apply IH in H. exact H.
Qed.


Lemma reset_reset l : reset E (reset E l) = reset E l.
Proof. reflexivity. Qed.

(** How the parse of the buffer ends: with a match and the layout
    switched on, or with no match and the layout reset. *)
Lemma parse_keyboard_file_result rb fuel size start spec cp l code l' :
  parse_keyboard_file E rb fuel size start spec cp l = Ok (code, l') ->
  current_keyboard_file_name l' = current_keyboard_file_name l
  /\ additional_planes l' <= layout_pages - 4
  /\ ((code = KEYB_NOERROR /\ use_foreign_layout l' = true)
      \/ (code = KEYB_LAYOUTNOTFOUND /\ reset E l' = l'
          /\ use_foreign_layout l' = use_foreign_layout l)).
Proof.
  unfold parse_keyboard_file. intros H. run.
  all: match goal with
       | Hp : read_planes _ _ _ _ _ = Ok _, Hs : submappings_loop _ _ _ _ _ _ _ _ _ _ _ = Ok _
         |- _ =>
           apply read_planes_settings in Hp; apply submappings_loop_settings in Hs;
           destruct Hp as [Hp1 [_ [Hp3 [Hp4 _]]]];
           destruct Hs as [Hs1 [_ [_ [_ [_ [Hs6 [Hs7 _]]]]]]]
       end.
  all: cbn [current_keyboard_file_name additional_planes use_foreign_layout
            set_use_foreign_layout reset set_additional_planes set_language_codes] in *.
  all: split; [congruence |].
  all: split;
    [ rewrite Hs1, Hp1; unfold layout_pages;
      match goal with |- context [if ?c then _ else _] => destruct c eqn:Hc end;
      [lia | apply Z.ltb_ge in Hc; unfold layout_pages in Hc; lia] |].
  - left. split; reflexivity.
  - right. split; [reflexivity |]. split; [reflexivity | congruence].
Qed.

Lemma load_read_buf_failed name read_buf code read_buf' :
  load_read_buf E name read_buf = Ok (Failed code, read_buf') -> is_error code = true.
Proof.
  unfold load_read_buf. intros H. run;
    match goal with
    | Hf : Located _ _ = Failed _ |- _ => discriminate Hf
    | Hf : Failed _ = Failed _ |- _ => injection Hf as Hf; subst; reflexivity
    end.
Qed.

(** How [read_keyboard_file] ends. *)
Lemma read_keyboard_file_result fuel this name spec cp m code this' m' :
  read_keyboard_file E fuel this name spec cp m = Ok (code, this', m') ->
  (additional_planes this <= layout_pages - 4 ->
   additional_planes this' <= layout_pages - 4)
  /\ (spec = -1 -> current_keyboard_file_name this' = safe_strcpy 256 name)
  /\ (is_error code = true -> reset E this' = this')
  /\ (code = KEYB_NOERROR -> cstr_eqb name (str "none") = false ->
      use_foreign_layout this' = true)
  /\ (spec <> -1 -> current_keyboard_file_name this' = current_keyboard_file_name this)
  /\ (is_error code = true -> use_foreign_layout this' = use_foreign_layout this).
Proof.
  unfold read_keyboard_file. intros H.
  destruct (spec =? -1) eqn:Hspec; run;
    try match goal with
    | Hp : parse_keyboard_file _ _ _ _ _ _ _ _ = Ok _ |- _ =>
        apply parse_keyboard_file_result in Hp;
        destruct Hp as [Hn [Hb [[Hc Hu] | [Hc [Hr Hu]]]]]; subst
    end;
    cbn [current_keyboard_file_name additional_planes use_foreign_layout reset
         set_current_keyboard_file_name] in *.
  all: repeat split; try assumption; try reflexivity; try congruence;
    try (intros; discriminate); try (intros; lia).
  all: try (intros Hs; apply Z.eqb_neq in Hspec; contradiction).
  all: try (intros Hs; apply Z.eqb_eq in Hspec; contradiction).
  all: intros Hc; subst;
    match goal with
    | Hl : load_read_buf _ _ _ = Ok (Failed _, _) |- _ =>
        apply load_read_buf_failed in Hl; discriminate Hl
    end.
Qed.

(** *** A layout in its reset state translates nothing *)

Lemma table_reset l i :
  reset E l = l -> 0 <= i < TABLE E -> table E l i = Ok 0.
Proof.
  intros Hr Hi. unfold table. rewrite rd_in by exact Hi.
  rewrite <- Hr. cbn [current_layout reset]. rewrite nth_repeat. reflexivity.
Qed.

Lemma row_in_table key j :
  0 <= key <= MAX_SCAN_CODE E -> 0 <= j < layout_pages ->
  0 <= key * layout_pages + j < TABLE E.
Proof. unfold TABLE, layout_pages. intros Hk Hj. nia. Qed.

Lemma shift_normal_reset fuel l key flags1 flags3 pair m :
  reset E l = l -> 0 <= key <= MAX_SCAN_CODE E ->
  shift_normal E fuel l key flags1 flags3 pair m = Ok (false, l, m).
Proof.
  intros Hr Hk. unfold shift_normal.
  destruct (_ && _); [| reflexivity].
  replace (key * layout_pages + layout_pages - 1)
    with (key * layout_pages + (layout_pages - 1)) by lia.
  rewrite (table_reset l _ Hr) by (apply row_in_table; unfold layout_pages; lia).
  cbn [bind].
  destruct (nonzero _).
  - rewrite (table_reset l _ Hr) by (apply row_in_table; unfold layout_pages; lia).
    reflexivity.
  - replace (key * layout_pages) with (key * layout_pages + 0) by lia.
    rewrite (table_reset l _ Hr) by (apply row_in_table; unfold layout_pages; lia).
    reflexivity.
Qed.

Lemma check_planes_reset n : forall fuel l key flags cplane pair m,
  reset E l = l -> 0 <= key <= MAX_SCAN_CODE E ->
  0 <= cplane -> cplane + Z.of_nat n <= layout_pages - 4 ->
  check_planes E n fuel l key flags cplane pair m = Ok (false, l, m).
Proof.
  induction n as [|n IH]; intros fuel l key flags cplane pair m Hr Hk Hc Hn;
    cbn [check_planes]; [reflexivity |].
  unfold rd.
  replace ((0 <=? cplane) && (cplane <? layout_pages - 4)) with true
    by (symmetry; apply andb_true_intro; split; [apply Z.leb_le | apply Z.ltb_lt]; lia).
  cbn [bind].
  destruct (plane_fits _ _ _).
  - replace (key * layout_pages + 2 + cplane)
      with (key * layout_pages + (2 + cplane)) by lia.
    rewrite (table_reset l _ Hr) by (apply row_in_table; unfold layout_pages in *; lia).
    reflexivity.
  - apply IH; try assumption; lia.
Qed.

Lemma layout_key_reset fuel l key flags1 flags2 flags3 m :
  reset E l = l -> additional_planes l <= layout_pages - 4 -> 0 <= key ->
  layout_key E fuel l key flags1 flags2 flags3 m = Ok (false, l, m).
Proof.
  intros Hr Hp Hk. unfold layout_key.
  destruct (Z.ltb_spec (MAX_SCAN_CODE E) key) as [Hgt | Hle]; [reflexivity |].
  destruct (negb _); [reflexivity |].
  replace (key * layout_pages + layout_pages - 1)
    with (key * layout_pages + (layout_pages - 1)) by lia.
  rewrite (table_reset l _ Hr) by (apply row_in_table; unfold layout_pages; lia).
  cbn [bind].
  rewrite shift_normal_reset by (try assumption; lia). cbn [bind].
  rewrite check_planes_reset by (try assumption; unfold layout_pages in *; lia).
  cbn [bind]. unfold pending_diacritic.
  replace (diacritics_character l) with 0 by (rewrite <- Hr; reflexivity).
  reflexivity.
Qed.

(** X1.  A call of [read_keyboard_file] that returns an error code leaves
    the layout object in its reset state, and every key is then passed
    through: [layout_key] returns false and changes nothing. *)
Theorem failed_read_passes_keys_through (fuel : nat) (this : keyboard_layout)
    (name : list Z) (spec cp : Z) (m : machine)
    (code : keyb_code) (this' : keyboard_layout) (m' : machine) :
  read_keyboard_file E fuel this name spec cp m = Ok (code, this', m') ->
  is_error code = true ->
  additional_planes this <= layout_pages - 4 ->
  reset E this' = this'
  /\ (forall fuel' key flags1 flags2 flags3 m'',
        0 <= key ->
        layout_key E fuel' this' key flags1 flags2 flags3 m'' = Ok (false, this', m''))
  /\ (spec <> -1 -> get_layout_name this' = get_layout_name this).
Proof.
  intros H Herr Hp.
  destruct (read_keyboard_file_result _ _ _ _ _ _ _ _ _ H)
    as [Hp' [_ [Hr [_ [Hname Huse]]]]].
  specialize (Hr Herr). specialize (Hp' Hp). split; [exact Hr |]. split.
  - intros. apply layout_key_reset; assumption.
  - intros Hs. unfold get_layout_name. rewrite (Hname Hs), (Huse Herr). reflexivity.
Qed.

(** *** Loading and switching *)

Lemma safe_strcpy_none name :
  cstr_eqb (safe_strcpy 256 name) (str "none") = cstr_eqb name (str "none").
Proof.
  unfold safe_strcpy. change (256 - 1)%nat with 255%nat.
  change (str "none") with [110; 111; 110; 101].
  destruct name as [|a [|b [|c [|d [|e rest]]]]]; reflexivity.
Qed.

(** The name of a newly constructed layout object after a successful
    read. *)
Lemma read_keyboard_file_name fuel name cp m l m' :
  read_keyboard_file E fuel (new_keyboard_layout E) name (-1) cp m
  = Ok (KEYB_NOERROR, l, m') ->
  get_layout_name l
  = if cstr_eqb name (str "none") then None else Some (safe_strcpy 256 name).
Proof.
  intros Hr. unfold get_layout_name.
  pose proof Hr as Hr'. apply read_keyboard_file_result in Hr'.
  destruct Hr' as [_ [Hname [_ [Huse _]]]].
  destruct (cstr_eqb name (str "none")) eqn:Hnone.
  - unfold read_keyboard_file in Hr. rewrite Hnone in Hr.
    change (-1 =? -1) with true in Hr. cbv beta iota zeta in Hr.
    apply Ok_inj in Hr.
    repeat match goal with
    | Hx : (_, _) = (_, _) |- _ => apply pair_equal_spec in Hx; destruct Hx
    end.
    subst. reflexivity.
  - rewrite (Huse eq_refl eq_refl), (Hname eq_refl), safe_strcpy_none, Hnone.
    reflexivity.
Qed.

Lemma no_error code : is_error code = false -> code = KEYB_NOERROR.
Proof. destruct code; [reflexivity | discriminate ..]. Qed.

(** X2.  After a successful [DOS_LoadKeyboardLayout] the name that
    [DOS_GetLoadedLayout] reports is the name that was loaded, cut to the
    255 characters that the object stores; for the layout "none" it
    reports none. *)
Theorem loaded_layout_is_reported (fuel : nat) (s : session) (name : list Z)
    (cp : Z) (cpfile : list Z) (s' : session) :
  DOS_LoadKeyboardLayout E fuel s name cp cpfile = Ok (KEYB_NOERROR, s') ->
  DOS_GetLoadedLayout s'
  = if cstr_eqb name (str "none") then None else Some (safe_strcpy 256 name).
Proof.
  unfold DOS_LoadKeyboardLayout, read_keyboard_file_cp. intros H. run;
    try match goal with Hc : is_error KEYB_NOERROR = true |- _ => discriminate Hc end.
  unfold DOS_GetLoadedLayout. cbn [loaded_layout].
  match goal with
  | Hr : read_keyboard_file _ _ _ _ _ _ _ = Ok (?c, _, _), Hc : is_error ?c = false |- _ =>
      apply no_error in Hc; subst c; exact (read_keyboard_file_name _ _ _ _ _ _ Hr)
  end.
Qed.

(** X3.  When [DOS_LoadKeyboardLayout] returns an error code, the layout
    object in use, the loaded code page and the trace of external calls
    are what they were. *)
Theorem failed_load_keeps_session (fuel : nat) (s : session) (name : list Z)
    (cp : Z) (cpfile : list Z) (code : keyb_code) (s' : session) :
  DOS_LoadKeyboardLayout E fuel s name cp cpfile = Ok (code, s') ->
  is_error code = true ->
  loaded_layout s' = loaded_layout s
  /\ loaded_codepage (mach s') = loaded_codepage (mach s)
  /\ trace (mach s') = trace (mach s).
Proof.
  unfold DOS_LoadKeyboardLayout, read_keyboard_file_cp. intros H Herr. run;
    cbn [loaded_layout mach]; try discriminate Herr.
  - match goal with
    | Hr : read_keyboard_file _ _ _ _ _ _ _ = Ok _ |- _ =>
        apply read_keyboard_file_machine in Hr; destruct Hr as [Hr1 [Hr2 _]]
    end.
    repeat split; assumption.
  - match goal with
    | Hr : read_keyboard_file _ _ _ _ _ _ _ = Ok _,
      Hc : read_codepage_file _ _ _ _ = Ok _ |- _ =>
        apply read_keyboard_file_machine in Hr; destruct Hr as [Hr1 [Hr2 _]];
        apply read_codepage_file_error in Hc; [| assumption]
    end.
    subst. repeat split; assumption.
Qed.

Lemma cstr_eqb_refl a : cstr_eqb a a = true.
Proof. induction a as [|x a IH]; cbn [cstr_eqb]; [| rewrite Z.eqb_refl]; auto. Qed.

(** X4.  A switch to a name that starts with "US" turns the translation
    off without touching the tables: no layout is reported and every key
    is passed through.  A switch to one of the language codes of the
    layout turns it on again; the object is the one before, with no dead
    key pending.  Neither switch reads a file or changes the machine. *)
Theorem switch_to_US_and_back (fuel : nat) (l : keyboard_layout) (m : machine)
    (us code : list Z) :
  use_foreign_layout l = true ->
  strncasecmp_eq us (str "US") 2 = true ->
  strncasecmp_eq code (str "US") 2 = false ->
  In code (language_codes l) ->
  (List.length code < 256)%nat ->
  let off := {| loaded_layout :=
                  Some (set_diacritics_character 0 (set_use_foreign_layout false l));
                mach := m |} in
  DOS_SwitchKeyboardLayout E fuel {| loaded_layout := Some l; mach := m |} us
  = Ok (KEYB_NOERROR, None, off)
  /\ DOS_GetLoadedLayout off = None
  /\ (forall key flags1 flags2 flags3,
        DOS_LayoutKey E fuel off key flags1 flags2 flags3 = Ok (false, off))
  /\ DOS_SwitchKeyboardLayout E fuel off code
     = Ok (KEYB_NOERROR, None,
           {| loaded_layout := Some (set_diacritics_character 0 l); mach := m |}).
Proof.
  intros Huse Hus Hcode Hin Hlen off. subst off.
  unfold DOS_SwitchKeyboardLayout, switch_keyboard_layout. cbn [loaded_layout mach].
  rewrite Hus, Hcode, Huse. cbn [negb bind ret_code tried_cp created_layout this_layout].
  split; [reflexivity |]. split; [reflexivity |]. split.
  - intros. unfold DOS_LayoutKey, layout_key. cbn [loaded_layout mach use_foreign_layout
      set_diacritics_character set_use_foreign_layout negb].
    destruct (_ <? _); reflexivity.
  - assert (Hcopy : safe_strcpy 256 code = code).
    { unfold safe_strcpy. apply firstn_all2. lia. }
    rewrite Hcopy.
    assert (Hknown : existsb (fun c => strncasecmp_eq code c (List.length (cstr code)))
                       (language_codes l) = true).
    { apply existsb_exists. exists code. split; [exact Hin |].
      unfold strncasecmp_eq. apply cstr_eqb_refl. }
    cbn [language_codes set_diacritics_character set_use_foreign_layout
         use_foreign_layout negb].
    rewrite Hknown. cbn [bind ret_code tried_cp created_layout this_layout].
    destruct l; cbn in *; subst; reflexivity.
Qed.

(** X5.  [switch_foreign_layout] on an active layout turns the
    translation off: no layout name is reported and every key is passed
    through.  A second call turns it on again, with the tables as they
    were and no dead key pending. *)
Theorem switch_foreign_layout_toggles (fuel : nat) (l : keyboard_layout)
    (key flags1 flags2 flags3 : Z) (m : machine) :
  use_foreign_layout l = true ->
  get_layout_name (switch_foreign_layout l) = None
  /\ layout_key E fuel (switch_foreign_layout l) key flags1 flags2 flags3 m
     = Ok (false, switch_foreign_layout l, m)
  /\ switch_foreign_layout (switch_foreign_layout l) = set_diacritics_character 0 l.
Proof.
  intros Huse. unfold switch_foreign_layout, get_layout_name, layout_key.
  cbn [use_foreign_layout set_diacritics_character set_use_foreign_layout].
  rewrite Huse. cbn [negb]. split; [reflexivity |]. split.
  - destruct (_ <? _); reflexivity.
  - destruct l; cbn in *; subst; reflexivity.
Qed.

(** X6.  The loop over the submappings need not end.  When a specific
    submapping is asked for (by a switch-layout command key) that is not
    the last one, is for another code page than the loaded one and has no
    key table, every round from the second on sets the loop variable back
    to that submapping and ends in [continue]: whatever the fuel, the
    embedding runs out of it. *)
Theorem specific_submapping_can_loop_forever (rb : list Z)
    (size start subs spec cp cp' : Z) :
  1 <= spec -> spec + 1 < subs -> subs <= 65536 ->
  bufw rb (start + 0x14 + spec * 8) = Ok cp' -> cp' <> cp ->
  bufw rb (start + 0x18 + spec * 8) = Ok 0 ->
  bufw rb (start + 0x16 + spec * 8) = Ok 0 ->
  forall fuel sub l, 1 <= sub < subs ->
    submappings_loop E rb fuel size start subs spec cp sub false l = Timeout.
Proof.
  intros Hspec Hlast Hsubs Hcp Hne Hdia Htab.
  induction fuel as [|fuel IH]; intros sub l Hsub; [reflexivity |].
  cbn [submappings_loop].
  replace (sub <? subs) with true by (symmetry; apply Z.ltb_lt; lia).
  replace (sub =? 0) with false by (symmetry; apply Z.eqb_neq; lia).
  replace (spec =? -1) with false by (symmetry; apply Z.eqb_neq; lia).
  cbn [andb negb].
  assert (Hsel : u16 (Z.land spec 65535) = spec).
  { change 65535 with (Z.ones 16). rewrite Z.land_ones by lia.
    unfold u16. change (2 ^ 16) with 65536.
    rewrite Z.mod_mod by lia. apply Z.mod_small. lia. }
  rewrite Hsel, Hcp. cbn [bind]. rewrite andb_false_r.
  replace (cp' =? cp) with false by (symmetry; apply Z.eqb_neq; exact Hne).
  rewrite Hdia. cbn [bind]. change (nonzero 0) with false. cbv iota. cbn [bind].
  rewrite Htab. cbn [bind]. change (0 =? 0) with true. cbv iota.
  apply IH. unfold u16. rewrite Z.mod_small by lia. lia.
Qed.

(** *** [extract_codepage] and [read_keyboard_file] agree *)

Lemma first_codepage_found n rb start : forall sub cp,
  first_codepage n rb start sub = Ok cp -> cp <> 437 ->
  exists k, (k < n)%nat /\ cp <> 0
    /\ bufw rb (start + 0x14 + (sub + Z.of_nat k) * 8) = Ok cp
    /\ forall j, (j < k)%nat -> bufw rb (start + 0x14 + (sub + Z.of_nat j) * 8) = Ok 0.
Proof.
  induction n as [|n IH]; intros sub cp H Hcp; cbn [first_codepage] in H.
  - apply Ok_inj in H. congruence.
  - unbind H. destruct (nonzero a) eqn:Hnz.
    + apply Ok_inj in H. subst a. exists 0%nat.
      split; [lia |]. split.
      * unfold nonzero in Hnz. apply negb_true_iff, Z.eqb_neq in Hnz. exact Hnz.
      * split; [| intros j Hj; lia].
        replace (sub + Z.of_nat 0) with sub by lia. exact Ha.
    + unfold nonzero in Hnz. apply negb_false_iff, Z.eqb_eq in Hnz. subst a.
      destruct (IH _ _ H Hcp) as [k [Hk [Hz [Hhit Hbefore]]]].
      exists (S k). split; [lia |]. split; [exact Hz |]. split.
      * replace (sub + Z.of_nat (S k)) with (sub + 1 + Z.of_nat k) by lia. exact Hhit.
      * intros [|j] Hj.
        -- replace (sub + Z.of_nat 0) with sub by lia. exact Ha.
        -- replace (sub + Z.of_nat (S j)) with (sub + 1 + Z.of_nat j) by lia.
           apply Hbefore. lia.
Qed.

(** Once a match is found the loop ends with it. *)
Lemma submappings_loop_found rb fuel size start subs spec cp sub l found' l' :
  submappings_loop E rb fuel size start subs spec cp sub true l = Ok (found', l') ->
  found' = true.
Proof.
  destruct fuel; cbn [submappings_loop]; intros H; [discriminate |].
  rewrite andb_false_r in H. apply Ok_inj in H.
  apply pair_equal_spec in H. destruct H. congruence.
Qed.

Lemma submappings_loop_finds rb size start subs cp k : forall fuel sub l found' l',
  0 <= sub -> sub + Z.of_nat k < subs -> subs <= 65535 -> cp <> 0 ->
  bufw rb (start + 0x14 + (sub + Z.of_nat k) * 8) = Ok cp ->
  (forall j, (j < k)%nat -> bufw rb (start + 0x14 + (sub + Z.of_nat j) * 8) = Ok 0) ->
  submappings_loop E rb fuel size start subs (-1) cp sub false l = Ok (found', l') ->
  found' = true.
Proof.
  induction k as [|k IH]; intros fuel sub l found' l' Hsub Hk Hsubs Hcp Hhit Hbefore H;
    (destruct fuel as [|fuel]; [discriminate H |]); cbn [submappings_loop] in H;
    replace (sub <? subs) with true in H by (symmetry; apply Z.ltb_lt; lia);
    change (-1 =? -1) with true in H; cbn [negb andb] in H;
    rewrite andb_false_r in H; cbv iota in H.
  - replace (sub + Z.of_nat 0) with sub in Hhit by lia.
    rewrite Hhit in H. cbn [bind] in H. rewrite Z.eqb_refl in H.
    cbn [negb andb] in H. rewrite andb_false_r in H. cbn [andb] in H. cbv iota in H.
    run; try reflexivity;
      match goal with
      | Hx : submappings_loop _ _ _ _ _ _ _ _ _ true _ = Ok _ |- _ =>
          exact (submappings_loop_found _ _ _ _ _ _ _ _ _ _ _ Hx)
      end.
  - pose proof (Hbefore 0%nat ltac:(lia)) as H0.
    replace (sub + Z.of_nat 0) with sub in H0 by lia.
    rewrite H0 in H. cbn [bind] in H. change (nonzero 0) with false in H.
    cbn [andb] in H. cbv iota in H.
    replace (0 =? cp) with false in H by (symmetry; apply Z.eqb_neq; lia).
    replace (-1 =? sub) with false in H by (symmetry; apply Z.eqb_neq; lia).
    assert (Hnext : u16 (sub + 1) = sub + 1) by (unfold u16; apply Z.mod_small; lia).
    rewrite Hnext in H.
    assert (Hrec : forall l1,
              submappings_loop E rb fuel size start subs (-1) cp (sub + 1) false l1
              = Ok (found', l') -> found' = true).
    { intros l1 H1. eapply (IH fuel (sub + 1)); try eassumption; try lia.
      - replace (sub + 1 + Z.of_nat k) with (sub + Z.of_nat (S k)) by lia. exact Hhit.
      - intros j Hj. replace (sub + 1 + Z.of_nat j) with (sub + Z.of_nat (S j)) by lia.
        apply Hbefore. lia. }
    run; try reflexivity;
      match goal with
      | Hx : submappings_loop _ _ _ _ _ _ _ _ _ false _ = Ok _ |- _ => exact (Hrec _ Hx)
      end.
Qed.


(** X7.  A code page that [extract_codepage] takes from a layout file is
    one for which [read_keyboard_file] finds a layout in that file: read
    with that code page, the file never gives [KEYB_LAYOUTNOTFOUND] or
    another error code.  (437 is also what [extract_codepage] returns when
    it finds nothing; the two static buffers are taken to hold the same
    bytes beforehand, as they do at start-up.) *)
Theorem extracted_codepage_is_found (fuel : nat) (this : keyboard_layout)
    (name : list Z) (m : machine) (cp : Z) (m1 : machine)
    (code : keyb_code) (this' : keyboard_layout) (m2 : machine) :
  kl_read_buf m = cp_read_buf m ->
  extract_codepage E name m = Ok (cp, m1) ->
  cp <> 437 ->
  read_keyboard_file_cp E fuel this name cp m1 = Ok (code, this', m2) ->
  code = KEYB_NOERROR.
Proof.
  intros Hbufs He Hcp Hr.
  unfold extract_codepage in He.
  destruct (cstr_eqb name (str "none")) eqn:Hnone.
  { apply Ok_inj, pair_equal_spec in He. destruct He. congruence. }
  apply bind_Ok in He. destruct He as [[where_ rb] [Hload He]].
  destruct where_ as [start size | c];
    [| apply Ok_inj, pair_equal_spec in He; destruct He; congruence].
  apply bind_Ok in He. destruct He as [data_len [Hlen He]].
  apply bind_Ok in He. destruct He as [u [_ He]].
  apply bind_Ok in He. destruct He as [subs [Hsubs He]].
  destruct (_ <=? subs) eqn:Hceil;
    [apply Ok_inj, pair_equal_spec in He; destruct He; congruence |].
  apply bind_Ok in He. destruct He as [cp' [Hfirst He]].
  apply Ok_inj, pair_equal_spec in He. destruct He as [-> <-].
  destruct (first_codepage_found _ _ _ _ _ Hfirst Hcp) as [k [Hk [Hz [Hhit Hbefore]]]].
  (* the same bytes are parsed *)
  unfold read_keyboard_file_cp, read_keyboard_file in Hr.
  rewrite Hnone in Hr. cbn [kl_read_buf set_cp_read_buf] in Hr.
  rewrite Hbufs, Hload in Hr. cbn [bind] in Hr.
  apply bind_Ok in Hr. destruct Hr as [[code' l'] [Hparse Hr]].
  apply Ok_inj in Hr. apply pair_equal_spec in Hr. destruct Hr as [Hr _].
  apply pair_equal_spec in Hr. destruct Hr as [-> _].
  unfold parse_keyboard_file, buf in Hparse.
  rewrite Hlen in Hparse. cbn [bind] in Hparse.
  apply bind_Ok in Hparse. destruct Hparse as [u1 [_ Hparse]].
  apply bind_Ok in Hparse. destruct Hparse as [codes [_ Hparse]].
  apply bind_Ok in Hparse. destruct Hparse as [u2 [_ Hparse]].
  rewrite Hsubs in Hparse. cbn [bind] in Hparse.
  apply bind_Ok in Hparse. destruct Hparse as [u3 [_ Hparse]].
  apply bind_Ok in Hparse. destruct Hparse as [planes [_ Hparse]].
  apply bind_Ok in Hparse. destruct Hparse as [u4 [_ Hparse]].
  apply bind_Ok in Hparse. destruct Hparse as [[pos l1] [_ Hparse]].
  apply bind_Ok in Hparse. destruct Hparse as [[found l2] [Hloop Hparse]].
  assert (Hfound : found = true).
  { apply rd_Ok in Hsubs. destruct Hsubs as [Hstart _].
    apply Z.leb_gt in Hceil. unfold ceil_udivide, READ_BUF in *.
    apply (submappings_loop_finds rb size (start + 1 + data_len) subs cp k fuel 0
             l1 found l2);
      [ lia | lia | Z.to_euclidean_division_equations; lia
      | exact Hz | exact Hhit | exact Hbefore | exact Hloop ]. }
  subst found. apply Ok_inj, pair_equal_spec in Hparse. destruct Hparse as [<- _].
  reflexivity.
Qed.

(** *** [extract_codepage] stays inside its buffer *)

Lemma host_readw_in name size a i :
  bytes a -> 0 <= i -> i + 1 < size ->
  exists v, host_readw name size a i = Ok v /\ 0 <= v < 65536.
Proof.
  intros Ha Hi Hs. unfold host_readw.
  rewrite rd_in by lia. cbn [bind]. rewrite rd_in by lia. cbn [bind].
  eexists. split; [reflexivity |].
  apply word_range; apply nth_byte; exact Ha.
Qed.

Lemma first_codepage_in_bounds rb start n : forall sub,
  bytes rb -> 0 <= start -> 0 <= sub ->
  start + 0x14 + (sub + Z.of_nat n) * 8 <= READ_BUF + 6 ->
  exists cp, first_codepage n rb start sub = Ok cp /\ 1 <= cp <= 65535.
Proof.
  induction n as [|n IH]; intros sub Hb Hstart Hsub Hend; cbn [first_codepage].
  - exists 437. split; [reflexivity | lia].
  - destruct (host_readw_in read_buf_ READ_BUF rb (start + 0x14 + sub * 8) Hb)
      as [v [Hv Hrange]]; [lia | lia |].
    rewrite Hv. cbn [bind]. unfold nonzero.
    destruct (Z.eqb_spec v 0) as [-> | Hne]; cbn [negb].
    + apply IH; try assumption; lia.
    + exists v. split; [reflexivity | lia].
Qed.

(** X8.  For a layout that is found as a file of its own,
    [extract_codepage] ends normally whatever the bytes of the file are:
    the test of the submapping count against the size of the buffer keeps
    every read inside [read_buf].  The code page it returns is never 0,
    and of the machine state only the scratch buffer of the function
    changes. *)
Theorem extract_codepage_stays_in_bounds (name file : list Z) (m : machine) :
  len name + 4 <= 512 ->
  open_file E (name ++ str ".kl") = Some file ->
  bytes file -> bytes (cp_read_buf m) ->
  exists cp rb,
    extract_codepage E name m = Ok (cp, set_cp_read_buf rb m) /\ 1 <= cp <= 65535.
Proof.
  intros Hname Hopen Hfile Hbuf. unfold extract_codepage.
  destruct (cstr_eqb name (str "none")).
  { exists 437, (cp_read_buf m). split; [destruct m; reflexivity | lia]. }
  unfold load_read_buf.
  replace (512 <? len name + 4) with false by (symmetry; apply Z.ltb_ge; lia).
  rewrite Hopen.
  assert (Hid : bytes (store (fread file 0 4) (cp_read_buf m)))
    by (apply bytes_store; [apply bytes_fread |]; assumption).
  destruct (fread file 0 4) as [|b0 [|b1 [|b2 [|b3 [|b4 rest]]]]] eqn:Hfread;
    cbn [bind];
    try (eexists 437, _; split; [reflexivity | lia]).
  destruct (_ || _); cbn [bind];
    [eexists 437, _; split; [reflexivity | lia] |].
  set (rb := store (fread file 0 (Z.to_nat READ_BUF)) (store [b0; b1; b2; b3] (cp_read_buf m))).
  assert (Hrb : bytes rb) by (apply bytes_store; [apply bytes_fread |]; assumption).
  rewrite rd_in by (unfold READ_BUF; lia). cbn [bind].
  pose proof (nth_byte rb (Z.to_nat 5) Hrb) as Hlen.
  set (data_len := nth (Z.to_nat 5) rb 0) in *.
  replace (5 + 1 + data_len <? READ_BUF) with true
    by (symmetry; apply Z.ltb_lt; unfold READ_BUF; lia).
  cbn [assert bind].
  rewrite rd_in by (unfold READ_BUF; lia). cbn [bind].
  pose proof (nth_byte rb (Z.to_nat (5 + 1 + data_len)) Hrb) as Hsubs.
  set (subs := nth (Z.to_nat (5 + 1 + data_len)) rb 0) in *.
  destruct (Z.leb_spec (ceil_udivide (READ_BUF - (5 + 1 + data_len) - 20) 8) subs)
    as [Hbig | Hsmall].
  { eexists 437, _. split; [reflexivity | lia]. }
  destruct (first_codepage_in_bounds rb (5 + 1 + data_len) (Z.to_nat subs) 0 Hrb)
    as [cp [Hcp Hrange]]; [lia | lia | |].
  { unfold ceil_udivide, READ_BUF in *. Z.to_euclidean_division_equations. lia. }
  rewrite Hcp. cbn [bind]. exists cp, rb. split; [reflexivity | exact Hrange].
Qed.

(** *** Loading and switching end *)

Lemma host_readd_ends name size a i : host_readd name size a i <> Timeout.
Proof.
  unfold host_readd. repeat (apply bind_ends; [apply rd_ends | intros ? _]).
  discriminate.
Qed.

Lemma at_ends cpi_buf i : at_ cpi_buf i <> Timeout.
Proof. unfold at_. destruct (_ <? _); [apply rd_ends | discriminate]. Qed.

Lemma at_w_ends cpi_buf i : at_w cpi_buf i <> Timeout.
Proof. unfold at_w. destruct (_ <? _); [apply host_readw_ends | discriminate]. Qed.

Lemma at_d_ends cpi_buf i : at_d cpi_buf i <> Timeout.
Proof. unfold at_d. destruct (_ <? _); [apply host_readd_ends | discriminate]. Qed.

Lemma write_font_ends n cpi_buf pt from : forall i m,
  write_font n cpi_buf pt from i m <> Timeout.
Proof.
  induction n as [|n IH]; intros i m; cbn [write_font]; [discriminate |].
  apply bind_ends; [apply at_ends |]. intros v _. apply IH.
Qed.

Lemma load_fonts_ends n cpi_buf : forall start changed m,
  load_fonts E n cpi_buf start changed m <> Timeout.
Proof.
  induction n as [|n IH]; intros start changed m; cbn [load_fonts]; [discriminate |].
  apply bind_ends; [apply at_ends |]. intros h _.
  apply bind_ends.
  - repeat match goal with
    | |- (if ?c then _ else _) <> Timeout => destruct c
    | |- bind _ _ <> Timeout => apply bind_ends; [apply write_font_ends | intros ? _]
    end; discriminate.
  - intros [changed' m'] _. apply IH.
Qed.

Lemma install_codepage_ends cpi_buf hdr codepage_id m :
  install_codepage E cpi_buf hdr codepage_id m <> Timeout.
Proof.
  unfold install_codepage.
  apply bind_ends; [apply at_w_ends |]. intros n _.
  apply bind_ends; [apply load_fonts_ends |]. intros [changed m'] _. discriminate.
Qed.

Lemma search_codepages_ends n cpi_buf : forall start_pos codepage_id m,
  search_codepages E n cpi_buf start_pos codepage_id m <> Timeout.
Proof.
  induction n as [|n IH]; intros start_pos codepage_id m; cbn [search_codepages];
    [discriminate |].
  apply bind_ends; [apply at_w_ends |]. intros device_type _.
  apply bind_ends; [apply at_w_ends |]. intros font_codepage _.
  apply bind_ends; [apply at_d_ends |]. intros hdr _.
  apply bind_ends; [apply at_w_ends |]. intros font_type _.
  destruct (_ && _); [apply install_codepage_ends |].
  apply bind_ends; [apply at_d_ends |]. intros next _. apply IH.
Qed.

Lemma parse_cpi_ends cpi_buf size codepage_id m :
  parse_cpi E cpi_buf size codepage_id m <> Timeout.
Proof.
  unfold parse_cpi.
  apply bind_ends; [apply host_readd_ends |]. intros start_pos _.
  destruct (_ <=? _); [discriminate |].
  apply bind_ends; [apply at_w_ends |]. intros n _. apply search_codepages_ends.
Qed.

Lemma read_codepage_file_ends name codepage_id m :
  read_codepage_file E name codepage_id m <> Timeout.
Proof.
  unfold read_codepage_file.
  repeat match goal with
  | |- (if ?c then _ else _) <> Timeout => destruct c
  end; try discriminate.
  all: apply bind_ends.
  all: try (intros [cpi_buf size | cpi_buf size found | ] _; try discriminate;
            try apply parse_cpi_ends;
            destruct (_ <? _); [discriminate |];
            apply bind_ends; [apply wr_ends |]; intros cpi_buf' _;
            destruct (upx_unpack E _); [apply parse_cpi_ends | discriminate]).
  all: destruct (open_codepage_file E _); [discriminate |];
    repeat match goal with
    | |- (if ?c then _ else _) <> Timeout => destruct c
    end; discriminate.
Qed.

Lemma first_codepage_ends n rb start : forall sub, first_codepage n rb start sub <> Timeout.
Proof.
  induction n as [|n IH]; intros sub; cbn [first_codepage]; [discriminate |].
  apply bind_ends; [apply host_readw_ends |]. intros cp _.
  destruct (nonzero cp); [discriminate | apply IH].
Qed.

Lemma extract_codepage_ends name m :
  sound_env E -> extract_codepage E name m <> Timeout.
Proof.
  intros Hsound. unfold extract_codepage.
  destruct (cstr_eqb _ _); [discriminate |].
  apply bind_ends; [apply load_read_buf_ends; exact Hsound |].
  intros [[start size | code] rb] _; [| discriminate].
  apply bind_ends; [apply rd_ends |]. intros data_len _.
  apply bind_ends; [apply assert_ends |]. intros u _.
  apply bind_ends; [apply rd_ends |]. intros subs _.
  destruct (_ <=? _); [discriminate |].
  apply bind_ends; [apply first_codepage_ends |]. intros cp _. discriminate.
Qed.

(** X9.  Loading a layout and switching to a layout end: with files and
    built-in libraries that are byte strings, the loops of
    [DOS_LoadKeyboardLayout] and of [DOS_SwitchKeyboardLayout] are
    bounded, and with fuel for 257 rounds of the loop over the submappings
    the embedding never runs out of fuel. *)
Theorem loading_and_switching_end (fuel : nat) (s : session) (name : list Z)
    (cp : Z) (cpfile : list Z) :
  sound_env E -> bytes (kl_read_buf (mach s)) -> (256 < fuel)%nat ->
  DOS_LoadKeyboardLayout E fuel s name cp cpfile <> Timeout
  /\ DOS_SwitchKeyboardLayout E fuel s name <> Timeout.
Proof.
  intros Hsound Hb Hfuel. split.
  - unfold DOS_LoadKeyboardLayout.
    apply bind_ends; [apply read_keyboard_file_ends; assumption |].
    intros [[code l] m] _. destruct (is_error code); [discriminate |].
    apply bind_ends; [apply read_codepage_file_ends |].
    intros [code' m'] _. destruct (is_error code'); discriminate.
  - unfold DOS_SwitchKeyboardLayout.
    destruct (loaded_layout s) as [l |]; [| discriminate].
    apply bind_ends; [| intros [r m] _; discriminate].
    unfold switch_keyboard_layout.
    destruct (negb _); [| discriminate].
    destruct (existsb _ _); [discriminate |].
    apply bind_ends; [apply extract_codepage_ends; exact Hsound |].
    intros [req m1] Hextract.
    apply extract_codepage_machine in Hextract. destruct Hextract as [_ [_ Hkl]].
    apply bind_ends;
      [apply read_keyboard_file_ends; [exact Hsound | rewrite Hkl; exact Hb | exact Hfuel] |].
    intros [[code tl] m2] _. destruct (is_error code); [discriminate |].
    apply bind_ends; [apply read_codepage_file_ends |].
    intros [code' m3] _. destruct (is_error code'); discriminate.
Qed.

Lemma enqueued_none m m' :
  trace m' = trace m -> loaded_codepage m' = loaded_codepage m -> enqueued m [] m'.
Proof. intros Ht Hc. split; [rewrite Ht, app_nil_r; reflexivity | exact Hc]. Qed.

Lemma enqueued_emit m ks m' k :
  enqueued m ks m' -> enqueued m (ks ++ [k]) (emit (BIOS_AddKeyToBuffer k) m').
Proof.
  intros [Ht Hc]. split; cbn [trace emit loaded_codepage]; [| exact Hc].
  rewrite Ht, map_app, app_assoc. reflexivity.
Qed.

Lemma read_keyboard_file_specific_machine fuel this spec m this' m' :
  read_keyboard_file_specific E fuel this spec m = Ok (this', m') ->
  trace m' = trace m /\ loaded_codepage m' = loaded_codepage m.
Proof.
  unfold read_keyboard_file_specific. intros H. run; [| split; reflexivity].
  match goal with
  | Hr : read_keyboard_file _ _ _ _ _ _ _ = Ok _ |- _ =>
      apply read_keyboard_file_machine in Hr; destruct Hr as [Hc [Ht _]]
  end.
  split; assumption.
Qed.

Lemma map_key_enqueues fuel this key e is_command is_keypair m r this' m' :
  map_key E fuel this key e is_command is_keypair m = Ok (r, this', m') ->
  exists ks, enqueued m ks m' /\ (List.length ks <= 2)%nat.
Proof.
  unfold map_key. intros H. run;
    try match goal with
    | Hr : read_keyboard_file_specific _ _ _ _ _ = Ok _ |- _ =>
        apply read_keyboard_file_specific_machine in Hr; destruct Hr as [Ht Hc];
        exists []; split; [apply enqueued_none; assumption | cbn; lia]
    end;
    try (exists []; split; [apply enqueued_none; reflexivity | cbn; lia]).
  all: try (eexists [_]; split;
            [apply (enqueued_emit _ [] _ _), enqueued_none; reflexivity | cbn; lia]).
  all: eexists [_; _]; split;
    [apply (enqueued_emit _ [_] _ _), (enqueued_emit _ [] _ _), enqueued_none; reflexivity
    | cbn; lia].
Qed.

Lemma shift_normal_enqueues fuel this key flags1 flags3 pair m r this' m' :
  shift_normal E fuel this key flags1 flags3 pair m = Ok (r, this', m') ->
  exists ks, enqueued m ks m' /\ (List.length ks <= 2)%nat.
Proof.
  unfold shift_normal. intros H. run;
    try (exists []; split; [apply enqueued_none; reflexivity | cbn; lia]);
    eapply map_key_enqueues; eassumption.
Qed.

Lemma check_planes_enqueues n : forall fuel this key flags cplane pair m r this' m',
  check_planes E n fuel this key flags cplane pair m = Ok (r, this', m') ->
  exists ks, enqueued m ks m' /\ (List.length ks <= 2)%nat.
Proof.
  induction n as [|n IH]; intros fuel this key flags cplane pair m r this' m' H;
    cbn [check_planes] in H; run;
    try (exists []; split; [apply enqueued_none; reflexivity | cbn; lia]).
  - eapply map_key_enqueues; eassumption.
  - match goal with
    | Hm : map_key _ _ _ _ _ _ _ _ = Ok _ |- _ =>
        apply map_key_false in Hm; destruct Hm; subst
    end.
    eapply IH; eassumption.
  - eapply IH; eassumption.
Qed.

(** X10.  One call of [layout_key] hands at most two key codes to the key
    buffer, and at most one when it returns false.  It makes no other
    external call (no font is written) and leaves the loaded code page as
    it is. *)
Theorem layout_key_enqueues_at_most_two (fuel : nat) (this : keyboard_layout)
    (key flags1 flags2 flags3 : Z) (m : machine)
    (r : bool) (this' : keyboard_layout) (m' : machine) :
  layout_key E fuel this key flags1 flags2 flags3 m = Ok (r, this', m') ->
  exists ks,
    trace m' = trace m ++ map BIOS_AddKeyToBuffer ks
    /\ loaded_codepage m' = loaded_codepage m
    /\ (List.length ks <= 2)%nat
    /\ (r = false -> (List.length ks <= 1)%nat).
Proof.
  assert (Hnone : forall m0, exists ks,
            trace m0 = trace m0 ++ map BIOS_AddKeyToBuffer ks
            /\ loaded_codepage m0 = loaded_codepage m0
            /\ (List.length ks <= 2)%nat /\ (false = false -> (List.length ks <= 1)%nat)).
  { intros m0. exists []. rewrite app_nil_r. cbn. repeat split; lia. }
  unfold layout_key. intros H. run; try apply Hnone.
  - (* the shift or the normal plane took the key *)
    match goal with
    | Hs : shift_normal _ _ _ _ _ _ _ _ = Ok _ |- _ =>
        apply shift_normal_enqueues in Hs; destruct Hs as [ks [[Ht Hc] Hlen]]
    end.
    exists ks. repeat split; try assumption. discriminate.
  - (* an additional plane took the key *)
    match goal with
    | Hs : shift_normal _ _ _ _ _ _ _ _ = Ok _ |- _ =>
        apply shift_normal_false in Hs; destruct Hs; subst
    end.
    match goal with
    | Hs : check_planes _ _ _ _ _ _ _ _ _ = Ok _ |- _ =>
        apply check_planes_enqueues in Hs; destruct Hs as [ks [[Ht Hc] Hlen]]
    end.
    exists ks. repeat split; try assumption. discriminate.
  - (* no plane took the key *)
    match goal with
    | Hs : shift_normal _ _ _ _ _ _ _ _ = Ok _ |- _ =>
        apply shift_normal_false in Hs; destruct Hs; subst
    end.
    match goal with
    | Hs : check_planes _ _ _ _ _ _ _ _ _ = Ok _ |- _ =>
        apply check_planes_false in Hs; destruct Hs; subst
    end.
    unfold pending_diacritic in H. run.
    + exists []. rewrite app_nil_r. cbn. repeat split; lia.
    + exists []. rewrite app_nil_r. cbn. repeat split; lia.
    + eexists [_]. cbn [trace emit loaded_codepage map List.length].
      repeat split; lia.
    + exists []. rewrite app_nil_r. cbn. repeat split; lia.
Qed.

Lemma calls_only_refl m : calls_only m m.
Proof. repeat split. exists []. rewrite app_nil_r. reflexivity. Qed.

Lemma calls_only_trans m1 m2 m3 :
  calls_only m1 m2 -> calls_only m2 m3 -> calls_only m1 m3.
Proof.
  intros [Hk1 [Hc1 [e1 Ht1]]] [Hk2 [Hc2 [e2 Ht2]]].
  repeat split; try congruence.
  exists (e1 ++ e2). rewrite Ht2, Ht1, app_assoc. reflexivity.
Qed.

Lemma calls_only_emit m e : calls_only m (emit e m).
Proof. repeat split. exists [e]. reflexivity. Qed.

Lemma at_Ok cpi_buf i v : at_ cpi_buf i = Ok v -> v = byte_at cpi_buf i.
Proof.
  unfold at_, byte_at. destruct (_ <? _); [| discriminate].
  intros H. apply rd_Ok in H. destruct H as [_ ->]. reflexivity.
Qed.

(** X11.  The copy of a font: [write_font] makes one [phys_writeb] call for
    each of the [n] bytes, in ascending order, each byte of the file going
    to the address with the same offset from the font's start. *)
Theorem write_font_copies_in_order (n : nat) (cpi_buf : list Z) (pt from : Z) :
  forall (i : Z) (m m' : machine),
  write_font n cpi_buf pt from i m = Ok m' ->
  trace m'
  = trace m
    ++ map (fun j => phys_writeb (pt + (i + Z.of_nat j))
                       (byte_at cpi_buf (u32 (from + (i + Z.of_nat j)))))
           (seq 0 n)
  /\ loaded_codepage m' = loaded_codepage m.
Proof.
  induction n as [|n IH]; intros i m m' H; cbn [write_font] in H.
  - apply Ok_inj in H. subst m'. cbn [seq map]. rewrite app_nil_r. split; reflexivity.
  - unbind H. apply at_Ok in Ha. subst a.
    apply IH in H. destruct H as [Ht Hc]. split; [| exact Hc].
    rewrite Ht. cbn [trace emit seq map]. rewrite <- app_assoc. cbn [app].
    rewrite <- seq_shift, map_map.
    replace (i + Z.of_nat 0) with i by lia.
    do 2 f_equal. apply map_ext. intros j.
    replace (i + 1 + Z.of_nat j) with (i + Z.of_nat (S j)) by lia. reflexivity.
Qed.

Lemma write_font_calls n cpi_buf pt from : forall i m m',
  write_font n cpi_buf pt from i m = Ok m' ->
  calls_only m m' /\ loaded_codepage m' = loaded_codepage m.
Proof.
  induction n as [|n IH]; intros i m m' H; cbn [write_font] in H.
  - apply Ok_inj in H. subst m'. split; [apply calls_only_refl | reflexivity].
  - unbind H. apply IH in H. destruct H as [Hcalls Hc]. split; [| exact Hc].
    eapply calls_only_trans; [apply calls_only_emit | exact Hcalls].
Qed.

Lemma load_fonts_calls n cpi_buf : forall start changed m changed' m',
  load_fonts E n cpi_buf start changed m = Ok (changed', m') ->
  calls_only m m' /\ loaded_codepage m' = loaded_codepage m.
Proof.
  induction n as [|n IH]; intros start changed m changed' m' H; cbn [load_fonts] in H.
  - apply Ok_inj, pair_equal_spec in H. destruct H as [_ <-].
    split; [apply calls_only_refl | reflexivity].
  - unbind H. unbind H. destruct a0 as [changed1 m1].
    apply IH in H. destruct H as [Hcalls Hc].
    assert (Hblock : calls_only m m1 /\ loaded_codepage m1 = loaded_codepage m).
    { clear Hcalls Hc. run;
        repeat match goal with
        | Hw : write_font _ _ _ _ _ _ = Ok _ |- _ =>
            apply write_font_calls in Hw; destruct Hw
        end;
        cbn [loaded_codepage emit]; split; try congruence;
        try apply calls_only_refl.
      - eapply calls_only_trans; [eassumption | apply calls_only_emit].
      - eapply calls_only_trans; [eassumption | apply calls_only_emit].
      - eapply calls_only_trans; eassumption. }
    destruct Hblock as [Hcalls1 Hc1]. split; [| congruence].
    eapply calls_only_trans; eassumption.
Qed.


Lemma install_codepage_installed cpi_buf hdr codepage_id m code m' :
  install_codepage E cpi_buf hdr codepage_id m = Ok (code, m') ->
  installed codepage_id m m'.
Proof.
  unfold install_codepage. intros H. run.
  match goal with
  | Hl : load_fonts _ _ _ _ _ _ = Ok _ |- _ =>
      apply load_fonts_calls in Hl; destruct Hl as [[Hk [Hc [evs Ht]]] _]
  end.
  unfold installed.
  destruct (_ && _);
    cbn [loaded_codepage kl_read_buf cp_read_buf trace emit set_loaded_codepage];
    repeat split; try assumption.
  - exists (evs ++ [INT10_ReloadFont]). rewrite Ht, <- !app_assoc. reflexivity.
  - exists evs. rewrite Ht, <- app_assoc. reflexivity.
Qed.

Lemma search_codepages_installed n cpi_buf : forall start_pos codepage_id m m',
  search_codepages E n cpi_buf start_pos codepage_id m = Ok (KEYB_NOERROR, m') ->
  installed codepage_id m m'.
Proof.
  induction n as [|n IH]; intros start_pos codepage_id m m' H;
    cbn [search_codepages] in H; run.
  - discriminate.
  - eapply install_codepage_installed; eassumption.
  - eapply IH; eassumption.
Qed.

Lemma parse_cpi_installed cpi_buf size codepage_id m m' :
  parse_cpi E cpi_buf size codepage_id m = Ok (KEYB_NOERROR, m') ->
  installed codepage_id m m'.
Proof.
  unfold parse_cpi. intros H. run; [discriminate |].
  eapply search_codepages_installed; eassumption.
Qed.

(** A successful call has either returned at once or installed the code
    page. *)
Lemma read_codepage_file_result name id m m' :
  read_codepage_file E name id m = Ok (KEYB_NOERROR, m') ->
  (m' = m /\ (cstr_eqb (safe_strcpy 512 name) (str "none") = true
              \/ id = loaded_codepage m))
  \/ installed id m m'.
Proof.
  unfold read_codepage_file. intros H.
  destruct (cstr_eqb (safe_strcpy 512 name) (str "none")).
  { apply Ok_inj, pair_equal_spec in H. destruct H as [_ <-]. left. auto. }
  destruct (Z.eqb_spec id (loaded_codepage m)).
  { apply Ok_inj, pair_equal_spec in H. destruct H as [_ <-]. left. auto. }
  right. run; try discriminate; eapply parse_cpi_installed; eassumption.
Qed.

Lemma installed_codepage id m m' :
  installed id m m' -> 0 <= id < 65536 -> loaded_codepage m' = id.
Proof.
  intros [Hc _] Hrange. rewrite Hc.
  change 65535 with (Z.ones 16). rewrite Z.land_ones by lia.
  unfold u16. change (2 ^ 16) with 65536.
  rewrite Z.mod_mod by lia. apply Z.mod_small. exact Hrange.
Qed.

(** X12.  A call of [read_codepage_file] that returns [KEYB_NOERROR] for a
    code page other than the loaded one, and for a file name other than
    "none", has loaded that code page: [dos.loaded_codepage] is the id
    asked for, the last external call is
    [INT10_SetupRomMemoryChecksum], and the scratch buffers of the layout
    reader are untouched. *)
Theorem read_codepage_file_loads (name : list Z) (id : Z) (m m' : machine) :
  read_codepage_file E name id m = Ok (KEYB_NOERROR, m') ->
  cstr_eqb (safe_strcpy 512 name) (str "none") = false ->
  id <> loaded_codepage m ->
  0 <= id < 65536 ->
  loaded_codepage m' = id
  /\ kl_read_buf m' = kl_read_buf m /\ cp_read_buf m' = cp_read_buf m
  /\ exists evs, trace m' = trace m ++ evs ++ [INT10_SetupRomMemoryChecksum].
Proof.
  intros H Hname Hid Hrange.
  destruct (read_codepage_file_result _ _ _ _ H) as [[_ [Hn | Hl]] | Hinst];
    [congruence | contradiction |].
  split; [apply (installed_codepage _ _ _ Hinst Hrange) |].
  destruct Hinst as [_ Hrest]. exact Hrest.
Qed.

(** X13.  When [DOS_SwitchKeyboardLayout] has loaded a new layout (it
    returns [KEYB_NOERROR] and has assigned [tried_cp]), the loaded code
    page is the code page it tried, and the layout that
    [DOS_GetLoadedLayout] reports is the new one. *)
Theorem successful_switch_installs (fuel : nat) (s : session) (name : list Z)
    (cp : Z) (s' : session) :
  DOS_SwitchKeyboardLayout E fuel s name = Ok (KEYB_NOERROR, Some cp, s') ->
  0 <= cp < 65536 ->
  loaded_codepage (mach s') = cp
  /\ DOS_GetLoadedLayout s'
     = if cstr_eqb name (str "none") then None else Some (safe_strcpy 256 name).
Proof.
  unfold DOS_SwitchKeyboardLayout, switch_keyboard_layout, read_keyboard_file_cp.
  intros H Hrange. destruct (loaded_layout s) as [l |]; run;
    cbn [ret_code this_layout created_layout tried_cp] in *;
    try discriminate;
    repeat match goal with
    | Ht : Some _ = Some _ |- _ => injection Ht as Ht; subst
    | Hc : ?c = KEYB_NOERROR |- _ => subst c
    | Hc : KEYB_NOERROR = ?c |- _ => subst c
    end;
    try match goal with
    | Hc : is_error KEYB_NOERROR = true |- _ => discriminate Hc
    end.
  cbn [mach loaded_layout]. unfold DOS_GetLoadedLayout. cbn [loaded_layout].
  repeat match goal with
  | Hc : is_error ?c = false |- _ => apply no_error in Hc; subst c
  end.
  split.
  - match goal with
    | Hc : read_codepage_file _ _ _ _ = Ok _ |- _ =>
        destruct (read_codepage_file_result _ _ _ _ Hc) as [[-> [Hn | Hl]] | Hinst]
    end.
    + discriminate Hn.
    + symmetry. exact Hl.
    + apply (installed_codepage _ _ _ Hinst Hrange).
  - match goal with
    | Hr : read_keyboard_file _ _ _ _ _ _ _ = Ok _ |- _ =>
        exact (read_keyboard_file_name _ _ _ _ _ _ Hr)
    end.
Qed.


(** *** Ctrl and Alt *)

Lemma lock_inv_lor l rf :
  lock_inv l -> Z.land (Z.lor (used_lock_modifiers l) (Z.land rf 0x70)) 0x0f = 0x0f.
Proof.
  unfold lock_inv. intros H.
  rewrite Z.land_lor_distr_l, H, <- Z.land_assoc.
  change (Z.land 112 15) with 0. rewrite Z.land_0_r. reflexivity.
Qed.

Lemma read_planes_lock rb n : forall i pos l pos' l',
  read_planes rb n i pos l = Ok (pos', l') -> lock_inv l -> lock_inv l'.
Proof.
  induction n as [|n IH]; intros i pos l pos' l' H Hinv; cbn [read_planes] in H; run.
  - exact Hinv.
  - apply IH in H; [exact H |]. unfold lock_inv.
    cbn [used_lock_modifiers set_used_lock_modifiers set_current_layout_planes].
    apply lock_inv_lor. exact Hinv.
Qed.

Lemma parse_keyboard_file_lock rb fuel size start spec cp l code l' :
  parse_keyboard_file E rb fuel size start spec cp l = Ok (code, l') ->
  lock_inv l -> lock_inv l'.
Proof.
  unfold parse_keyboard_file. intros H Hinv. run; [| reflexivity].
  match goal with
  | Hp : read_planes _ _ _ _ _ = Ok _, Hs : submappings_loop _ _ _ _ _ _ _ _ _ _ _ = Ok _
    |- _ =>
      apply read_planes_lock in Hp; [| exact Hinv];
      apply submappings_loop_settings in Hs; destruct Hs as [_ [_ [Hs _]]]
  end.
  unfold lock_inv in *. cbn [used_lock_modifiers set_use_foreign_layout]. congruence.
Qed.

Lemma read_keyboard_file_lock fuel this name spec cp m code this' m' :
  read_keyboard_file E fuel this name spec cp m = Ok (code, this', m') -> lock_inv this'.
Proof.
  unfold read_keyboard_file. intros H.
  destruct (spec =? -1); run; try reflexivity.
  all: match goal with
       | Hp : parse_keyboard_file _ _ _ _ _ _ _ _ = Ok _ |- _ =>
           apply parse_keyboard_file_lock in Hp; [exact Hp | reflexivity]
       end.
Qed.

Lemma map_key_lock fuel this key e is_command is_keypair m r this' m' :
  map_key E fuel this key e is_command is_keypair m = Ok (r, this', m') ->
  lock_inv this -> lock_inv this'.
Proof.
  unfold map_key. intros H Hinv. run; try exact Hinv.
  - match goal with |- lock_inv (if ?c then _ else _) => destruct c end; exact Hinv.
  - match goal with
    | Hr : read_keyboard_file_specific _ _ _ _ _ = Ok _ |- _ =>
        unfold read_keyboard_file_specific in Hr; run; [| exact Hinv]
    end.
    match goal with
    | Hr : read_keyboard_file _ _ _ _ _ _ _ = Ok _ |- _ =>
        apply read_keyboard_file_lock in Hr; exact Hr
    end.
Qed.

Lemma check_planes_lock n : forall fuel this key flags cplane pair m r this' m',
  check_planes E n fuel this key flags cplane pair m = Ok (r, this', m') ->
  lock_inv this -> lock_inv this'.
Proof.
  induction n as [|n IH]; intros fuel this key flags cplane pair m r this' m' H Hinv;
    cbn [check_planes] in H; run; try exact Hinv.
  - eapply map_key_lock; eassumption.
  - eapply IH; [eassumption |]. eapply map_key_lock; eassumption.
  - eapply IH; eassumption.
Qed.

Lemma layout_key_lock fuel this key flags1 flags2 flags3 m r this' m' :
  layout_key E fuel this key flags1 flags2 flags3 m = Ok (r, this', m') ->
  lock_inv this -> lock_inv this'.
Proof.
  unfold layout_key. intros H Hinv. run; try exact Hinv.
  all: match goal with
       | Hx : shift_normal _ _ _ _ _ _ _ _ = Ok (_, ?l, _) |- _ =>
           assert (lock_inv l)
             by (unfold shift_normal in Hx; run; try exact Hinv;
                 eapply map_key_lock; eassumption)
       end.
  all: try assumption.
  all: match goal with
       | Hx : check_planes _ _ _ _ _ _ _ _ _ = Ok (_, ?l, _) |- _ =>
           assert (lock_inv l) by (eapply check_planes_lock; eassumption)
       end.
  all: try assumption.
  unfold pending_diacritic in H. run; assumption.
Qed.

Lemma reachable_lock l : reachable E l -> lock_inv l.
Proof.
  induction 1 as [|l l' Hl IH Hstep].
  - reflexivity.
  - destruct Hstep.
    + eapply read_keyboard_file_lock; eassumption.
    + eapply map_key_lock; eassumption.
    + eapply layout_key_lock; eassumption.
    + match goal with
      | Hs : switch_keyboard_layout _ _ _ _ _ = Ok _ |- _ =>
          unfold switch_keyboard_layout, read_keyboard_file_cp in Hs; run;
          cbn [this_layout]; try exact IH
      end.
      * destruct (use_foreign_layout this); exact IH.
      * destruct (use_foreign_layout this); exact IH.
    + match goal with
      | Hs : switch_keyboard_layout _ _ _ _ _ = Ok _, Hc : created_layout _ = Some _ |- _ =>
          unfold switch_keyboard_layout, read_keyboard_file_cp in Hs; run;
          cbn [created_layout] in Hc; try discriminate Hc;
          injection Hc as Hc; subst
      end.
      match goal with
      | Hr : read_keyboard_file _ _ _ _ _ _ _ = Ok _ |- _ =>
          apply read_keyboard_file_lock in Hr; exact Hr
      end.
Qed.

(** X14.  While Ctrl or Alt is held (bit 2 or bit 3 of [flags1]), the
    normal and the shift plane of a layout are not applied: for every
    layout object that the operations produce, the first block of
    [layout_key] does nothing, whatever the key and the tables are.  Such
    a key can only be remapped by an additional plane. *)
Theorem ctrl_or_alt_skips_the_base_planes (l : keyboard_layout) (fuel : nat)
    (key flags1 flags3 : Z) (is_special_pair : bool) (m : machine) :
  reachable E l ->
  Z.testbit flags1 2 = true \/ Z.testbit flags1 3 = true ->
  shift_normal E fuel l key flags1 flags3 is_special_pair m = Ok (false, l, m).
Proof.
  intros Hreach Hbit. apply reachable_lock in Hreach. unfold lock_inv in Hreach.
  unfold shift_normal.
  replace (Z.land (Z.land flags1 (used_lock_modifiers l)) 0x7c =? 0) with false;
    [reflexivity |].
  symmetry. apply Z.eqb_neq. intros Hzero.
  assert (Hlock : forall i, Z.testbit 0x0f i = true ->
            Z.testbit (used_lock_modifiers l) i = true).
  { intros i Hi. rewrite <- Hreach, Z.land_spec in Hi.
    apply andb_prop in Hi. tauto. }
  destruct Hbit as [Hb | Hb].
  - assert (Hc : Z.testbit (Z.land (Z.land flags1 (used_lock_modifiers l)) 0x7c) 2 = true)
      by (rewrite !Z.land_spec, Hb, (Hlock 2 eq_refl); reflexivity).
    rewrite Hzero in Hc. discriminate Hc.
  - assert (Hc : Z.testbit (Z.land (Z.land flags1 (used_lock_modifiers l)) 0x7c) 3 = true)
      by (rewrite !Z.land_spec, Hb, (Hlock 3 eq_refl); reflexivity).
    rewrite Hzero in Hc. discriminate Hc.
Qed.


(** *** Key presses keep the layout *)

Lemma read_keyboard_file_specific_name fuel this spec m this' m' :
  read_keyboard_file_specific E fuel this spec m = Ok (this', m') ->
  spec <> -1 -> use_foreign_layout this = true ->
  current_keyboard_file_name this' = current_keyboard_file_name this
  /\ use_foreign_layout this' = true.
Proof.
  unfold read_keyboard_file_specific. intros H Hspec Huse. run; [| split; auto].
  match goal with
  | Hr : read_keyboard_file _ _ _ _ _ _ _ = Ok (?c, _, _) |- _ =>
      apply read_keyboard_file_result in Hr;
      destruct Hr as [_ [_ [_ [Hok [Hname Herr]]]]];
      split; [exact (Hname Hspec) |];
      destruct c;
      [ apply Hok; [reflexivity |];
        match goal with
        | Hn : negb ?b = true |- ?b = false => apply negb_true_iff in Hn; exact Hn
        end
      | rewrite Herr by reflexivity; exact Huse .. ]
  end.
Qed.

Lemma map_key_name fuel this key e is_command is_keypair m r this' m' :
  map_key E fuel this key e is_command is_keypair m = Ok (r, this', m') ->
  use_foreign_layout this = true ->
  current_keyboard_file_name this' = current_keyboard_file_name this
  /\ use_foreign_layout this' = true.
Proof.
  unfold map_key. intros H Huse. run; try (split; [reflexivity | exact Huse]).
  - match goal with |- context [if ?c then _ else _] => destruct c end;
      split; [reflexivity | exact Huse | reflexivity | exact Huse].
  - match goal with
    | Hr : read_keyboard_file_specific _ _ _ _ _ = Ok _ |- _ =>
        apply read_keyboard_file_specific_name in Hr; [exact Hr | | exact Huse]
    end.
    match goal with
    | Hb : _ && _ = true |- _ => apply andb_prop in Hb; destruct Hb as [Hlo _]
    end.
    apply Z.leb_le in Hlo. lia.
Qed.

Lemma check_planes_name n : forall fuel this key flags cplane pair m r this' m',
  check_planes E n fuel this key flags cplane pair m = Ok (r, this', m') ->
  use_foreign_layout this = true ->
  current_keyboard_file_name this' = current_keyboard_file_name this
  /\ use_foreign_layout this' = true.
Proof.
  induction n as [|n IH]; intros fuel this key flags cplane pair m r this' m' H Huse;
    cbn [check_planes] in H; run; try (split; [reflexivity | exact Huse]).
  - eapply map_key_name; eassumption.
  - match goal with
    | Hm : map_key _ _ _ _ _ _ _ _ = Ok _ |- _ =>
        apply map_key_false in Hm; destruct Hm; subst
    end.
    eapply IH; eassumption.
  - eapply IH; eassumption.
Qed.

(** X15.  Key presses never change which layout is loaded: after
    [layout_key], also when the key was a switch-layout command that made
    the object read its file again, [get_layout_name] gives what it gave
    before. *)
Theorem layout_key_keeps_the_layout_name (fuel : nat) (this : keyboard_layout)
    (key flags1 flags2 flags3 : Z) (m : machine)
    (r : bool) (this' : keyboard_layout) (m' : machine) :
  layout_key E fuel this key flags1 flags2 flags3 m = Ok (r, this', m') ->
  get_layout_name this' = get_layout_name this.
Proof.
  intros H.
  assert (Hsame : use_foreign_layout this = true ->
            current_keyboard_file_name this' = current_keyboard_file_name this
            /\ use_foreign_layout this' = true).
  { intros Huse. unfold layout_key in H. run;
      try (split; [reflexivity | exact Huse]).
    - match goal with
      | Hs : shift_normal _ _ _ _ _ _ _ _ = Ok _ |- _ =>
          unfold shift_normal in Hs; run; try (split; [reflexivity | exact Huse]);
          eapply map_key_name; eassumption
      end.
    - match goal with
      | Hs : shift_normal _ _ _ _ _ _ _ _ = Ok _ |- _ =>
          apply shift_normal_false in Hs; destruct Hs; subst
      end.
      eapply check_planes_name; eassumption.
    - match goal with
      | Hs : shift_normal _ _ _ _ _ _ _ _ = Ok _ |- _ =>
          apply shift_normal_false in Hs; destruct Hs; subst
      end.
      match goal with
      | Hs : check_planes _ _ _ _ _ _ _ _ _ = Ok _ |- _ =>
          apply check_planes_false in Hs; destruct Hs; subst
      end.
      unfold pending_diacritic in H. run; split; try reflexivity; exact Huse. }
  unfold get_layout_name.
  destruct (use_foreign_layout this) eqn:Huse.
  - destruct (Hsame eq_refl) as [-> ->]. reflexivity.
  - unfold layout_key in H. rewrite Huse in H. cbn [negb] in H.
    destruct (_ <? _) in H; apply Ok_inj in H;
      repeat match goal with
      | Hx : (_, _) = (_, _) |- _ => apply pair_equal_spec in Hx; destruct Hx
      end; subst; rewrite Huse; reflexivity.
Qed.

(** *** User keys *)

Lemma testbit_u16 x j :
  0 <= j -> Z.testbit (u16 x) j = (j <? 16) && Z.testbit x j.
Proof.
  intros Hj. unfold u16. change 65536 with (2 ^ 16).
  destruct (Z.ltb_spec j 16).
  - rewrite Z.mod_pow2_bits_low by lia. reflexivity.
  - rewrite Z.mod_pow2_bits_high by lia. reflexivity.
Qed.

Lemma testbit_word x j : 0 <= x < 65536 -> 16 <= j -> Z.testbit x j = false.
Proof.
  intros Hx Hj. rewrite <- (Z.mod_small x (2 ^ 16)) by (change (2 ^ 16) with 65536; lia).
  apply Z.mod_pow2_bits_high. lia.
Qed.

Lemma testbit_one_shifted k j :
  0 <= k -> 0 <= j -> Z.testbit (Z.shiftl 1 k) j = (j =? k).
Proof.
  intros Hk Hj. rewrite Z.shiftl_spec by exact Hj.
  destruct (Z.eqb_spec j k) as [-> | Hne].
  - rewrite Z.sub_diag. reflexivity.
  - destruct (j - k) eqn:Hd; try lia; reflexivity.
Qed.

Lemma u16_range x : 0 <= u16 x < 65536.
Proof. unfold u16. apply Z.mod_pos_bound. lia. Qed.

(** X16.  The user-key commands of a layout: command [188 + k] sets bit
    [k] of [user_keys] and command [180 + k] clears it, for [k] from 0 to
    7.  No other bit changes, nothing else of the object changes, no key
    code is enqueued and [map_key] returns true. *)
Theorem user_key_commands (fuel : nat) (this : keyboard_layout)
    (key k e_on e_off : Z) (is_keypair : bool) (m : machine) :
  0 <= k < 8 -> 0 <= user_keys this < 65536 ->
  u8 (Z.land e_on 0xff) = 188 + k ->
  u8 (Z.land e_off 0xff) = 180 + k ->
  (exists on,
     map_key E fuel this key e_on true is_keypair m
     = Ok (true, set_user_keys on this, m)
     /\ 0 <= on < 65536
     /\ forall j, 0 <= j ->
          Z.testbit on j = if j =? k then true else Z.testbit (user_keys this) j)
  /\ (exists off,
        map_key E fuel this key e_off true is_keypair m
        = Ok (true, set_user_keys off this, m)
        /\ 0 <= off < 65536
        /\ forall j, 0 <= j ->
             Z.testbit off j = if j =? k then false else Z.testbit (user_keys this) j).
Proof.
  intros Hk Huser Hon Hoff.
  assert (Hcases : k = 0 \/ k = 1 \/ k = 2 \/ k = 3 \/ k = 4 \/ k = 5 \/ k = 6 \/ k = 7)
    by lia.
  split.
  - exists (u16 (Z.lor (user_keys this) (Z.shiftl 1 k))). split; [| split].
    + unfold map_key. cbv zeta. rewrite Hon.
      repeat (destruct Hcases as [-> | Hcases]; [reflexivity |]). subst k. reflexivity.
    + apply u16_range.
    + intros j Hj.
      rewrite testbit_u16, Z.lor_spec, testbit_one_shifted by lia.
      destruct (Z.eqb_spec j k) as [-> | Hne].
      * replace (k <? 16) with true by (symmetry; apply Z.ltb_lt; lia).
        rewrite orb_true_r. reflexivity.
      * rewrite orb_false_r. destruct (Z.ltb_spec j 16); cbn [andb]; [reflexivity |].
        symmetry. apply testbit_word; assumption.
  - exists (u16 (Z.land (user_keys this) (Z.lnot (Z.shiftl 1 k)))). split; [| split].
    + unfold map_key. cbv zeta. rewrite Hoff.
      repeat (destruct Hcases as [-> | Hcases]; [reflexivity |]). subst k. reflexivity.
    + apply u16_range.
    + intros j Hj.
      rewrite testbit_u16, Z.land_spec, Z.lnot_spec, testbit_one_shifted by lia.
      destruct (Z.eqb_spec j k) as [-> | Hne]; cbn [negb].
      * rewrite andb_false_r, andb_false_r. reflexivity.
      * rewrite andb_true_r. destruct (Z.ltb_spec j 16); cbn [andb]; [reflexivity |].
        symmetry. apply testbit_word; assumption.
Qed.


(** *** The offsets of the layouts found in a library *)

Lemma kcl_file_records_offset file fuel : forall pos layout_id first r,
  small_bytes file -> 7 <= pos ->
  kcl_file_records fuel file pos layout_id first = Ok r ->
  r = 0 \/ (7 <= r /\ r + 5 <= len file).
Proof.
  induction fuel as [|fuel IH]; intros pos layout_id first r [Hb Hsize] Hpos H;
    [discriminate H |].
  cbn [kcl_file_records] in H.
  destruct (fread file pos 5) as [|b0 [|b1 [|data_len [|x [|y [|z rest]]]]]] eqn:Hread;
    try (apply Ok_inj in H; left; congruence).
  assert (Hfull : pos + 5 <= len file).
  { apply (fread_full file pos 5); [lia | lia |]. rewrite Hread. reflexivity. }
  pose proof (bytes_fread file pos 5 Hb) as Hbytes. rewrite Hread in Hbytes.
  unfold bytes in Hbytes.
  apply Forall_cons_iff in Hbytes. destruct Hbytes as [Hb0 Hbytes].
  apply Forall_cons_iff in Hbytes. destruct Hbytes as [Hb1 _].
  pose proof (word_range _ _ Hb0 Hb1) as Hword.
  assert (Hcur : u32 pos = pos) by (unfold u32; apply Z.mod_small; lia).
  rewrite Hcur in H.
  assert (Hnext : u32 (pos + 3 + Z.lor b0 (Z.shiftl b1 8))
                  = pos + 3 + Z.lor b0 (Z.shiftl b1 8))
    by (unfold u32; apply Z.mod_small; lia).
  rewrite Hnext in H.
  unbind H. unbind H. destruct a0.
  - apply Ok_inj in H. subst r. right. lia.
  - apply IH in H; [exact H | split; assumption | lia].
Qed.

Lemma read_kcl_file_offset name layout_id first r :
  sound_env E -> read_kcl_file E name layout_id first = Ok r ->
  r = 0 \/ (7 <= r /\ exists file, open_file E name = Some file /\ r + 5 <= len file).
Proof.
  intros [Hfiles _] H. unfold read_kcl_file in H.
  destruct (open_file E name) as [file |] eqn:Hopen;
    [| apply Ok_inj in H; left; congruence].
  pose proof (Hfiles _ _ Hopen) as Hfile.
  destruct (fread file 0 7) as [|b0 [|b1 [|b2 [|b3 [|b4 [|b5 [|b6 [|b7 rest]]]]]]]]
    eqn:Hread; try (apply Ok_inj in H; left; congruence).
  destruct (_ || _); [apply Ok_inj in H; left; congruence |].
  pose proof (bytes_fread file 0 7 (proj1 Hfile)) as Hbytes. rewrite Hread in Hbytes.
  assert (Hb6 : 0 <= b6 < 256).
  { unfold bytes in Hbytes. repeat (apply Forall_cons_iff in Hbytes;
      destruct Hbytes as [? Hbytes]). assumption. }
  apply kcl_file_records_offset in H; [| exact Hfile | lia].
  destruct H as [-> | [Hlo Hhi]]; [left; reflexivity | right].
  split; [exact Hlo |]. exists file. split; [reflexivity | exact Hhi].
Qed.

Lemma kcl_data_records_offset data fuel : forall dpos layout_id first r,
  small_bytes data -> 7 <= dpos < 2 ^ 32 - 5 ->
  kcl_data_records fuel data dpos layout_id first = Ok r ->
  r = 0 \/ (7 <= r /\ r + 5 <= len data).
Proof.
  induction fuel as [|fuel IH]; intros dpos layout_id first r [Hb Hsize] Hpos H;
    [discriminate H |].
  cbn [kcl_data_records] in H.
  assert (Hfive : u32 (dpos + 5) = dpos + 5) by (unfold u32; apply Z.mod_small; lia).
  rewrite Hfive in H.
  destruct (Z.ltb_spec (len data) (dpos + 5)) as [| Hroom];
    [apply Ok_inj in H; left; congruence |].
  unbind H. pose proof (host_readw_range _ _ _ _ _ Hb Ha) as Hword.
  unbind H. unbind H. destruct a1.
  - apply Ok_inj in H. subst r. right. lia.
  - assert (Hnext : u32 (dpos + 3 + a) = dpos + 3 + a)
      by (unfold u32; apply Z.mod_small; lia).
    rewrite Hnext in H.
    apply IH in H; [exact H | split; assumption | lia].
Qed.

Lemma read_kcl_data_offset data layout_id first r :
  small_bytes data -> read_kcl_data data layout_id first = Ok r ->
  r = 0 \/ (7 <= r /\ r + 5 <= len data).
Proof.
  intros Hdata H. unfold read_kcl_data in H.
  unbind H. destruct (negb _); [apply Ok_inj in H; left; congruence |].
  unbind H. destruct (negb _); [apply Ok_inj in H; left; congruence |].
  unbind H. destruct (negb _); [apply Ok_inj in H; left; congruence |].
  unbind H.
  match goal with
  | Hb6 : rd _ _ _ _ 6 = Ok ?b |- _ =>
      apply rd_Ok in Hb6; destruct Hb6 as [_ Hb6];
      pose proof (nth_byte data (Z.to_nat 6) (proj1 Hdata)) as Hrange;
      rewrite <- Hb6 in Hrange
  end.
  apply kcl_data_records_offset in H; [exact H | exact Hdata | lia].
Qed.

(** X17.  A layout that is found in a keyboard library, a file or a
    built-in one, is reported by the offset of its record: the offset is
    at least 7 and the five bytes of the record header lie inside the
    library.  The offset 0, which the callers take for "not found", is
    never the offset of a record. *)
Theorem library_offsets_in_range (l : list (source * bool)) (name : list Z)
    (src : source) (pos : Z) :
  sound_env E ->
  try_all E l name = Ok (Some (src, pos)) ->
  7 <= pos
  /\ match src with
     | LibraryFile f => exists file, open_file E f = Some file /\ pos + 5 <= len file
     | Builtin i => pos + 5 <= len (BLOB_KEYBOARD_SYS E i)
     end.
Proof.
  intros Hsound. induction l as [|[s first] rest IH]; cbn [try_all]; intros H.
  - discriminate H.
  - unbind H. destruct (Z.eqb_spec a 0) as [-> | Hne]; [exact (IH H) |].
    apply Ok_inj in H. injection H as -> ->.
    destruct src as [f | i].
    + apply (read_kcl_file_offset _ _ _ _ Hsound) in Ha.
      destruct Ha as [-> | [Hlo Hfile]]; [contradiction | split; assumption].
    + apply read_kcl_data_offset in Ha; [| apply Hsound].
      destruct Ha as [-> | [Hlo Hhi]]; [contradiction | split; assumption].
Qed.

(** *** The diacritics table that the parser leaves *)

Lemma table_ok_ext f g n : forall s bound,
  (forall j, 0 <= j <= bound -> f j = g j) -> 0 <= s ->
  table_ok f n s bound -> table_ok g n s bound.
Proof.
  induction n as [|n IH]; intros s bound Hfg Hs H; cbn [table_ok] in *; [exact I |].
  destruct H as [Hc [Hend Hrest]].
  assert (Heq : f (s + 1) = g (s + 1)) by (apply Hfg; lia).
  rewrite <- Heq. repeat split; try assumption.
  apply IH; [exact Hfg | lia | exact Hrest].
Qed.

Lemma buf_Ok rb i v : buf rb i = Ok v -> 0 <= i /\ v = byte_at rb i.
Proof.
  unfold buf, byte_at. intros H. apply rd_Ok in H. destruct H as [[Hi _] ->].
  split; [exact Hi | reflexivity].
Qed.

(** The scan of the table in the buffer: the sub-tables it counts form a
    chain that ends where the scan ends. *)
Lemma diacritics_scan_chain rb fuel : forall base i entries i' entries',
  diacritics_scan rb fuel base i entries = Ok (i', entries') ->
  bytes rb -> 0 <= i -> 0 <= entries <= i ->
  exists n, entries' = entries + Z.of_nat n /\ i <= i'
    /\ table_ok (fun j => byte_at rb (base + j)) n i i'.
Proof.
  induction fuel as [|fuel IH]; intros base i entries i' entries' H Hb Hi He;
    [discriminate H |].
  cbn [diacritics_scan] in H.
  destruct (Z.ltb_spec i 2048) as [Hlt | Hge].
  - unbind H. apply buf_Ok in Ha. destruct Ha as [_ ->].
    destruct (_ =? 0).
    + apply Ok_inj, pair_equal_spec in H. destruct H as [<- <-].
      exists 0%nat. cbn [table_ok]. repeat split; lia.
    + unbind H. apply buf_Ok in Ha. destruct Ha as [_ ->].
      pose proof (nth_byte rb (Z.to_nat (base + i + 1)) Hb) as Hc.
      fold (byte_at rb (base + i + 1)) in Hc.
      set (c := byte_at rb (base + i + 1)) in *.
      assert (Hi' : u16 (i + (c * 2 + 2)) = i + 2 + 2 * c)
        by (unfold u16; rewrite Z.mod_small by lia; lia).
      assert (He' : u16 (entries + 1) = entries + 1)
        by (unfold u16; apply Z.mod_small; lia).
      rewrite Hi', He' in H.
      apply IH in H; [| exact Hb | lia | lia].
      destruct H as [n [Hn [Hle Hchain]]].
      exists (S n). split; [lia |]. split; [lia |].
      cbn [table_ok].
      replace (base + (i + 1)) with (base + i + 1) by lia. fold c.
      repeat split; try lia. exact Hchain.
  - apply Ok_inj, pair_equal_spec in H. destruct H as [<- <-].
    exists 0%nat. cbn [table_ok]. repeat split; lia.
Qed.

(** The copy of the table: bytes [j] to [i] of the table are written,
    the bytes before are kept, and [i] is inside the array. *)
Lemma diacritics_copy_bytes rb fuel : forall base j i d d',
  diacritics_copy rb fuel base j i d = Ok d' ->
  0 <= j ->
  (forall k, j <= k <= i -> byte_at d' k = byte_at rb (base + k))
  /\ (forall k, 0 <= k < j -> byte_at d' k = byte_at d k)
  /\ (j <= i -> i < 2048).
Proof.
  induction fuel as [|fuel IH]; intros base j i d d' H Hj; [discriminate H |].
  cbn [diacritics_copy] in H.
  destruct (Z.leb_spec j i) as [Hle | Hgt].
  - unbind H. apply buf_Ok in Ha. destruct Ha as [_ ->].
    unbind H. apply wr_Ok in Ha. destruct Ha as [Hrange ->].
    assert (Hnext : u16 (j + 1) = j + 1) by (unfold u16; apply Z.mod_small; lia).
    rewrite Hnext in H. apply IH in H; [| lia].
    destruct H as [Hcopied [Hkept Hin]].
    assert (Hat : byte_at d' j = byte_at rb (base + j)).
    { rewrite Hkept by lia. apply byte_at_upd_eq. exact Hj. }
    split; [| split].
    + intros k Hk. destruct (Z.eq_dec k j) as [-> | Hne]; [exact Hat |].
      apply Hcopied. lia.
    + intros k Hk. rewrite Hkept by lia. apply byte_at_upd_ne; lia.
    + intros _. destruct (Z.eq_dec j i) as [<- | Hne]; [lia |]. apply Hin. lia.
  - apply Ok_inj in H. subst d'. split; [| split]; intros; try reflexivity; lia.
Qed.

Lemma read_diacritics_chain rb base l l' :
  read_diacritics rb base l = Ok l' -> bytes rb ->
  exists n bound,
    diacritics_entries l' = Z.of_nat n /\ bound < 2048
    /\ table_ok (byte_at (diacritics l')) n 0 bound.
Proof.
  unfold read_diacritics. intros H Hb.
  unbind H. destruct a as [i entries].
  apply diacritics_scan_chain in Ha; [| exact Hb | lia | lia].
  destruct Ha as [n [Hn [Hi Hchain]]].
  unbind H. apply diacritics_copy_bytes in Ha; [| lia].
  destruct Ha as [Hcopied [_ Hin]].
  apply Ok_inj in H. subst l'.
  cbn [diacritics diacritics_entries set_diacritics set_diacritics_entries].
  exists n, i. split; [lia |]. split; [apply Hin; exact Hi |].
  apply (table_ok_ext (fun j => byte_at rb (base + j))); [| lia | exact Hchain].
  intros j Hj. symmetry. apply Hcopied. exact Hj.
Qed.

(** The walk that [map_key] makes follows the chain. *)
Lemma subtable_start_chain d k : forall n s bound,
  table_ok (byte_at d) n s bound -> bound < 2048 -> 0 <= s -> (k < n)%nat ->
  exists s' c,
    subtable_start k d s = Ok s'
    /\ rd diacritics_ 0 2048 d (s' + 1) = Ok c
    /\ 0 <= s' /\ 0 <= c /\ s' + 2 + 2 * c <= 2048.
Proof.
  induction k as [|k IH]; intros n s bound H Hbound Hs Hk;
    (destruct n as [|n]; [lia |]); cbn [table_ok] in H;
    destruct H as [Hc [Hend Hrest]].
  - exists s, (byte_at d (s + 1)). cbn [subtable_start].
    split; [reflexivity |]. split; [apply rd_in; lia |]. lia.
  - cbn [subtable_start]. rewrite rd_in by lia. cbn [bind].
    fold (byte_at d (s + 1)).
    replace (u16 (s + (byte_at d (s + 1) * 2 + 2))) with (s + 2 + 2 * byte_at d (s + 1))
      by (unfold u16; rewrite Z.mod_small by lia; lia).
    apply (IH n _ bound); [exact Hrest | exact Hbound | lia | lia].
Qed.

Lemma table_ok_diacritics l n bound :
  diacritics_entries l = Z.of_nat n -> bound < 2048 ->
  table_ok (byte_at (diacritics l)) n 0 bound -> diacritics_ok l.
Proof.
  intros Hn Hbound Hchain k Hk.
  apply (subtable_start_chain _ _ n 0 bound); [exact Hchain | exact Hbound | lia | lia].
Qed.

Lemma no_entries_ok l : diacritics_entries l = 0 -> diacritics_ok l.
Proof. intros H k Hk. lia. Qed.


(** The key tables do not touch the diacritics table. *)

Lemma diacritics_ok_same l l' :
  diacritics l' = diacritics l -> diacritics_entries l' = diacritics_entries l ->
  diacritics_ok l -> diacritics_ok l'.
Proof. unfold diacritics_ok. intros -> ->. auto. Qed.

Lemma add_mapping_diacritics rb addmap pos scan l l' :
  add_mapping E rb addmap pos scan l = Ok l' ->
  diacritics l' = diacritics l /\ diacritics_entries l' = diacritics_entries l.
Proof. unfold add_mapping. intros H. run; split; reflexivity. Qed.

Lemma add_mappings_diacritics rb n : forall addmap pos scan l l',
  add_mappings E rb n addmap pos scan l = Ok l' ->
  diacritics l' = diacritics l /\ diacritics_entries l' = diacritics_entries l.
Proof.
  induction n as [|n IH]; intros addmap pos scan l l' H; cbn [add_mappings] in H; run;
    try (split; reflexivity).
  apply IH in H. destruct H as [-> ->]. eapply add_mapping_diacritics; eassumption.
Qed.

Lemma merge_flags_diacritics rb pos scan n l n' l' :
  merge_flags E rb pos scan n l = Ok (n', l') ->
  diacritics l' = diacritics l /\ diacritics_entries l' = diacritics_entries l.
Proof. unfold merge_flags. intros H. run; split; reflexivity. Qed.

Lemma key_record_diacritics rb pos scan n l n' l' :
  key_record E rb pos scan n l = Ok (n', l') ->
  diacritics l' = diacritics l /\ diacritics_entries l' = diacritics_entries l.
Proof.
  unfold key_record. intros H. run; try (split; reflexivity).
  match goal with
  | Hm : merge_flags _ _ _ _ _ _ = Ok _ |- _ =>
      apply merge_flags_diacritics in Hm; destruct Hm as [-> ->]
  end.
  eapply add_mappings_diacritics; eassumption.
Qed.

Lemma process_table_diacritics rb fuel : forall pos i bytes l l',
  process_table E rb fuel pos i bytes l = Ok l' ->
  diacritics l' = diacritics l /\ diacritics_entries l' = diacritics_entries l.
Proof.
  induction fuel as [|fuel IH]; intros pos i bytes l l' H; cbn [process_table] in H; run;
    try (split; reflexivity).
  apply IH in H. destruct H as [-> ->]. eapply key_record_diacritics; eassumption.
Qed.

Lemma read_planes_diacritics rb n : forall i pos l pos' l',
  read_planes rb n i pos l = Ok (pos', l') ->
  diacritics l' = diacritics l /\ diacritics_entries l' = diacritics_entries l.
Proof.
  induction n as [|n IH]; intros i pos l pos' l' H; cbn [read_planes] in H; run.
  - split; reflexivity.
  - apply IH in H. exact H.
Qed.

Lemma read_diacritics_ok rb base l l' :
  read_diacritics rb base l = Ok l' -> bytes rb -> diacritics_ok l'.
Proof.
  intros H Hb. apply read_diacritics_chain in H; [| exact Hb].
  destruct H as [n [bound [Hn [Hbound Hchain]]]].
  exact (table_ok_diacritics _ _ _ Hn Hbound Hchain).
Qed.

Lemma submappings_loop_diacritics rb fuel :
  forall size start subs spec cp sub found l found' l',
  submappings_loop E rb fuel size start subs spec cp sub found l = Ok (found', l') ->
  bytes rb -> diacritics_ok l -> diacritics_ok l'.
Proof.
  induction fuel as [|fuel IH]; intros size start subs spec cp sub found l found' l' H Hb Hok;
    [discriminate H |].
  assert (Hok0 : diacritics_ok (set_diacritics_entries 0 l))
    by (apply no_entries_ok; reflexivity).
  cbn [submappings_loop] in H. run; try exact Hok;
    repeat match goal with
    | Hr : read_diacritics _ _ _ = Ok _ |- _ => apply read_diacritics_ok in Hr; [| exact Hb]
    | Hp : process_table _ _ _ _ _ _ ?l1 = Ok ?l2, Hl : diacritics_ok ?l1 |- _ =>
        apply process_table_diacritics in Hp;
        assert (diacritics_ok l2)
          by (exact (diacritics_ok_same _ _ (proj1 Hp) (proj2 Hp) Hl));
        clear Hp
    | Hs : submappings_loop _ _ _ _ _ _ _ _ _ _ ?l1 = Ok _, Hl : diacritics_ok ?l1 |- _ =>
        exact (IH _ _ _ _ _ _ _ _ _ _ Hs Hb Hl)
    end;
    try assumption.
Qed.

Lemma parse_keyboard_file_diacritics rb fuel size start spec cp l code l' :
  parse_keyboard_file E rb fuel size start spec cp l = Ok (code, l') ->
  bytes rb -> diacritics_ok l -> diacritics_ok l'.
Proof.
  unfold parse_keyboard_file. intros H Hb Hok. run; [| apply no_entries_ok; reflexivity].
  match goal with
  | Hp : read_planes _ _ _ _ _ = Ok _, Hs : submappings_loop _ _ _ _ _ _ _ _ _ _ _ = Ok _
    |- _ =>
      apply read_planes_diacritics in Hp; destruct Hp as [Hd He];
      apply submappings_loop_diacritics in Hs;
      [| exact Hb | exact (diacritics_ok_same _ _ Hd He Hok)]
  end.
  match goal with
  | Hs : diacritics_ok ?l2 |- diacritics_ok (set_use_foreign_layout true ?l2) =>
      exact (diacritics_ok_same l2 _ eq_refl eq_refl Hs)
  end.
Qed.

Lemma read_keyboard_file_diacritics fuel this name spec cp m code this' m' :
  read_keyboard_file E fuel this name spec cp m = Ok (code, this', m') ->
  sound_env E -> bytes (kl_read_buf m) ->
  diacritics_ok this' /\ bytes (kl_read_buf m').
Proof.
  unfold read_keyboard_file. intros H Hsound Hb.
  destruct (spec =? -1); run;
    try match goal with
    | Hl : load_read_buf _ _ _ = Ok _ |- _ =>
        eapply load_read_buf_bytes in Hl; [| exact Hsound | exact Hb]
    end;
    (split; [| cbn [kl_read_buf set_kl_read_buf]; assumption]);
    try (apply no_entries_ok; reflexivity).
  all: match goal with
       | Hp : parse_keyboard_file _ _ _ _ _ _ _ _ = Ok _ |- _ =>
           apply parse_keyboard_file_diacritics in Hp;
           [exact Hp | assumption | apply no_entries_ok; reflexivity]
       end.
Qed.

Lemma map_key_diacritics fuel this key e is_command is_keypair m r this' m' :
  map_key E fuel this key e is_command is_keypair m = Ok (r, this', m') ->
  sound_env E -> bytes (kl_read_buf m) -> diacritics_ok this ->
  diacritics_ok this' /\ bytes (kl_read_buf m').
Proof.
  unfold map_key. intros H Hsound Hb Hok. run;
    try (split; [exact Hok | exact Hb]);
    try (split; [exact (diacritics_ok_same this _ eq_refl eq_refl Hok) | exact Hb]).
  - split; [| exact Hb].
    match goal with |- diacritics_ok (if ?c then _ else _) => destruct c end;
      exact (diacritics_ok_same this _ eq_refl eq_refl Hok).
  - match goal with
    | Hr : read_keyboard_file_specific _ _ _ _ _ = Ok _ |- _ =>
        unfold read_keyboard_file_specific in Hr; run; [| split; assumption]
    end.
    match goal with
    | Hr : read_keyboard_file _ _ _ _ _ _ _ = Ok _ |- _ =>
        exact (read_keyboard_file_diacritics _ _ _ _ _ _ _ _ _ Hr Hsound Hb)
    end.
Qed.

Lemma check_planes_diacritics n : forall fuel this key flags cplane pair m r this' m',
  check_planes E n fuel this key flags cplane pair m = Ok (r, this', m') ->
  sound_env E -> bytes (kl_read_buf m) -> diacritics_ok this ->
  diacritics_ok this' /\ bytes (kl_read_buf m').
Proof.
  induction n as [|n IH];
    intros fuel this key flags cplane pair m r this' m' H Hsound Hb Hok;
    cbn [check_planes] in H; run; try (split; assumption).
  - eapply map_key_diacritics; eassumption.
  - match goal with
    | Hm : map_key _ _ _ _ _ _ _ _ = Ok _ |- _ =>
        apply map_key_false in Hm; destruct Hm; subst
    end.
    eapply IH; eassumption.
  - eapply IH; eassumption.
Qed.

(** X18.  Whatever the bytes of the layout file are, a call of
    [read_keyboard_file] that returns leaves a well-formed diacritics
    table: each of the [diacritics_entries] sub-tables is reached by the
    walk that [map_key] and [layout_key] make from offset 0, and its lead
    byte, its count and all its pairs lie inside [diacritics[0..2048)].
    Key presses keep the table well formed, and the scratch buffer a
    buffer of bytes. *)
Theorem parsed_diacritics_are_well_formed (fuel : nat) (this : keyboard_layout)
    (m : machine) :
  sound_env E -> bytes (kl_read_buf m) ->
  (forall name spec cp code this' m',
     read_keyboard_file E fuel this name spec cp m = Ok (code, this', m') ->
     diacritics_ok this' /\ bytes (kl_read_buf m'))
  /\ (forall key flags1 flags2 flags3 r this' m',
        layout_key E fuel this key flags1 flags2 flags3 m = Ok (r, this', m') ->
        diacritics_ok this ->
        diacritics_ok this' /\ bytes (kl_read_buf m')).
Proof.
  intros Hsound Hb. split.
  - intros name spec cp code this' m' H.
    exact (read_keyboard_file_diacritics _ _ _ _ _ _ _ _ _ H Hsound Hb).
  - intros key flags1 flags2 flags3 r this' m' H Hok.
    unfold layout_key in H. run; try (split; assumption).
    + match goal with
      | Hs : shift_normal _ _ _ _ _ _ _ _ = Ok _ |- _ =>
          unfold shift_normal in Hs; run; try (split; assumption);
          eapply map_key_diacritics; eassumption
      end.
    + match goal with
      | Hs : shift_normal _ _ _ _ _ _ _ _ = Ok _ |- _ =>
          apply shift_normal_false in Hs; destruct Hs; subst
      end.
      eapply check_planes_diacritics; eassumption.
    + match goal with
      | Hs : shift_normal _ _ _ _ _ _ _ _ = Ok _ |- _ =>
          apply shift_normal_false in Hs; destruct Hs; subst
      end.
      match goal with
      | Hs : check_planes _ _ _ _ _ _ _ _ _ = Ok _ |- _ =>
          apply check_planes_false in Hs; destruct Hs; subst
      end.
      unfold pending_diacritic in H. run;
        (split; [| cbn [kl_read_buf emit]; exact Hb]);
        try exact Hok;
        exact (diacritics_ok_same this _ eq_refl eq_refl Hok).
Qed.

(** *** The dead-key lookups stay inside the table *)

Lemma search_pair_total d start c n : forall i,
  0 <= start -> 0 <= i -> start + (i + Z.of_nat n) * 2 <= 2048 ->
  exists hit, search_pair n i d start c = Ok hit.
Proof.
  induction n as [|n IH]; intros i Hs Hi Hend; cbn [search_pair].
  - exists None. reflexivity.
  - rewrite rd_in by lia. cbn [bind].
    destruct (_ =? c).
    + rewrite rd_in by lia. cbn [bind]. eexists. reflexivity.
    + apply IH; lia.
Qed.

(** X19.  With a well-formed diacritics table and a dead-key state in
    its range, the translation of a literal key cannot leave the table:
    [map_key] called for a key that is not a command returns true, with no
    dead key pending afterwards, and the last block of [layout_key] returns
    as well; neither ends in a fault.  (The parser and the key presses
    keep the first condition, and every operation keeps the second.) *)
Theorem literal_keys_stay_inside_the_table (fuel : nat) (this : keyboard_layout)
    (key layouted_key : Z) (is_keypair : bool) (m : machine) :
  diacritics_ok this -> dc_inv this ->
  (exists this' m',
     map_key E fuel this key layouted_key false is_keypair m = Ok (true, this', m')
     /\ diacritics_character this' = 0)
  /\ (exists r this' m', pending_diacritic this key m = Ok (r, this', m')).
Proof.
  intros Hok [Hzero | Hrange].
  - (* no dead key is pending *)
    split.
    + unfold map_key. rewrite Hzero. cbn [bind].
      destruct is_keypair; eexists _, _; (split; [reflexivity | exact Hzero]).
    + unfold pending_diacritic. rewrite Hzero. eexists _, _, _. reflexivity.
  - destruct (Hok (diacritics_character this - 200)) as [s [n [Hs [Hn [Hs0 [Hn0 Hend]]]]]];
      [lia |].
    split.
    + unfold map_key.
      replace (0 <? diacritics_character this) with true
        by (symmetry; apply Z.ltb_lt; lia).
      replace (diacritics_entries this <=? diacritics_character this - 200) with false
        by (symmetry; apply Z.leb_gt; lia).
      rewrite Hs. cbn [bind]. rewrite Hn. cbn [bind].
      assert (Hstart : u16 (s + 2) = s + 2) by (unfold u16; apply Z.mod_small; lia).
      rewrite Hstart.
      destruct (search_pair_total (diacritics this) (s + 2) (Z.land layouted_key 255)
                  (Z.to_nat n) 0) as [hit Hhit]; [lia | lia | lia |].
      rewrite Hhit. cbn [bind].
      destruct hit as [c |].
      * eexists _, _. split; reflexivity.
      * replace (s + 2 - 2) with s by lia. rewrite rd_in by lia. cbn [bind].
        destruct is_keypair; eexists _, _; split; reflexivity.
    + unfold pending_diacritic.
      replace (0 <? diacritics_character this) with true
        by (symmetry; apply Z.ltb_lt; lia).
      destruct (state_key key); [eexists _, _, _; reflexivity |].
      replace (diacritics_entries this + 200 <=? diacritics_character this) with false
        by (symmetry; apply Z.leb_gt; lia).
      rewrite Hs. cbn [bind]. rewrite rd_in by lia. cbn [bind].
      eexists _, _, _. reflexivity.
Qed.

(** *** The plane descriptors are never left *)

Lemma bind_inside {A B : Type} a (m : outcome A) (k : A -> outcome B) :
  stays_inside a m -> (forall x, m = Ok x -> stays_inside a (k x)) ->
  stays_inside a (bind m k).
Proof.
  intros Hm Hk i. destruct m; cbn [bind]; try discriminate.
  - apply Hk. reflexivity.
  - intros H. injection H as -> ->. exact (Hm i eq_refl).
Qed.

Lemma rd_other {A : Type} a name (d : A) size l i :
  name <> a -> stays_inside a (rd name d size l i).
Proof.
  intros Hne j. unfold rd. destruct (_ && _); [discriminate |].
  intros H. injection H as H _. contradiction.
Qed.

Lemma wr_other {A : Type} a name (d : A) size l i v :
  name <> a -> stays_inside a (wr name d size l i v).
Proof.
  intros Hne j. unfold wr. destruct (_ && _); [discriminate |].
  intros H. injection H as H _. contradiction.
Qed.

Lemma assert_inside a c : stays_inside a (assert c).
Proof. intros i. destruct c; discriminate. Qed.

Lemma host_readw_other a name size l i :
  name <> a -> stays_inside a (host_readw name size l i).
Proof.
  intros Hne. unfold host_readw.
  repeat (apply bind_inside; [apply rd_other; exact Hne | intros ? _]).
  intros j. discriminate.
Qed.

(** Goals of the form [stays_inside planes_ _], as far as the shape of the
    term decides them. *)
Ltac inside :=
  repeat first
    [ apply rd_other; discriminate
    | apply wr_other; discriminate
    | apply host_readw_other; discriminate
    | apply assert_inside
    | (unfold stays_inside; intros ? ?; discriminate)
    | match goal with
      | |- stays_inside _ (bind _ _) => apply bind_inside; [| intros ? ?]
      | |- stays_inside _ (let '(_, _) := ?p in _) => destruct p
      | |- stays_inside _ (if ?c then _ else _) => destruct c eqn:?
      | |- stays_inside _ (match ?x with _ => _ end) => destruct x eqn:?
      end ].

Lemma kcl_file_code_inside fuel : forall file pos i data_len code,
  stays_inside planes_ (kcl_file_code fuel file pos i data_len code).
Proof.
  induction fuel as [|fuel IH]; intros; cbn [kcl_file_code]; inside. apply IH.
Qed.

Lemma kcl_file_codes_inside fuel : forall file pos i data_len layout_id first,
  stays_inside planes_ (kcl_file_codes fuel file pos i data_len layout_id first).
Proof.
  induction fuel as [|fuel IH]; intros; cbn [kcl_file_codes]; inside;
    try apply kcl_file_code_inside; apply IH.
Qed.

Lemma kcl_file_records_inside fuel : forall file pos layout_id first,
  stays_inside planes_ (kcl_file_records fuel file pos layout_id first).
Proof.
  induction fuel as [|fuel IH]; intros; cbn [kcl_file_records]; inside;
    try apply kcl_file_codes_inside; apply IH.
Qed.

Lemma read_kcl_file_inside name layout_id first :
  stays_inside planes_ (read_kcl_file E name layout_id first).
Proof. unfold read_kcl_file. inside. apply kcl_file_records_inside. Qed.

Lemma kcl_data_code_inside fuel : forall data dpos i data_len code,
  stays_inside planes_ (kcl_data_code fuel data dpos i data_len code).
Proof.
  induction fuel as [|fuel IH]; intros; cbn [kcl_data_code]; inside. apply IH.
Qed.

Lemma kcl_data_codes_inside fuel : forall data dpos i data_len layout_id first,
  stays_inside planes_ (kcl_data_codes fuel data dpos i data_len layout_id first).
Proof.
  induction fuel as [|fuel IH]; intros; cbn [kcl_data_codes]; inside;
    try apply kcl_data_code_inside; apply IH.
Qed.

Lemma kcl_data_records_inside fuel : forall data dpos layout_id first,
  stays_inside planes_ (kcl_data_records fuel data dpos layout_id first).
Proof.
  induction fuel as [|fuel IH]; intros; cbn [kcl_data_records]; inside;
    try apply kcl_data_codes_inside; apply IH.
Qed.

Lemma read_kcl_data_inside data layout_id first :
  stays_inside planes_ (read_kcl_data data layout_id first).
Proof. unfold read_kcl_data. inside. apply kcl_data_records_inside. Qed.

Lemma try_all_inside l name : stays_inside planes_ (try_all E l name).
Proof.
  induction l as [|[src first] rest IH]; cbn [try_all]; inside;
    try apply read_kcl_file_inside; try apply read_kcl_data_inside; exact IH.
Qed.

Lemma load_read_buf_inside name read_buf :
  stays_inside planes_ (load_read_buf E name read_buf).
Proof. unfold load_read_buf. inside. apply try_all_inside. Qed.


Lemma language_code_inside rb fuel : forall start_pos i data_len code,
  stays_inside planes_ (language_code rb fuel start_pos i data_len code).
Proof.
  induction fuel as [|fuel IH]; intros; cbn [language_code]; unfold buf; inside. apply IH.
Qed.

Lemma read_language_codes_inside rb fuel : forall start_pos i data_len codes,
  stays_inside planes_ (read_language_codes rb fuel start_pos i data_len codes).
Proof.
  induction fuel as [|fuel IH]; intros; cbn [read_language_codes]; inside;
    try apply language_code_inside; apply IH.
Qed.

(** The one place that writes the descriptors: plane [i] is written for
    [i] below the number of planes. *)
Lemma read_planes_inside rb n : forall i pos l,
  0 <= i -> i + Z.of_nat n <= layout_pages - 4 ->
  stays_inside planes_ (read_planes rb n i pos l).
Proof.
  induction n as [|n IH]; intros i pos l Hi Hn; cbn [read_planes]; unfold bufw.
  - inside.
  - repeat (apply bind_inside;
            [first [apply assert_inside | apply host_readw_other; discriminate] |
             intros ? _]).
    apply bind_inside.
    + unfold wr.
      replace ((0 <=? i) && (i <? layout_pages - 4)) with true
        by (symmetry; apply andb_true_intro; split; [apply Z.leb_le | apply Z.ltb_lt]; lia).
      intros j. discriminate.
    + intros planes _. apply IH; lia.
Qed.

Lemma diacritics_scan_inside rb fuel : forall base i entries,
  stays_inside planes_ (diacritics_scan rb fuel base i entries).
Proof.
  induction fuel as [|fuel IH]; intros; cbn [diacritics_scan]; unfold buf; inside. apply IH.
Qed.

Lemma diacritics_copy_inside rb fuel : forall base j i d,
  stays_inside planes_ (diacritics_copy rb fuel base j i d).
Proof.
  induction fuel as [|fuel IH]; intros; cbn [diacritics_copy]; unfold buf; inside. apply IH.
Qed.

Lemma read_diacritics_inside rb base l :
  stays_inside planes_ (read_diacritics rb base l).
Proof.
  unfold read_diacritics. inside;
    [apply diacritics_scan_inside | apply diacritics_copy_inside].
Qed.

Lemma add_mapping_inside rb addmap pos scan l :
  stays_inside planes_ (add_mapping E rb addmap pos scan l).
Proof. unfold add_mapping, buf. inside. Qed.

Lemma add_mappings_inside rb n : forall addmap pos scan l,
  stays_inside planes_ (add_mappings E rb n addmap pos scan l).
Proof.
  induction n as [|n IH]; intros; cbn [add_mappings]; inside;
    try apply add_mapping_inside; apply IH.
Qed.

Lemma merge_flags_inside rb pos scan n l :
  stays_inside planes_ (merge_flags E rb pos scan n l).
Proof. unfold merge_flags, buf. inside. Qed.

Lemma key_record_inside rb pos scan n l :
  stays_inside planes_ (key_record E rb pos scan n l).
Proof.
  unfold key_record. inside; [apply add_mappings_inside | apply merge_flags_inside].
Qed.

Lemma process_table_inside rb fuel : forall pos i bytes l,
  stays_inside planes_ (process_table E rb fuel pos i bytes l).
Proof.
  induction fuel as [|fuel IH]; intros; cbn [process_table]; unfold buf; inside;
    try apply key_record_inside; apply IH.
Qed.

Lemma submappings_loop_inside rb fuel : forall size start subs spec cp sub found l,
  stays_inside planes_ (submappings_loop E rb fuel size start subs spec cp sub found l).
Proof.
  induction fuel as [|fuel IH]; intros; cbn [submappings_loop]; unfold bufw; inside;
    try apply read_diacritics_inside; try apply process_table_inside; apply IH.
Qed.

Lemma parse_keyboard_file_inside rb fuel size start spec cp l :
  stays_inside planes_ (parse_keyboard_file E rb fuel size start spec cp l).
Proof.
  unfold parse_keyboard_file, buf.
  apply bind_inside; [apply rd_other; discriminate |]. intros data_len _.
  apply bind_inside; [apply assert_inside |]. intros _ _.
  apply bind_inside; [apply read_language_codes_inside |]. intros codes _.
  apply bind_inside; [apply assert_inside |]. intros _ _.
  apply bind_inside; [apply rd_other; discriminate |]. intros subs _.
  apply bind_inside; [apply assert_inside |]. intros _ _.
  apply bind_inside; [apply rd_other; discriminate |]. intros planes _.
  apply bind_inside; [apply assert_inside |]. intros _ _.
  apply bind_inside.
  - apply read_planes_inside; [lia |].
    destruct (Z.ltb_spec (layout_pages - 4) planes); unfold layout_pages in *; lia.
  - intros [pos l1] _. apply bind_inside; [apply submappings_loop_inside |].
    intros [found l2] _. inside.
Qed.

Lemma read_keyboard_file_inside fuel this name spec cp m :
  stays_inside planes_ (read_keyboard_file E fuel this name spec cp m).
Proof.
  unfold read_keyboard_file. inside;
    try apply load_read_buf_inside; apply parse_keyboard_file_inside.
Qed.

Lemma subtable_start_inside n : forall d s, stays_inside planes_ (subtable_start n d s).
Proof. induction n as [|n IH]; intros; cbn [subtable_start]; inside. apply IH. Qed.

Lemma search_pair_inside n : forall i d s c, stays_inside planes_ (search_pair n i d s c).
Proof. induction n as [|n IH]; intros; cbn [search_pair]; inside. apply IH. Qed.

Lemma map_key_inside fuel this key e is_command is_keypair m :
  stays_inside planes_ (map_key E fuel this key e is_command is_keypair m).
Proof.
  unfold map_key, read_keyboard_file_specific. inside;
    try apply read_keyboard_file_inside;
    try apply subtable_start_inside; try apply search_pair_inside.
Qed.


Lemma shift_normal_inside fuel this key flags1 flags3 pair m :
  stays_inside planes_ (shift_normal E fuel this key flags1 flags3 pair m).
Proof. unfold shift_normal, table. inside; apply map_key_inside. Qed.

Lemma check_planes_inside n : forall fuel this key flags cplane pair m,
  0 <= cplane -> cplane + Z.of_nat n <= layout_pages - 4 ->
  stays_inside planes_ (check_planes E n fuel this key flags cplane pair m).
Proof.
  induction n as [|n IH]; intros fuel this key flags cplane pair m Hc Hn;
    cbn [check_planes].
  - intros i. discriminate.
  - apply bind_inside.
    + unfold rd.
      replace ((0 <=? cplane) && (cplane <? layout_pages - 4)) with true
        by (symmetry; apply andb_true_intro; split;
            [apply Z.leb_le | apply Z.ltb_lt]; lia).
      intros j. discriminate.
    + intros p _. unfold table. inside; try apply map_key_inside; apply IH; lia.
Qed.

Lemma pending_diacritic_inside this key m :
  stays_inside planes_ (pending_diacritic this key m).
Proof. unfold pending_diacritic. inside. apply subtable_start_inside. Qed.

Lemma map_key_planes fuel this key e is_command is_keypair m r this' m' :
  map_key E fuel this key e is_command is_keypair m = Ok (r, this', m') ->
  additional_planes this <= layout_pages - 4 ->
  additional_planes this' <= layout_pages - 4.
Proof.
  unfold map_key. intros H Hinv. run; try exact Hinv.
  - match goal with |- additional_planes (if ?c then _ else _) <= _ => destruct c end;
      exact Hinv.
  - match goal with
    | Hr : read_keyboard_file_specific _ _ _ _ _ = Ok _ |- _ =>
        unfold read_keyboard_file_specific in Hr; run; [| exact Hinv]
    end.
    match goal with
    | Hr : read_keyboard_file _ _ _ _ _ _ _ = Ok _ |- _ =>
        apply read_keyboard_file_result in Hr; destruct Hr as [Hr _]; exact (Hr Hinv)
    end.
Qed.

Lemma shift_normal_planes fuel this key flags1 flags3 pair m r this' m' :
  shift_normal E fuel this key flags1 flags3 pair m = Ok (r, this', m') ->
  additional_planes this <= layout_pages - 4 ->
  additional_planes this' <= layout_pages - 4.
Proof.
  unfold shift_normal. intros H Hinv. run; try exact Hinv;
    eapply map_key_planes; eassumption.
Qed.

Lemma check_planes_planes n : forall fuel this key flags cplane pair m r this' m',
  check_planes E n fuel this key flags cplane pair m = Ok (r, this', m') ->
  additional_planes this <= layout_pages - 4 ->
  additional_planes this' <= layout_pages - 4.
Proof.
  induction n as [|n IH]; intros fuel this key flags cplane pair m r this' m' H Hinv;
    cbn [check_planes] in H; run; try exact Hinv.
  - eapply map_key_planes; eassumption.
  - eapply IH; [eassumption |]. eapply map_key_planes; eassumption.
  - eapply IH; eassumption.
Qed.

Lemma layout_key_planes fuel this key flags1 flags2 flags3 m r this' m' :
  layout_key E fuel this key flags1 flags2 flags3 m = Ok (r, this', m') ->
  additional_planes this <= layout_pages - 4 ->
  additional_planes this' <= layout_pages - 4.
Proof.
  unfold layout_key. intros H Hinv. run; try exact Hinv.
  all: match goal with
       | Hx : shift_normal _ _ _ _ _ _ _ _ = Ok (_, ?l, _) |- _ =>
           assert (additional_planes l <= layout_pages - 4)
             by (eapply shift_normal_planes; eassumption)
       end.
  all: try assumption.
  all: match goal with
       | Hx : check_planes _ _ _ _ _ _ _ _ _ = Ok (_, ?l, _) |- _ =>
           assert (additional_planes l <= layout_pages - 4)
             by (eapply check_planes_planes; eassumption)
       end.
  all: try assumption.
  unfold pending_diacritic in H. run; assumption.
Qed.

Lemma reachable_planes l : reachable E l -> additional_planes l <= layout_pages - 4.
Proof.
  induction 1 as [|l l' Hl IH Hstep].
  - unfold layout_pages. cbn. lia.
  - destruct Hstep.
    + match goal with
      | Hr : read_keyboard_file _ _ _ _ _ _ _ = Ok _ |- _ =>
          apply read_keyboard_file_result in Hr; destruct Hr as [Hr _]; exact (Hr IH)
      end.
    + eapply map_key_planes; eassumption.
    + eapply layout_key_planes; eassumption.
    + match goal with
      | Hs : switch_keyboard_layout _ _ _ _ _ = Ok _ |- _ =>
          unfold switch_keyboard_layout, read_keyboard_file_cp in Hs; run;
          cbn [this_layout]; try exact IH
      end.
      * destruct (use_foreign_layout this); exact IH.
      * destruct (use_foreign_layout this); exact IH.
    + match goal with
      | Hs : switch_keyboard_layout _ _ _ _ _ = Ok _, Hc : created_layout _ = Some _ |- _ =>
          unfold switch_keyboard_layout, read_keyboard_file_cp in Hs; run;
          cbn [created_layout] in Hc; try discriminate Hc;
          injection Hc as Hc; subst
      end.
      match goal with
      | Hr : read_keyboard_file _ _ _ _ _ _ _ = Ok _ |- _ =>
          apply read_keyboard_file_result in Hr; destruct Hr as [Hr _]; apply Hr;
          unfold layout_pages; cbn; lia
      end.
Qed.

(** X20.  The eight plane descriptors [current_layout_planes] are never
    indexed out of range.  Every layout object that the operations produce
    has at most [layout_pages - 4] additional planes, whatever the layout
    files hold, and on such an object neither a read of a layout file nor
    the translation of a key ends in an access outside the descriptors. *)
Theorem plane_descriptors_are_never_overrun (l : keyboard_layout) :
  reachable E l ->
  additional_planes l <= layout_pages - 4
  /\ (forall fuel name spec cp m,
        stays_inside planes_ (read_keyboard_file E fuel l name spec cp m))
  /\ (forall fuel key flags1 flags2 flags3 m,
        stays_inside planes_ (layout_key E fuel l key flags1 flags2 flags3 m)).
Proof.
  intros Hreach. pose proof (reachable_planes l Hreach) as Hinv.
  split; [exact Hinv |]. split.
  - intros. apply read_keyboard_file_inside.
  - intros. unfold layout_key, table.
    destruct (MAX_SCAN_CODE E <? key); [intros i; discriminate |].
    destruct (negb _); [intros i; discriminate |].
    apply bind_inside; [apply rd_other; discriminate |]. intros key_flags _.
    apply bind_inside; [apply shift_normal_inside |]. intros [[handled l1] m1] H1.
    destruct handled; [intros i; discriminate |].
    apply shift_normal_planes in H1; [| exact Hinv].
    apply bind_inside.
    + apply check_planes_inside; unfold layout_pages in *; lia.
    + intros [[handled l2] m2] _. destruct handled; [intros i; discriminate |].
      apply pending_diacritic_inside.
Qed.

End Properties.

(** * The properties on the machine with a few files *)

(** Closed statements are settled by evaluating both sides. *)
Ltac by_evaluation :=
  repeat match goal with
  | |- _ /\ _ => split
  end; vm_compute; reflexivity.

(** ** Memory safety of the parsers *)

(** C1.  The parser leaves its arrays on three layout files of the
    machine.  high.kl holds a key record with scan code 0x81: the test
    masks the code with 0x7f, the table is indexed with the code itself,
    and element 0x81 * 12 of the 1068 elements of [current_layout] is
    written.  long.kl holds a diacritics table whose scan ends at 2048:
    the copy runs up to that index inclusive and writes [diacritics[2048]].
    far.kl names a diacritics table at offset 0xffff: [read_buf] is read
    at 6 + 0xffff. *)
Theorem parser_leaves_its_arrays :
  TABLE E0 = 1068
  /\ read_keyboard_file_cp E0 10 (new_keyboard_layout E0) (str "high") 437 m0
     = Fault current_layout_ (0x81 * 12)
  /\ read_keyboard_file_cp E0 10 (new_keyboard_layout E0) (str "long") 437 m0
     = Fault diacritics_ 2048
  /\ read_keyboard_file_cp E0 10 (new_keyboard_layout E0) (str "far") 437 m0
     = Fault read_buf_ (6 + 0xffff).
Proof. by_evaluation. Qed.

(** ** Pass-through *)

Lemma layout_key_pass_through_witness :
  use_foreign_layout (new_keyboard_layout E0) = false
  /\ layout_key E0 10 (new_keyboard_layout E0) 0x1e 0x01 0 0 m0
     = Ok (false, new_keyboard_layout E0, m0).
Proof.
  split; [reflexivity |].
  apply (layout_key_pass_through E0 10 (new_keyboard_layout E0) 0x1e 0x01 0 0 m0).
  reflexivity.
Defined.

Lemma read_codepage_file_skip_witness :
  read_codepage_file E0 (str "back.cpi") 437 m0 = Ok (KEYB_NOERROR, m0).
Proof.
  apply (read_codepage_file_skip E0 (str "back.cpi") 437 m0).
  right. reflexivity.
Defined.

(** ** Dead keys *)

Lemma fr_dead_reachable : reachable E0 fr_dead.
Proof.
  apply (reach_step E0 (layout_of fr_session)).
  - apply (reach_step E0 (new_keyboard_layout E0)); [apply reach_new |].
    apply (step_read_keyboard_file E0 10 (new_keyboard_layout E0) (str "fr") (-1) 437 m0
             KEYB_NOERROR (layout_of fr_session) (mach fr_session)).
    vm_compute. reflexivity.
  - apply (step_layout_key E0 10 (layout_of fr_session) 0x1a 0 0 0 (mach fr_session)
             true fr_dead (mach fr_dead_session)).
    vm_compute. reflexivity.
Qed.

(** The layout of fr.kl with its dead key pressed is reachable, and its
    dead-key state, 200, is in range. *)
Lemma diacritics_character_in_range_witness :
  reachable E0 fr_dead /\ diacritics_character fr_dead = 200 /\ dc_inv fr_dead.
Proof.
  split; [exact fr_dead_reachable |].
  split; [vm_compute; reflexivity |].
  apply (diacritics_character_in_range E0 fr_dead). exact fr_dead_reachable.
Defined.

(** C2 fails as stated.  With fr.kl loaded, the dead key (scan code 0x1a)
    followed by q (scan code 0x10), which no pair of the sub-table holds,
    hands two values to the key buffer: 0x105e, the lead byte, and then
    0x1071, the letter itself. *)
Lemma dead_key_then_q_emits_two :
  keys_seen (type_keys fr_session [0x1a; 0x10])
  = Ok ([true; true], [BIOS_AddKeyToBuffer 0x105e; BIOS_AddKeyToBuffer 0x1071]).
Proof. vm_compute. reflexivity. Qed.

(** The dead key of fr.kl followed by e, on the layout object itself. *)
Lemma dead_key_then_literal_witness :
  map_key E0 10 (layout_of fr_session) 0x1a 200 true false m0
  = Ok (true, set_diacritics_character 200 (layout_of fr_session), m0)
  /\ map_key E0 10 (set_diacritics_character 200 (layout_of fr_session)) 0x12 0x65
       false false m0
     = Ok (true,
           set_diacritics_character 0
             (set_diacritics_character 200 (layout_of fr_session)),
           emit (BIOS_AddKeyToBuffer 0x1288) m0).
Proof.
  pose proof (dead_key_then_literal E0 10 (layout_of fr_session) 0x1a 200 false m0
                0x12 0x65 false 0 1) as H.
  cbv zeta in H.
  assert (Hc : 200 <= u8 (Z.land 200 255) < 235)
    by (change (u8 (Z.land 200 255)) with 200; lia).
  assert (He : u8 (Z.land 200 255) < diacritics_entries (layout_of fr_session) + 200)
    by (vm_compute; reflexivity).
  assert (Hs : subtable_start (Z.to_nat (u8 (Z.land 200 255) - 200))
                 (diacritics (layout_of fr_session)) 0 = Ok 0)
    by (vm_compute; reflexivity).
  assert (Hn : rd diacritics_ 0 2048 (diacritics (layout_of fr_session)) (0 + 1) = Ok 1)
    by (vm_compute; reflexivity).
  assert (Hr : 0 + 2 + 2 * 1 <= 2048) by lia.
  destruct (H Hc He Hs Hn Hr) as [H1 [H2 _]].
  split; [exact H1 |].
  apply (H2 0); [lia | vm_compute; reflexivity | intros j Hj; lia].
Defined.

(** C3 fails as stated.  With fr.kl loaded and its dead key pending, the
    key with scan code 0x1e, which the layout does not map on any plane
    and which is not a state-changing key, reaches the last block of
    [layout_key]: the call returns false and hands 0x1e5e to the key
    buffer. *)
Lemma pending_dead_key_then_unmapped_key :
  diacritics_character fr_dead = 200
  /\ state_key 0x1e = false
  /\ row fr_dead 0x1e 10 = repeat 0 10
  /\ layout_key E0 10 fr_dead 0x1e 0 0 0 m0
     = Ok (false, set_diacritics_character 0 fr_dead,
           emit (BIOS_AddKeyToBuffer 0x1e5e) m0).
Proof. by_evaluation. Qed.

Lemma pending_diacritic_step_witness :
  layout_key E0 10 fr_dead 0x1e 0 0 0 m0
  = Ok (false, set_diacritics_character 0 fr_dead,
        emit (BIOS_AddKeyToBuffer (keycode 0x1e 0x5e)) m0).
Proof.
  refine (proj2 (pending_diacritic_step E0 10 fr_dead 0x1e 0 0 0 m0 0 fr_dead fr_dead m0 m0
                   _ _ _ _ _ _ _) _ 0 0x5e _ _);
    vm_compute; try reflexivity; discriminate.
Defined.

(** ** Key records *)

(** C7 fails as stated.  two.kl has no additional planes and two records
    for scan code 0x10: a, A and then b, 0, c.  For the second record
    min(scan_length, additional_planes + 2) is 2, but plane 1 keeps A
    (the zero entry is not installed) and plane 2 receives c. *)
Lemma record_with_zero_entry :
  additional_planes (layout_of (loaded (str "two"))) = 0
  /\ row (layout_of (loaded (str "two"))) 0x10 3 = [0x62; 0x41; 0x63].
Proof. by_evaluation. Qed.

(** The second record of two.kl, whose entries start at offset 42, on the
    table that the first record has left. *)
Lemma key_record_installs_witness :
  let l := set_current_layout
             (place [0x61; 0x41] (Z.to_nat (0x10 * layout_pages)) (repeat 0 1068))
             (new_keyboard_layout E0) in
  exists n' l',
    key_record E0 two_kl 42 0x10 3 l = Ok (n', l')
    /\ byte_at (current_layout l') (0x10 * layout_pages + 0) = 0x62
    /\ byte_at (current_layout l') (0x10 * layout_pages + 1) = 0x41.
Proof.
  intros l.
  destruct (key_record E0 two_kl 42 0x10 3 l) as [[n' l'] | | | |] eqn:H;
    try (vm_compute in H; discriminate H).
  exists n', l'. split; [reflexivity |].
  assert (H0 : 0 <= 0x10) by lia.
  assert (H1 : Z.land 0x10 0x7f <= MAX_SCAN_CODE E0)
    by (change (Z.land 0x10 0x7f) with 16; change (MAX_SCAN_CODE E0) with 88; lia).
  assert (H2 : 1 <= 3 <= 8) by lia.
  destruct (key_record_installs E0 two_kl 42 0x10 3 l l' n' H0 H1 H2 H) as [Hin _].
  assert (Hmin : Z.min 3 (additional_planes l + 2) = 2) by reflexivity.
  split.
  - rewrite (Hin 0) by (rewrite Hmin; lia). vm_compute. reflexivity.
  - rewrite (Hin 1) by (rewrite Hmin; lia). vm_compute. reflexivity.
Defined.

(** ** Code pages *)

(** C6.  The test for the DR-DOS format is false on the very five bytes
    of that format; drdos.cpi, which starts with them and carries the
    UPX identifier, is unpacked and parsed, and here the call returns
    [KEYB_NOERROR] with code page 850 loaded. *)
Theorem drdos_file_is_not_rejected :
  is_drdos_cpi 0x7f 0x44 0x52 0x46 0x5f = false
  /\ firstn 5 drdos_cpi = [0x7f; 0x44; 0x52; 0x46; 0x5f]
  /\ read_codepage_file E0 (str "drdos.cpi") 850 m0
     = Ok (KEYB_NOERROR,
           emit INT10_SetupRomMemoryChecksum (set_loaded_codepage 850 m0)).
Proof. by_evaluation. Qed.

(** C8 fails as stated.  In back.cpi the first entry, at 0x64, does not
    match code page 850, and its next pointer leads back to 0x20; the
    entry there matches, and the call returns [KEYB_NOERROR]. *)
Lemma backward_pointer_is_followed :
  entry_matches back_cpi 0x64 850 = Ok false
  /\ next_entry back_cpi 0x64 = Ok 0x20
  /\ read_codepage_file E0 (str "back.cpi") 850 m0
     = Ok (KEYB_NOERROR,
           emit INT10_SetupRomMemoryChecksum (set_loaded_codepage 850 m0)).
Proof. by_evaluation. Qed.

Lemma search_codepages_follows_chain_witness :
  search_codepages E0 2 back_cpi 0x64 850 m0
  = install_codepage E0 back_cpi 0x90 850 m0.
Proof.
  refine (proj1 (proj2 (search_codepages_follows_chain E0 back_cpi 850 m0 2 0x64)
                   1%nat 0x20 0x90 _ _ _ _ _)).
  - lia.
  - vm_compute. reflexivity.
  - vm_compute. reflexivity.
  - vm_compute. reflexivity.
  - intros j Hj. assert (j = 0%nat) by lia. subst j.
    exists 0x64. split; vm_compute; reflexivity.
Defined.

(** ** A switch that fails *)

(** C4.  With f.kl loaded, the switch to the layout x fails with
    [KEYB_LAYOUTNOTFOUND] and leaves the layout object and the code page
    as they were.  Yet the keys 0x10 and 0x1e, typed before the switch,
    put nothing into the key buffer, and typed after it put 0x1e5a there:
    key 0x10 makes the layout parse f.kl again, the key table of its
    third submapping starts at the last byte of the file, and the bytes
    the parser reads behind the file in its static buffer are now those
    of x.kl. *)
Theorem failed_switch_changes_translation :
  DOS_SwitchKeyboardLayout E0 10 f_session (str "x")
  = Ok (KEYB_LAYOUTNOTFOUND, Some 437, f_after_switch)
  /\ loaded_layout f_after_switch = loaded_layout f_session
  /\ loaded_codepage (mach f_after_switch) = loaded_codepage (mach f_session)
  /\ keys_seen (type_keys f_session [0x10; 0x1e]) = Ok ([true; false], [])
  /\ keys_seen (type_keys f_after_switch [0x10; 0x1e])
     = Ok ([true; true], [BIOS_AddKeyToBuffer 0x1e5a]).
Proof. by_evaluation. Qed.

(** * More of the code on the two machines *)

(** A list of bytes, decided by evaluation. *)
Lemma bytes_decide (a : list Z) :
  forallb (fun b => (0 <=? b) && (b <? 256)) a = true -> bytes a.
Proof.
  intros H. apply Forall_forall. intros b Hb.
  rewrite forallb_forall in H. specialize (H b Hb).
  apply andb_prop in H. destruct H as [H0 H1].
  apply Z.leb_le in H0. apply Z.ltb_lt in H1. lia.
Qed.

Lemma small_bytes_decide (a : list Z) :
  forallb (fun b => (0 <=? b) && (b <? 256)) a = true ->
  (len a <? 2 ^ 31) = true -> small_bytes a.
Proof.
  intros Hb Hl. split; [apply bytes_decide; exact Hb | apply Z.ltb_lt; exact Hl].
Qed.

Lemma lookup_sound files :
  Forall (fun f => small_bytes (snd f)) files ->
  forall name file, lookup files name = Some file -> small_bytes file.
Proof.
  intros Hall name file. induction files as [|[n content] rest IH]; cbn [lookup].
  - discriminate.
  - apply Forall_cons_iff in Hall. destruct Hall as [Hc Hrest].
    destruct (cstr_eqb n name).
    + intros H. injection H as <-. exact Hc.
    + apply IH. exact Hrest.
Qed.

Lemma disk_sound : Forall (fun f => small_bytes (snd f)) disk.
Proof.
  unfold disk.
  repeat (apply Forall_cons;
          [apply small_bytes_decide; vm_compute; reflexivity |]).
  apply Forall_nil.
Qed.

Lemma sound_env_E0 : sound_env E0.
Proof.
  split.
  - apply (lookup_sound disk disk_sound).
  - intros i. apply small_bytes_decide; reflexivity.
Qed.

Lemma sound_env_E1 : sound_env E1.
Proof.
  split.
  - apply (lookup_sound ((str "keyboard.sys", keyboard_sys) :: disk)).
    apply Forall_cons; [apply small_bytes_decide; vm_compute; reflexivity |].
    exact disk_sound.
  - intros i. apply small_bytes_decide; reflexivity.
Qed.

(** ** A read that fails *)

Lemma failed_read_passes_keys_through_witness :
  exists code this' m',
    read_keyboard_file E0 10 (new_keyboard_layout E0) (str "x") (-1) 437 m0
    = Ok (code, this', m')
    /\ code = KEYB_LAYOUTNOTFOUND
    /\ layout_key E0 10 this' 0x1e 0 0 0 m' = Ok (false, this', m').
Proof.
  destruct (read_keyboard_file E0 10 (new_keyboard_layout E0) (str "x") (-1) 437 m0)
    as [[[code this'] m'] | | | |] eqn:H; try (vm_compute in H; discriminate H).
  assert (Hcode : code = KEYB_LAYOUTNOTFOUND).
  { vm_compute in H. injection H as <- _ _. reflexivity. }
  exists code, this', m'. split; [reflexivity |]. split; [exact Hcode |].
  assert (Herr : is_error code = true) by (rewrite Hcode; reflexivity).
  assert (Hplanes : additional_planes (new_keyboard_layout E0) <= layout_pages - 4)
    by (vm_compute; discriminate).
  destruct (failed_read_passes_keys_through E0 10 (new_keyboard_layout E0) (str "x")
              (-1) 437 m0 code this' m' H Herr Hplanes) as [_ [Hkeys _]].
  apply Hkeys. lia.
Defined.

(** ** Loading *)

Lemma loaded_layout_is_reported_witness :
  DOS_GetLoadedLayout fr_session = Some (str "fr").
Proof.
  assert (H : DOS_LoadKeyboardLayout E0 10 (initial_session E0) (str "fr") 437 (str "none")
              = Ok (KEYB_NOERROR, fr_session)) by (vm_compute; reflexivity).
  rewrite (loaded_layout_is_reported E0 10 (initial_session E0) (str "fr") 437
             (str "none") fr_session H).
  vm_compute. reflexivity.
Defined.

Lemma failed_load_keeps_session_witness :
  exists s',
    DOS_LoadKeyboardLayout E0 10 fr_session (str "x") 437 (str "none")
    = Ok (KEYB_LAYOUTNOTFOUND, s')
    /\ loaded_layout s' = loaded_layout fr_session
    /\ loaded_codepage (mach s') = loaded_codepage (mach fr_session)
    /\ trace (mach s') = trace (mach fr_session).
Proof.
  destruct (DOS_LoadKeyboardLayout E0 10 fr_session (str "x") 437 (str "none"))
    as [[code s'] | | | |] eqn:H; try (vm_compute in H; discriminate H).
  assert (Hcode : code = KEYB_LAYOUTNOTFOUND).
  { vm_compute in H. injection H as <- _. reflexivity. }
  subst code. exists s'. split; [reflexivity |].
  apply (failed_load_keeps_session E0 10 fr_session (str "x") 437 (str "none")
           KEYB_LAYOUTNOTFOUND s' H).
  reflexivity.
Defined.

(** ** Switching *)

Lemma switch_to_US_and_back_witness :
  DOS_SwitchKeyboardLayout E0 10
    {| loaded_layout := Some (layout_of fr_session); mach := m0 |} (str "us")
  = Ok (KEYB_NOERROR, None,
        {| loaded_layout :=
             Some (set_diacritics_character 0
                     (set_use_foreign_layout false (layout_of fr_session)));
           mach := m0 |}).
Proof.
  assert (Huse : use_foreign_layout (layout_of fr_session) = true)
    by (vm_compute; reflexivity).
  assert (Hus : strncasecmp_eq (str "us") (str "US") 2 = true)
    by (vm_compute; reflexivity).
  assert (Hcode : strncasecmp_eq (str "fr") (str "US") 2 = false)
    by (vm_compute; reflexivity).
  assert (Hin : In (str "fr") (language_codes (layout_of fr_session)))
    by (vm_compute; left; reflexivity).
  assert (Hlen : (List.length (str "fr") < 256)%nat) by (vm_compute; lia).
  exact (proj1 (switch_to_US_and_back E0 10 (layout_of fr_session) m0
                  (str "us") (str "fr") Huse Hus Hcode Hin Hlen)).
Defined.

Lemma switch_foreign_layout_toggles_witness :
  get_layout_name (switch_foreign_layout (layout_of fr_session)) = None
  /\ layout_key E0 10 (switch_foreign_layout (layout_of fr_session)) 0x12 0 0 0 m0
     = Ok (false, switch_foreign_layout (layout_of fr_session), m0)
  /\ switch_foreign_layout (switch_foreign_layout (layout_of fr_session))
     = set_diacritics_character 0 (layout_of fr_session).
Proof.
  apply (switch_foreign_layout_toggles E0 10 (layout_of fr_session) 0x12 0 0 0 m0).
  vm_compute. reflexivity.
Defined.

Lemma successful_switch_installs_witness :
  exists s',
    DOS_SwitchKeyboardLayout E1 10 f_session (str "de") = Ok (KEYB_NOERROR, Some 850, s')
    /\ loaded_codepage (mach s') = 850
    /\ DOS_GetLoadedLayout s' = Some (str "de").
Proof.
  destruct (DOS_SwitchKeyboardLayout E1 10 f_session (str "de"))
    as [[[code tried] s'] | | | |] eqn:H; try (vm_compute in H; discriminate H).
  assert (Hcode : code = KEYB_NOERROR /\ tried = Some 850).
  { vm_compute in H. injection H as <- <- _. split; reflexivity. }
  destruct Hcode as [-> ->]. exists s'. split; [reflexivity |].
  assert (Hrange : 0 <= 850 < 65536) by lia.
  destruct (successful_switch_installs E1 10 f_session (str "de") 850 s' H Hrange)
    as [Hcp Hname].
  split; [exact Hcp |]. rewrite Hname. vm_compute. reflexivity.
Defined.

(** ** The loop over the submappings *)

Lemma specific_submapping_can_loop_forever_witness :
  submappings_loop E0 loop_kl 1000 58 6 4 2 437 1 false (new_keyboard_layout E0) = Timeout.
Proof.
  apply (specific_submapping_can_loop_forever E0 loop_kl 58 6 4 2 437 850).
  - lia.
  - lia.
  - lia.
  - vm_compute. reflexivity.
  - discriminate.
  - vm_compute. reflexivity.
  - vm_compute. reflexivity.
  - lia.
Defined.

Lemma loading_and_switching_end_witness :
  DOS_LoadKeyboardLayout E0 257 fr_session (str "f") 437 (str "none") <> Timeout
  /\ DOS_SwitchKeyboardLayout E0 257 fr_session (str "f") <> Timeout.
Proof.
  apply (loading_and_switching_end E0 257 fr_session (str "f") 437 (str "none")).
  - exact sound_env_E0.
  - apply bytes_decide. vm_compute. reflexivity.
  - lia.
Defined.

(** ** The code page of a layout *)

Lemma extracted_codepage_is_found_witness :
  exists code this' m2,
    extract_codepage E1 (str "de") m0 = Ok (850, de_extracted)
    /\ read_keyboard_file_cp E1 10 (new_keyboard_layout E1) (str "de") 850 de_extracted
       = Ok (code, this', m2)
    /\ code = KEYB_NOERROR.
Proof.
  assert (He : extract_codepage E1 (str "de") m0 = Ok (850, de_extracted))
    by (vm_compute; reflexivity).
  destruct (read_keyboard_file_cp E1 10 (new_keyboard_layout E1) (str "de") 850
              de_extracted)
    as [[[code this'] m2] | | | |] eqn:Hr; try (vm_compute in Hr; discriminate Hr).
  exists code, this', m2. split; [exact He |]. split; [reflexivity |].
  assert (Hbufs : kl_read_buf m0 = cp_read_buf m0) by (vm_compute; reflexivity).
  assert (Hcp : 850 <> 437) by discriminate.
  exact (extracted_codepage_is_found E1 10 (new_keyboard_layout E1) (str "de") m0 850
           de_extracted code this' m2 Hbufs He Hcp Hr).
Defined.

Lemma extract_codepage_stays_in_bounds_witness :
  exists cp rb,
    extract_codepage E0 (str "fr") m0 = Ok (cp, set_cp_read_buf rb m0)
    /\ 1 <= cp <= 65535.
Proof.
  apply (extract_codepage_stays_in_bounds E0 (str "fr") fr_kl m0).
  - vm_compute. discriminate.
  - vm_compute. reflexivity.
  - apply bytes_decide. vm_compute. reflexivity.
  - apply bytes_decide. vm_compute. reflexivity.
Defined.

Lemma library_offsets_in_range_witness :
  7 <= 7
  /\ exists file, open_file E1 (str "keyboard.sys") = Some file /\ 7 + 5 <= len file.
Proof.
  assert (H : try_all E1 attempts (str "de")
              = Ok (Some (LibraryFile (str "keyboard.sys"), 7)))
    by (vm_compute; reflexivity).
  exact (library_offsets_in_range E1 attempts (str "de")
           (LibraryFile (str "keyboard.sys")) 7 sound_env_E1 H).
Defined.

(** ** Code pages *)

Lemma read_codepage_file_loads_witness :
  loaded_codepage (emit INT10_SetupRomMemoryChecksum (set_loaded_codepage 850 m0)) = 850
  /\ kl_read_buf (emit INT10_SetupRomMemoryChecksum (set_loaded_codepage 850 m0))
     = kl_read_buf m0
  /\ cp_read_buf (emit INT10_SetupRomMemoryChecksum (set_loaded_codepage 850 m0))
     = cp_read_buf m0
  /\ exists evs,
       trace (emit INT10_SetupRomMemoryChecksum (set_loaded_codepage 850 m0))
       = trace m0 ++ evs ++ [INT10_SetupRomMemoryChecksum].
Proof.
  assert (H : read_codepage_file E0 (str "back.cpi") 850 m0
              = Ok (KEYB_NOERROR,
                    emit INT10_SetupRomMemoryChecksum (set_loaded_codepage 850 m0)))
    by (vm_compute; reflexivity).
  apply (read_codepage_file_loads E0 (str "back.cpi") 850 m0 _ H).
  - vm_compute. reflexivity.
  - vm_compute. discriminate.
  - lia.
Defined.

Lemma write_font_copies_in_order_witness :
  trace (emit (phys_writeb 101 9) (emit (phys_writeb 100 8) m0))
  = trace m0 ++ [phys_writeb 100 8; phys_writeb 101 9].
Proof.
  assert (H : write_font 2 [7; 8; 9] 100 1 0 m0
              = Ok (emit (phys_writeb 101 9) (emit (phys_writeb 100 8) m0)))
    by (vm_compute; reflexivity).
  rewrite (proj1 (write_font_copies_in_order 2 [7; 8; 9] 100 1 0 m0 _ H)).
  vm_compute. reflexivity.
Defined.

(** ** Key presses *)

Lemma layout_key_enqueues_at_most_two_witness :
  exists r this' m' ks,
    layout_key E0 10 fr_dead 0x10 0 0 0 (mach fr_dead_session) = Ok (r, this', m')
    /\ trace m' = trace (mach fr_dead_session) ++ map BIOS_AddKeyToBuffer ks
    /\ (List.length ks <= 2)%nat.
Proof.
  destruct (layout_key E0 10 fr_dead 0x10 0 0 0 (mach fr_dead_session))
    as [[[r this'] m'] | | | |] eqn:H; try (vm_compute in H; discriminate H).
  destruct (layout_key_enqueues_at_most_two E0 10 fr_dead 0x10 0 0 0
              (mach fr_dead_session) r this' m' H) as [ks [Ht [_ [Hlen _]]]].
  exists r, this', m', ks. split; [reflexivity |]. split; assumption.
Defined.

Lemma layout_key_keeps_the_layout_name_witness :
  exists r this' m',
    layout_key E0 10 (layout_of f_session) 0x10 0 0 0 (mach f_session) = Ok (r, this', m')
    /\ get_layout_name this' = Some (str "f").
Proof.
  destruct (layout_key E0 10 (layout_of f_session) 0x10 0 0 0 (mach f_session))
    as [[[r this'] m'] | | | |] eqn:H; try (vm_compute in H; discriminate H).
  exists r, this', m'. split; [reflexivity |].
  rewrite (layout_key_keeps_the_layout_name E0 10 (layout_of f_session) 0x10 0 0 0
             (mach f_session) r this' m' H).
  vm_compute. reflexivity.
Defined.

Lemma ctrl_or_alt_skips_the_base_planes_witness :
  shift_normal E0 10 fr_dead 0x12 0x04 0 false m0 = Ok (false, fr_dead, m0).
Proof.
  apply (ctrl_or_alt_skips_the_base_planes E0 fr_dead 10 0x12 0x04 0 false m0).
  - exact fr_dead_reachable.
  - left. vm_compute. reflexivity.
Defined.

Lemma user_key_commands_witness :
  exists on,
    map_key E0 10 (new_keyboard_layout E0) 0x3b 191 true false m0
    = Ok (true, set_user_keys on (new_keyboard_layout E0), m0)
    /\ Z.testbit on 3 = true.
Proof.
  assert (Hk : 0 <= 3 < 8) by lia.
  assert (Huser : 0 <= user_keys (new_keyboard_layout E0) < 65536)
    by (vm_compute; split; [discriminate | reflexivity]).
  assert (Hon : u8 (Z.land 191 0xff) = 188 + 3) by (vm_compute; reflexivity).
  assert (Hoff : u8 (Z.land 183 0xff) = 180 + 3) by (vm_compute; reflexivity).
  destruct (user_key_commands E0 10 (new_keyboard_layout E0) 0x3b 3 191 183 false m0
              Hk Huser Hon Hoff) as [[on [Hmap [_ Hbits]]] _].
  exists on. split; [exact Hmap |]. rewrite Hbits by lia. reflexivity.
Defined.

(** ** The diacritics table *)

Lemma parsed_diacritics_are_well_formed_witness :
  exists code this' m',
    read_keyboard_file E0 10 (new_keyboard_layout E0) (str "fr") (-1) 437 m0
    = Ok (code, this', m')
    /\ diacritics_ok this'.
Proof.
  destruct (read_keyboard_file E0 10 (new_keyboard_layout E0) (str "fr") (-1) 437 m0)
    as [[[code this'] m'] | | | |] eqn:H; try (vm_compute in H; discriminate H).
  exists code, this', m'. split; [reflexivity |].
  assert (Hb : bytes (kl_read_buf m0)) by (apply bytes_decide; vm_compute; reflexivity).
  destruct (parsed_diacritics_are_well_formed E0 10 (new_keyboard_layout E0) m0
              sound_env_E0 Hb) as [Hr _].
  exact (proj1 (Hr _ _ _ _ _ _ H)).
Defined.

(** The table of fr.kl has one sub-table, of one pair. *)
Lemma fr_dead_diacritics : diacritics_ok fr_dead.
Proof.
  intros k Hk.
  assert (He : diacritics_entries fr_dead = 1) by (vm_compute; reflexivity).
  rewrite He in Hk. assert (k = 0) by lia. subst k.
  exists 0, 1. repeat split; try (vm_compute; reflexivity); vm_compute; discriminate.
Qed.

Lemma fr_dead_pending : dc_inv fr_dead.
Proof. right. split; [vm_compute; discriminate | vm_compute; reflexivity]. Qed.

Lemma literal_keys_stay_inside_the_table_witness :
  exists this' m',
    map_key E0 10 fr_dead 0x12 0x65 false false (mach fr_dead_session) = Ok (true, this', m')
    /\ diacritics_character this' = 0.
Proof.
  exact (proj1 (literal_keys_stay_inside_the_table E0 10 fr_dead 0x12 0x65 false
                  (mach fr_dead_session) fr_dead_diacritics fr_dead_pending)).
Defined.

(** ** The plane descriptors *)

Lemma plane_descriptors_are_never_overrun_witness :
  additional_planes fr_dead <= layout_pages - 4
  /\ stays_inside planes_ (layout_key E0 10 fr_dead 0x10 0 0 0 (mach fr_dead_session)).
Proof.
  destruct (plane_descriptors_are_never_overrun E0 fr_dead fr_dead_reachable)
    as [Hb [_ Hk]].
  split; [exact Hb | apply Hk].
Defined.
